(** * Language-learning chat assistant: request modes, normalizer, grader

    A shallow embedding of the logic of [web/app/api/chat/route.js] (the
    server route: mode resolution, prompt context, answer-key redaction,
    normalization of the model output) and of [web/app/page.js] (the browser
    controller: objective grader, level inference, exercise lifecycle), with
    the properties of the specification stated and proved over it, and
    further properties of the code after them.

    Conventions of the embedding.
    - A JavaScript string is a sequence of UTF-16 code units; the embedding
      covers the code units 0..255 (the Latin-1 range), one [ascii] each.
      [trim], [toLowerCase] and the regular expressions of the source are
      modelled exactly on that range.
    - A JavaScript value is a [value]; objects are association lists in
      property-enumeration order, with unique keys.  Numbers are integers
      (the only numbers the schema uses are the flags 0 and 1).
    - [get] models own data properties; it serves the static keys of the
      source, none of which names an index, [length] or a member inherited
      from a prototype.  The keys computed at run time (blank ids) go
      through [getComputed] and [assignComputed], which follow the prototype
      chain.
    - A thrown exception is the [Throw] case of [res]. *)

From Stdlib Require Import String Ascii List ZArith Bool Lia DecimalString
  Permutation.
Import ListNotations.
Open Scope string_scope.

(** ** JavaScript strings *)

Module JsString.

Definition code (c : ascii) : N := N_of_ascii c.

Definition between (lo hi : N) (c : ascii) : bool :=
  (N.leb lo (code c) && N.leb (code c) hi)%N.

(** WhiteSpace and LineTerminator code units below 256: TAB, LF, VT, FF, CR,
    SPACE and NO-BREAK SPACE.  This is the class of [String.prototype.trim]
    and of [\s]. *)
Definition isSpace (c : ascii) : bool :=
  between 9 13 c || N.eqb (code c) 32 || N.eqb (code c) 160.

(** [\w] without the [u] flag: ASCII letters, digits and underscore. *)
Definition isWordChar (c : ascii) : bool :=
  between 48 57 c || between 65 90 c || between 97 122 c || N.eqb (code c) 95.

(** Upper-case letters of Latin-1: A-Z, and U+00C0..U+00DE except U+00D7. *)
Definition isUpper (c : ascii) : bool :=
  between 65 90 c || (between 192 222 c && negb (N.eqb (code c) 215)).

Definition lowerChar (c : ascii) : ascii :=
  if isUpper c then ascii_of_N (code c + 32) else c.

(** ASCII letters only.  That is exact for the two uses the source makes of
    upper case: [toUpperCase] on a matched level code, and the comparison of
    a character with an ASCII letter or digit under the [i] flag. *)
Definition upperChar (c : ascii) : ascii :=
  if between 97 122 c then ascii_of_N (code c - 32) else c.

Fixpoint mapChars (f : ascii -> ascii) (s : string) : string :=
  match s with
  | EmptyString => EmptyString
  | String c r => String (f c) (mapChars f r)
  end.

Definition toLowerCase : string -> string := mapChars lowerChar.
Definition toUpperCase : string -> string := mapChars upperChar.

Fixpoint trimStart (s : string) : string :=
  match s with
  | EmptyString => EmptyString
  | String c r => if isSpace c then trimStart r else s
  end.

Fixpoint trimEnd (s : string) : string :=
  match s with
  | EmptyString => EmptyString
  | String c r =>
      match trimEnd r with
      | EmptyString => if isSpace c then EmptyString else String c EmptyString
      | r' => String c r'
      end
  end.

Definition trim (s : string) : string := trimEnd (trimStart s).

Fixpoint startsWith (p s : string) : bool :=
  match p, s with
  | EmptyString, _ => true
  | String a p', String b s' => Ascii.eqb a b && startsWith p' s'
  | String _ _, EmptyString => false
  end.

(** [hay.includes(needle)] *)
Fixpoint includes (needle hay : string) : bool :=
  startsWith needle hay ||
  match hay with
  | EmptyString => false
  | String _ r => includes needle r
  end.

Fixpoint occurs (c : ascii) (s : string) : bool :=
  match s with
  | EmptyString => false
  | String d r => Ascii.eqb c d || occurs c r
  end.

Definition isEmpty (s : string) : bool :=
  match s with EmptyString => true | _ => false end.

(** All 256 code units, to settle facts about characters by enumeration. *)
Definition allChars : list ascii := map ascii_of_nat (seq 0 256).

(** [parts.join(sep)] on strings *)
Definition join (sep : string) (parts : list string) : string :=
  String.concat sep parts.

End JsString.

Import JsString.

(** ** JavaScript values *)

Module Js.

(** An array carries its elements and the named (non-index) properties that
    code may have attached to it; [JSON.parse] yields arrays without any. *)
#[local] Unset Elimination Schemes.
Inductive value : Type :=
| VUndef
| VNull
| VBool (b : bool)
| VNum (n : Z)
| VStr (s : string)
| VArr (items : list value) (extra : list (string * value))
| VObj (props : list (string * value)).
#[local] Set Elimination Schemes.

Inductive exn : Type :=
| TypeError (what : string)
| Error (message : string).

(** [e.message] *)
Definition message_of (e : exn) : string :=
  match e with TypeError m => m | Error m => m end.

Inductive res (A : Type) : Type :=
| Ok (a : A)
| Throw (e : exn).
Arguments Ok {A} a.
Arguments Throw {A} e.

Definition bind {A B : Type} (m : res A) (f : A -> res B) : res B :=
  match m with Ok a => f a | Throw e => Throw e end.

Notation "'do' x <- m ; k" := (bind m (fun x => k))
  (at level 10, x name, m at level 100, k at level 200).

(** *** Property tables *)

Fixpoint lookup (k : string) (props : list (string * value)) : option value :=
  match props with
  | [] => None
  | (k', v) :: rest => if String.eqb k k' then Some v else lookup k rest
  end.

(** Assignment [o[k] = v]: an existing property keeps its place, a new one
    goes last. *)
Fixpoint assign (k : string) (v : value) (props : list (string * value))
  : list (string * value) :=
  match props with
  | [] => [(k, v)]
  | (k', v') :: rest =>
      if String.eqb k k' then (k', v) :: rest else (k', v') :: assign k v rest
  end.

(** [delete o[k]] *)
Fixpoint remove (k : string) (props : list (string * value))
  : list (string * value) :=
  match props with
  | [] => []
  | (k', v') :: rest =>
      if String.eqb k k' then remove k rest else (k', v') :: remove k rest
  end.

(** [v?.k]; also [v.k] wherever the source has established that [v] is
    neither null nor undefined. *)
Definition get (v : value) (k : string) : value :=
  match v with
  | VObj props | VArr _ props =>
      match lookup k props with Some x => x | None => VUndef end
  | _ => VUndef
  end.

(** [v.k] where [v] may be null or undefined. *)
Definition getStrict (v : value) (k : string) : res value :=
  match v with
  | VUndef | VNull =>
      Throw (TypeError ("Cannot read properties of null or undefined (reading '" ++ k ++ "')"))
  | _ => Ok (get v k)
  end.

(** [o.k = x] on an object or array [o]; a primitive is left as it is. *)
Definition set (o : value) (k : string) (x : value) : value :=
  match o with
  | VObj props => VObj (assign k x props)
  | VArr items props => VArr items (assign k x props)
  | _ => o
  end.

(** [delete o.k] *)
Definition delete (o : value) (k : string) : value :=
  match o with
  | VObj props => VObj (remove k props)
  | VArr items props => VArr items (remove k props)
  | _ => o
  end.

(** *** Computed keys

    A key computed at run time can name what no static key of the source
    does: an array index, [length], or a member that the value inherits
    from its prototype. *)

Fixpoint digitsValue (acc : N) (s : string) : option N :=
  match s with
  | EmptyString => Some acc
  | String c r =>
      if between 48 57 c then digitsValue (10 * acc + (code c - 48)) r
      else None
  end.

(** An array index: the canonical decimal text of an integer from 0 to
    2^32 - 2. *)
Definition arrayIndex (k : string) : option N :=
  match k with
  | EmptyString => None
  | String c r =>
      if Ascii.eqb c "0" && negb (isEmpty r) then None
      else match digitsValue 0 k with
           | Some n => if (n <? 4294967295)%N then Some n else None
           | None => None
           end
  end.

(** A new property under the array index [n]: an object lists its array
    indices first, in ascending order, and its other keys after them, in
    the order of their creation. *)
Fixpoint insertIndex (n : N) (k : string) (x : value)
  (props : list (string * value)) : list (string * value) :=
  match props with
  | [] => [(k, x)]
  | (k', x') :: rest =>
      match arrayIndex k' with
      | Some m =>
          if (m <? n)%N then (k', x') :: insertIndex n k x rest
          else (k, x) :: props
      | None => (k, x) :: props
      end
  end.

(** [o[k] = x] for a computed key [k], on the properties of an ordinary
    object [o].  A property that [o] has is overwritten in place.  Otherwise
    the key [__proto__] reaches the setter that [Object.prototype] holds
    for it, which adds no property: it does nothing for a primitive [x],
    and for an object or null it changes the prototype of [o], which the
    embedding does not follow.  Any other key names a new property. *)
Definition assignComputed (k : string) (x : value)
  (props : list (string * value)) : list (string * value) :=
  match lookup k props with
  | Some _ => assign k x props
  | None =>
      if String.eqb k "__proto__" then props
      else match arrayIndex k with
           | Some n => insertIndex n k x props
           | None => assign k x props
           end
  end.

(** What a read finds under a computed key: a value of the embedding, or a
    built-in member inherited from a prototype (a function, or the
    prototype object itself), of which the embedding keeps the text that
    [String] makes of it. *)
Inductive found : Type :=
| Plain (x : value)
| Builtin (text : string).

(** [String(f)] for the built-in function [f] of name [name], as V8 lays it
    out (Node, Chromium); the layout of this text is the engine's own. *)
Definition nativeText (name : string) : string :=
  "function " ++ name ++ "() { [native code] }".

(** The functions that every value inherits under their own name from
    [Object.prototype], or from the prototype of its kind where that one
    overrides them. *)
Definition inheritedFunctions : list string :=
  ["__defineGetter__"; "__defineSetter__"; "hasOwnProperty";
   "__lookupGetter__"; "__lookupSetter__"; "isPrototypeOf";
   "propertyIsEnumerable"; "toString"; "valueOf"; "toLocaleString"].

(** The key names a member that every value inherits. *)
Definition inheritsKey (k : string) : bool :=
  String.eqb k "__proto__" || String.eqb k "constructor"
  || existsb (String.eqb k) inheritedFunctions.

(** [v.constructor.name] *)
Definition constructorName (v : value) : string :=
  match v with
  | VArr _ _ => "Array"
  | VStr _ => "String"
  | VNum _ => "Number"
  | VBool _ => "Boolean"
  | _ => "Object"
  end.

(** [String(Object.getPrototypeOf(v))]: the prototype of an object prints as
    any object, those of arrays and strings as the empty array and string,
    those of numbers and booleans as 0 and false. *)
Definition prototypeText (v : value) : string :=
  match v with
  | VObj _ => "[object Object]"
  | VNum _ => "0"
  | VBool _ => "false"
  | _ => EmptyString
  end.

(** The own properties of [v] under a computed key: the named ones, and
    the indices and [length] of an array or a string. *)
Definition ownComputed (v : value) (k : string) : option value :=
  match v with
  | VObj props => lookup k props
  | VArr items extra =>
      match arrayIndex k with
      | Some n =>
          if (n <? N.of_nat (List.length items))%N
          then nth_error items (N.to_nat n)
          else lookup k extra
      | None =>
          if String.eqb k "length"
          then Some (VNum (Z.of_nat (List.length items)))
          else lookup k extra
      end
  | VStr s =>
      match arrayIndex k with
      | Some n =>
          if (n <? N.of_nat (String.length s))%N
          then match String.get (N.to_nat n) s with
               | Some c => Some (VStr (String c EmptyString))
               | None => None
               end
          else None
      | None =>
          if String.eqb k "length"
          then Some (VNum (Z.of_nat (String.length s)))
          else None
      end
  | _ => None
  end.

(** The functions that the prototype of the kind of [v] adds under their
    own name.  Those of [Number.prototype] are listed; those of
    [Array.prototype] and [String.prototype] vary with the edition of the
    language and are not: on an array or a string a key that names one
    reads as undefined here. *)
Definition kindFunctions (v : value) : list string :=
  match v with
  | VNum _ => ["toExponential"; "toFixed"; "toPrecision"]
  | _ => []
  end.

(** The member that [v] inherits under [k], as [String] prints it. *)
Definition inheritedText (v : value) (k : string) : option string :=
  if String.eqb k "__proto__" then Some (prototypeText v)
  else if String.eqb k "constructor" then Some (nativeText (constructorName v))
  else if existsb (String.eqb k) (inheritedFunctions ++ kindFunctions v)
  then Some (nativeText k)
  else None.

(** [v?.[k]] for a computed key [k]: an own property first, then the
    prototype chain. *)
Definition getComputed (v : value) (k : string) : found :=
  match v with
  | VUndef | VNull => Plain VUndef
  | _ =>
      match ownComputed v k with
      | Some x => Plain x
      | None =>
          match inheritedText v k with
          | Some text => Builtin text
          | None => Plain VUndef
          end
      end
  end.

(** *** Tests *)

Definition truthy (v : value) : bool :=
  match v with
  | VUndef | VNull => false
  | VBool b => b
  | VNum n => negb (Z.eqb n 0)
  | VStr s => negb (isEmpty s)
  | VArr _ _ | VObj _ => true
  end.

(** [typeof v === "object"] *)
Definition typeofObject (v : value) : bool :=
  match v with VNull | VArr _ _ | VObj _ => true | _ => false end.

(** [typeof v === "string"] *)
Definition typeofString (v : value) : bool :=
  match v with VStr _ => true | _ => false end.

(** An object or an array: what an assignment [o.k = x] can change. *)
Definition isContainer (v : value) : bool :=
  match v with VObj _ | VArr _ _ => true | _ => false end.

(** [v === n] for a number literal [n] *)
Definition isNum (n : Z) (v : value) : bool :=
  match v with VNum m => Z.eqb m n | _ => false end.

(** [v === s] for a string literal [s] *)
Definition isStr (s : string) (v : value) : bool :=
  match v with VStr t => String.eqb t s | _ => false end.

(** [v ?? d] *)
Definition orElse (v d : value) : value :=
  match v with VUndef | VNull => d | _ => v end.

(** *** Conversions *)

Definition numberToString (n : Z) : string :=
  NilZero.string_of_int (Z.to_int n).

(** [String(v)] *)
Fixpoint toString (v : value) : string :=
  match v with
  | VUndef => "undefined"
  | VNull => "null"
  | VBool true => "true"
  | VBool false => "false"
  | VNum n => numberToString n
  | VStr s => s
  | VArr items _ =>
      join "," (map (fun x => match x with
                              | VUndef | VNull => EmptyString
                              | _ => toString x
                              end) items)
  | VObj _ => "[object Object]"
  end.

(** *** JSON *)

Definition hexDigit (n : N) : ascii :=
  if (n <? 10)%N then ascii_of_N (48 + n) else ascii_of_N (87 + n).

(** The double-quote character. *)
Definition dquote : ascii := ascii_of_N 34.

(** One code unit inside a JSON string literal. *)
Definition quoteChar (c : ascii) : string :=
  let n := code c in
  if N.eqb n 34 then String "\" (String dquote EmptyString)
  else if N.eqb n 92 then "\\"
  else if N.eqb n 8 then "\b"
  else if N.eqb n 12 then "\f"
  else if N.eqb n 10 then "\n"
  else if N.eqb n 13 then "\r"
  else if N.eqb n 9 then "\t"
  else if (n <? 32)%N then
    String "\" (String "u" (String "0" (String "0"
      (String (hexDigit (n / 16)) (String (hexDigit (n mod 16)) EmptyString)))))
  else String c EmptyString.

Fixpoint quoteBody (s : string) : string :=
  match s with
  | EmptyString => EmptyString
  | String c r => quoteChar c ++ quoteBody r
  end.

(** [JSON.stringify(s)] for a string [s] *)
Definition quote (s : string) : string :=
  String dquote (quoteBody s ++ String dquote EmptyString).

(** [JSON.stringify(v)]; [None] is the result [undefined]. *)
Fixpoint stringify (v : value) : option string :=
  match v with
  | VUndef => None
  | VNull => Some "null"
  | VBool true => Some "true"
  | VBool false => Some "false"
  | VNum n => Some (numberToString n)
  | VStr s => Some (quote s)
  | VArr items _ =>
      Some ("[" ++ join "," (map (fun x => match stringify x with
                                           | Some js => js
                                           | None => "null"
                                           end) items) ++ "]")
  | VObj props =>
      Some ("{" ++ join "," (flat_map (fun kx => match kx with
                                                 | (k, x) =>
                                                     match stringify x with
                                                     | Some js => [quote k ++ ":" ++ js]
                                                     | None => []
                                                     end
                                                 end) props) ++ "}")
  end.

(** [JSON.parse(JSON.stringify(v))] for an object or array [v]: a deep copy
    that drops undefined members and the named properties of arrays. *)
Fixpoint jsonClone (v : value) : value :=
  match v with
  | VArr items _ =>
      VArr (map (fun x => match x with
                          | VUndef => VNull
                          | _ => jsonClone x
                          end) items) []
  | VObj props =>
      VObj (flat_map (fun kx => match kx with
                                | (k, x) =>
                                    match x with
                                    | VUndef => []
                                    | _ => [(k, jsonClone x)]
                                    end
                                end) props)
  | _ => v
  end.

(** A value as [JSON.parse] yields it: no undefined member and no named
    property on an array. *)
Fixpoint isJson (v : value) : bool :=
  match v with
  | VUndef => false
  | VArr items extra =>
      forallb isJson items && match extra with [] => true | _ => false end
  | VObj props => forallb (fun kx => isJson (snd kx)) props
  | _ => true
  end.

(** Every key and every string value that [JSON.stringify] prints. *)
Fixpoint texts (v : value) : list string :=
  match v with
  | VStr s => [s]
  | VArr items _ => flat_map texts items
  | VObj props =>
      flat_map (fun kx => match kx with
                          | (k, x) =>
                              match x with
                              | VUndef => []
                              | _ => k :: texts x
                              end
                          end) props
  | _ => []
  end.

(** The characters of a printed number: digits and the sign. *)
Definition isNumberChar (c : ascii) : bool :=
  between 48 57 c || N.eqb (code c) 45.

(** A name that no structural token of JSON and no literal can contain or
    help to form. *)
Record plainName (name : string) : Prop := {
  no_bracket : occurs "[" name = false /\ occurs "]" name = false;
  no_brace : occurs "{" name = false /\ occurs "}" name = false;
  no_comma : occurs "," name = false;
  no_colon : occurs ":" name = false;
  not_in_literal :
    includes name "null" = false /\ includes name "true" = false /\
    includes name "false" = false;
  has_letter : exists c, occurs c name = true /\ isNumberChar c = false
}.

End Js.

Import Js.

(** ** The server route, [web/app/api/chat/route.js] *)

Module Route.

Definition newline : string := String (ascii_of_N 10) EmptyString.

(** *** renderTemplate *)

Fixpoint takeKey (s : string) : string * string :=
  match s with
  | EmptyString => (EmptyString, EmptyString)
  | String c r =>
      if isWordChar c
      then let (k, rest) := takeKey r in (String c k, rest)
      else (EmptyString, s)
  end.

(** One match of [{{\s*([a-zA-Z0-9_]+)\s*}}] anchored at the start of [s]:
    the captured key and the text after the match.  The three classes
    (white space, key characters, braces) are disjoint, so the greedy match
    is the only one. *)
Definition matchPlaceholder (s : string) : option (string * string) :=
  match s with
  | String "{" (String "{" r) =>
      let (key, r2) := takeKey (trimStart r) in
      if isEmpty key then None
      else match trimStart r2 with
           | String "}" (String "}" r3) => Some (key, r3)
           | _ => None
           end
  | _ => None
  end.

(** The replacement callback: the empty string for a key that [vars] does
    not own, [String(vars[key])] otherwise. *)
Definition substitute (vars : list (string * value)) (key : string) : string :=
  match lookup key vars with
  | Some v => toString v
  | None => EmptyString
  end.

(** [template.replace(/.../g, ...)]: scan from the left; [skip] counts the
    characters of a match that are still to be passed over. *)
Fixpoint renderFrom (vars : list (string * value)) (s : string) (skip : nat)
  : string :=
  match s with
  | EmptyString => EmptyString
  | String c r =>
      match skip with
      | S n => renderFrom vars r n
      | O =>
          match matchPlaceholder s with
          | Some (key, rest) =>
              substitute vars key ++
              renderFrom vars r (String.length r - String.length rest)
          | None => String c (renderFrom vars r O)
          end
      end
  end.

Definition renderTemplate (template : string) (vars : list (string * value))
  : string :=
  renderFrom vars template O.

(** *** buildSystemPrompt *)

Record config := { nativeLanguage : string; targetLanguage : string }.

Definition buildSystemPrompt (cfg : config) (prompts : value) : res string :=
  match get prompts "system_lines" with
  | VArr lines _ =>
      Ok (join newline
            (map (fun line =>
                    renderTemplate (toString line)
                      [("nativeLanguage", VStr (nativeLanguage cfg));
                       ("targetLanguage", VStr (targetLanguage cfg))])
                 lines))
  | _ => Throw (Error "prompts.json is missing system_lines[]")
  end.

(** *** getOutputText *)

Fixpoint firstOutputText (content : list value) : res (option string) :=
  match content with
  | [] => Ok None
  | c :: rest =>
      do ty <- getStrict c "type";
      if isStr "output_text" ty && typeofString (get c "text")
      then Ok (Some (toString (get c "text")))
      else firstOutputText rest
  end.

Fixpoint firstMessageText (output : list value) : res (option string) :=
  match output with
  | [] => Ok None
  | item :: rest =>
      do ty <- getStrict item "type";
      do found <- (if isStr "message" ty
                   then match get item "content" with
                        | VArr content _ => firstOutputText content
                        | _ => Ok None
                        end
                   else Ok None);
      match found with
      | Some t => Ok (Some t)
      | None => firstMessageText rest
      end
  end.

Definition scanOutput (resp : value) : res string :=
  match get resp "output" with
  | VArr output _ =>
      do found <- firstMessageText output;
      Ok (match found with Some t => t | None => EmptyString end)
  | _ => Ok EmptyString
  end.

Definition getOutputText (resp : value) : res string :=
  do ot <- getStrict resp "output_text";
  match ot with
  | VStr t => if negb (isEmpty (trim t)) then Ok t else scanOutput resp
  | _ => scanOutput resp
  end.

(** *** redactActiveForModel *)

Definition stripBlank (blank : value) : value :=
  if truthy blank && typeofObject blank
  then delete blank "expected_answers"
  else blank.

(** The copy shares nothing with [active], so the in-place deletions are
    updates of the copy along the path to the payload. *)
Definition redactActiveForModel (active : value) : res value :=
  if negb (truthy active) || negb (typeofObject active) then Ok VNull
  else
    let cloned := jsonClone active in
    do cloned <-
      (let fib := get cloned "fill_in_blank" in
       let blanks := get fib "blanks" in
       if isStr "fill_in_blank" (get cloned "problem_type") && truthy blanks
       then match blanks with
            | VArr items extra =>
                Ok (set cloned "fill_in_blank"
                      (set fib "blanks" (VArr (map stripBlank items) extra)))
            | VStr _ => Ok cloned
            | _ => Throw (TypeError "cloned.fill_in_blank.blanks is not iterable")
            end
       else Ok cloned);
    let mc := get cloned "multiple_choice" in
    if isStr "multiple_choice" (get cloned "problem_type") && truthy mc
    then Ok (set cloned "multiple_choice" (delete mc "correct_option_ids"))
    else Ok cloned.

(** The names of the two answer-key fields. *)
Definition answerKeyNames : list string :=
  ["expected_answers"; "correct_option_ids"].

(** *** The canonical disabled shapes *)

Definition disabledProposal : value :=
  VObj [("enabled", VNum 0);
        ("proposal_id", VNull);
        ("problem_type", VNull);
        ("translation", VNull);
        ("fill_in_blank", VNull);
        ("multiple_choice", VNull);
        ("free_response", VNull)].

Definition disabledPoll : value :=
  VObj [("enabled", VNum 0);
        ("poll_id", VNull);
        ("question", VNull);
        ("options", VNull)].

(** *** normalizeModelOutput *)

Inductive mode : Type := Chat | Help | PostClear.

(** The coercions that come before the mode test: a missing or malformed
    [proposal] or [poll], or one that is not enabled, becomes the disabled
    shape; [clear_active] becomes 0 unless it is 1. *)
Definition coerceOutput (parsed : value) : value :=
  let out := if truthy parsed && typeofObject parsed then parsed else VObj [] in
  let out :=
    if negb (truthy (get out "proposal")) || negb (typeofObject (get out "proposal"))
    then set out "proposal" disabledProposal else out in
  let out :=
    if negb (truthy (get out "poll")) || negb (typeofObject (get out "poll"))
    then set out "poll" disabledPoll else out in
  let out :=
    if negb (isNum 1 (get (get out "proposal") "enabled"))
    then set out "proposal" disabledProposal else out in
  let out :=
    if negb (isNum 1 (get (get out "poll") "enabled"))
    then set out "poll" disabledPoll else out in
  if negb (isNum 1 (get out "clear_active"))
  then set out "clear_active" (VNum 0) else out.

Definition normalizeModelOutput (parsed : value) (effectiveMode : mode)
  : value :=
  let out := coerceOutput parsed in
  match effectiveMode with
  | Help => set out "poll" disabledPoll
  | _ =>
      let pollEnabled := isNum 1 (get (get out "poll") "enabled") in
      let proposalEnabled := isNum 1 (get (get out "proposal") "enabled") in
      let clearActive := isNum 1 (get out "clear_active") in
      if pollEnabled && clearActive then set out "poll" disabledPoll
      else
        let out :=
          if pollEnabled && proposalEnabled
          then set out "proposal" disabledProposal else out in
        let out :=
          if pollEnabled then set out "clear_active" (VNum 0) else out in
        out
  end.

(** *** POST *)

Record env := { OPENAI_API_KEY : option string; OPENAI_MODEL : option string }.

(** The outcome of loading and parsing [schema.json] and [prompts.json]. *)
Record files := { schemaJson : res value; promptsJson : res value }.

(** The arguments of [client.responses.create]; the output format is the
    constant strict JSON-schema format around [llm_schema]. *)
Record llm_request := {
  llm_key : string;
  llm_model : string;
  llm_input : list value;
  llm_schema : value
}.

Inductive llm_result : Type :=
| Replied (resp : value)
| Failed (e : exn).

Record response := { status : Z; payload : value }.

Definition jsonError (st : Z) (msg : string) : response :=
  {| status := st; payload := VObj [("error", VStr msg)] |}.

(** What the handler does: answer at once, or call the model and answer from
    its result. *)
Inductive outcome : Type :=
| Respond (r : response)
| CallModel (q : llm_request) (k : llm_result -> response).

Definition modeOf (requestedMode : value) : mode :=
  if isStr "help" requestedMode then Help
  else if isStr "post_clear" requestedMode then PostClear
  else Chat.

Definition configOf (body : value) : config :=
  {| nativeLanguage :=
       match get (get body "config") "nativeLanguage" with
       | VStr l => l | _ => "English" end;
     targetLanguage :=
       match get (get body "config") "targetLanguage" with
       | VStr l => l | _ => "Spanish" end |}.

Definition roleContent (m : value) : value :=
  VObj [("role", get m "role"); ("content", get m "content")].

Definition isTurn (m : value) : bool :=
  (isStr "user" (get m "role") || isStr "assistant" (get m "role"))
  && typeofString (get m "content").

Definition messagesOf (body : value) : list value :=
  match get body "messages" with
  | VArr raw _ =>
      filter isTurn
        (map roleContent (filter (fun m => truthy m && typeofObject m) raw))
  | _ => []
  end.

Definition activeOf (body : value) : value :=
  let a := get body "active" in
  if truthy a && typeofObject a then a else VNull.

Definition userTextOf (body : value) : string :=
  match get body "userText" with VStr t => t | _ => EmptyString end.

Definition hasUserText (body : value) : bool :=
  negb (isEmpty (trim (userTextOf body))).

Definition activeUsable (active : value) : bool :=
  truthy active && isNum 1 (get active "enabled")
  && truthy (get active "problem_type").

(** The body has an active exercise and it is enabled. *)
Definition activeEnabled (body : value) : bool :=
  truthy (activeOf body) && isNum 1 (get (activeOf body) "enabled").

Definition effectiveModeOf (body : value) : mode :=
  let m := modeOf (get body "mode") in
  match m with
  | PostClear => PostClear
  | _ => if activeUsable (activeOf body) then Help else m
  end.

(** A template variable holding [JSON.stringify(v)]. *)
Definition jsonVar (v : value) : value :=
  match stringify v with Some js => VStr js | None => VUndef end.

Inductive prepared : Type :=
| Reject (r : response)
| Proceed (userContent : string).

Definition userContentFor (body prompts : value) : res prepared :=
  let active := activeOf body in
  let attempt := orElse (get body "attempt") VNull in
  let cleared := orElse (get body "cleared") VNull in
  let clearedOutcome := orElse (get body "clearedOutcome") VNull in
  let userText := userTextOf body in
  match effectiveModeOf body with
  | PostClear =>
      let template :=
        toString (orElse (get prompts "post_clear_user_message") (VStr EmptyString)) in
      if isEmpty template
      then Ok (Reject (jsonError 500 "prompts.json is missing post_clear_user_message"))
      else Ok (Proceed (renderTemplate template
                          [("clearedJson", jsonVar cleared);
                           ("clearedOutcomeJson", jsonVar clearedOutcome)]))
  | Help =>
      if negb (activeUsable active)
      then Ok (Reject (jsonError 400 "No active exercise to help with."))
      else if negb (hasUserText body)
      then Ok (Reject (jsonError 400 "Missing userText"))
      else
        do redactedActive <- redactActiveForModel active;
        let template :=
          toString (orElse (get prompts "help_user_message_with_active")
                      (orElse (get prompts "help_user_message") (VStr EmptyString))) in
        Ok (Proceed (renderTemplate template
                       [("userText", VStr userText);
                        ("activeContextJson", jsonVar redactedActive);
                        ("attemptJson", jsonVar attempt);
                        ("helpContextJson",
                          jsonVar (VObj [("problem", redactedActive)]))]))
  | Chat =>
      if negb (hasUserText body)
      then Ok (Reject (jsonError 400 "Missing userText"))
      else Ok (Proceed userText)
  end.

Definition turn (role content : string) : value :=
  VObj [("role", VStr role); ("content", VStr content)].

(** Everything up to the model call; the [try] block turns a [Throw] into a
    500 response. *)
Definition prepare (fs : files) (reqJson : res value)
  : res (response + (list value * value * mode)) :=
  do body <- reqJson;
  do schema <- schemaJson fs;
  do prompts <- promptsJson fs;
  do systemPrompt <- buildSystemPrompt (configOf body) prompts;
  do p <- userContentFor body prompts;
  match p with
  | Reject r => Ok (inl r)
  | Proceed userContent =>
      Ok (inr (([turn "system" systemPrompt] ++ messagesOf body
                  ++ [turn "user" userContent])%list,
               schema, effectiveModeOf body))
  end.

(** Everything after the model call.  [parse] is [JSON.parse]. *)
Definition finish (parse : string -> res value) (effectiveMode : mode)
  (lr : llm_result) : res response :=
  do resp <- (match lr with Replied r => Ok r | Failed e => Throw e end);
  do st <- getStrict resp "status";
  if isStr "incomplete" st
  then
    let reason :=
      orElse (get (get resp "incomplete_details") "reason") (VStr "unknown") in
    Ok (jsonError 500 ("Incomplete model response: " ++ toString reason))
  else
    do raw <- getOutputText resp;
    if isEmpty raw
    then Ok (jsonError 500 "No output_text returned by model")
    else
      do parsed <- parse raw;
      Ok {| status := 200;
            payload := normalizeModelOutput parsed effectiveMode |}.

Definition caught (r : res response) : response :=
  match r with
  | Ok resp => resp
  | Throw e => jsonError 500 (message_of e)
  end.

Definition POST (parse : string -> res value) (e : env) (fs : files)
  (reqJson : res value) : outcome :=
  match OPENAI_API_KEY e with
  | None => Respond (jsonError 500 "Missing OPENAI_API_KEY")
  | Some apiKey =>
      if isEmpty apiKey
      then Respond (jsonError 500 "Missing OPENAI_API_KEY")
      else
        let model :=
          match OPENAI_MODEL e with
          | Some m => if isEmpty m then "gpt-5.2" else m
          | None => "gpt-5.2"
          end in
        match prepare fs reqJson with
        | Throw err => Respond (jsonError 500 (message_of err))
        | Ok (inl r) => Respond r
        | Ok (inr (input, schema, effectiveMode)) =>
            CallModel {| llm_key := apiKey; llm_model := model;
                         llm_input := input; llm_schema := schema |}
                      (fun lr => caught (finish parse effectiveMode lr))
        end
  end.

End Route.

(** ** The browser controller, [web/app/page.js] *)

Module Page.

(** *** inferApproxLevel *)

Definition headChar (s : string) : option ascii :=
  match s with EmptyString => None | String c _ => Some c end.

Fixpoint lastChar (s : string) : option ascii :=
  match s with
  | EmptyString => None
  | String c EmptyString => Some c
  | String _ r => lastChar r
  end.

Definition isWord (c : option ascii) : bool :=
  match c with Some x => isWordChar x | None => false end.

(** The assertion [\b] between the characters [before] and [after]. *)
Definition wordBoundary (before after : option ascii) : bool :=
  xorb (isWord before) (isWord after).

(** Two characters match under the [i] flag. *)
Definition ciEq (a b : ascii) : bool := Ascii.eqb (upperChar a) (upperChar b).

(** Match the literal [p] at the start of [s] under the [i] flag: the text
    matched and the rest. *)
Fixpoint ciPrefix (p s : string) : option (string * string) :=
  match p with
  | EmptyString => Some (EmptyString, s)
  | String a p' =>
      match s with
      | EmptyString => None
      | String b s' =>
          if ciEq a b
          then match ciPrefix p' s' with
               | Some (m, rest) => Some (String b m, rest)
               | None => None
               end
          else None
      end
  end.

Definition levelCodes : list string := ["a1"; "a2"; "b1"; "b2"; "c1"; "c2"].

(** The group [(a1|a2|b1|b2|c1|c2)] followed by [\b], alternatives in order. *)
Fixpoint firstAlternative (alts : list string) (s : string) : option string :=
  match alts with
  | [] => None
  | alt :: more =>
      match ciPrefix alt s with
      | Some (m, rest) =>
          if wordBoundary (lastChar m) (headChar rest) then Some m
          else firstAlternative more s
      | None => firstAlternative more s
      end
  end.

(** The regular expression tried at one position: [prev] is the character
    before [u]. *)
Definition matchHere (prev : option ascii) (u : string) : option string :=
  if wordBoundary prev (headChar u)
  then firstAlternative levelCodes u else None.

(** [t.match(/\b(a1|a2|b1|b2|c1|c2)\b/i)]: the capture of the leftmost
    match; [prev] is the character before [s]. *)
Fixpoint searchLevel (prev : option ascii) (s : string) : option string :=
  match matchHere prev s with
  | Some m => Some m
  | None =>
      match s with
      | EmptyString => None
      | String c r => searchLevel (Some c) r
      end
  end.

(** The keyword tests, on the lower-cased text. *)
Definition byKeyword (t : string) : string :=
  if includes "beginner" t then "A1"
  else if includes "intermediate" t then "B1"
  else if includes "advanced" t then "C1"
  else "B1".

Definition inferApproxLevel (levelText : value) : string :=
  let t := toLowerCase (toString (orElse levelText (VStr EmptyString))) in
  match searchLevel None t with
  | Some (String c r) => toUpperCase (String c r)
  | _ => byKeyword t
  end.

(** *** Exercises *)

Definition makeActiveFromProposal (proposal : value) : value :=
  if negb (truthy proposal) || negb (isNum 1 (get proposal "enabled"))
     || negb (truthy (get proposal "problem_type"))
  then VNull
  else VObj [("enabled", VNum 1);
             ("exercise_id", orElse (get proposal "proposal_id") VNull);
             ("problem_type", get proposal "problem_type");
             ("translation", orElse (get proposal "translation") VNull);
             ("fill_in_blank", orElse (get proposal "fill_in_blank") VNull);
             ("multiple_choice", orElse (get proposal "multiple_choice") VNull);
             ("free_response", orElse (get proposal "free_response") VNull)].

Definition exerciseUsable (exercise : value) : bool :=
  truthy exercise && isNum 1 (get exercise "enabled")
  && truthy (get exercise "problem_type").

(** The elements a [for ... of] loop visits. *)
Fixpoint charsOf (s : string) : list value :=
  match s with
  | EmptyString => []
  | String c r => VStr (String c EmptyString) :: charsOf r
  end.

Definition iterate (what : string) (v : value) : res (list value) :=
  match v with
  | VArr items _ => Ok items
  | VStr s => Ok (charsOf s)
  | _ => Throw (TypeError (what ++ " is not iterable"))
  end.

(** One turn of the loop of [defaultAttemptForActive] over the blanks:
    [if (b?.id) obj[b.id] = '']. *)
Definition seedBlank (obj : list (string * value)) (b : value)
  : list (string * value) :=
  if truthy (get b "id")
  then assignComputed (toString (get b "id")) (VStr EmptyString) obj
  else obj.

Definition defaultAttemptForActive (nextActive : value) : res value :=
  if negb (exerciseUsable nextActive) then Ok VNull
  else
    let blanks := get (get nextActive "fill_in_blank") "blanks" in
    if isStr "fill_in_blank" (get nextActive "problem_type") && truthy blanks
    then
      do bs <- iterate "nextActive.fill_in_blank.blanks" blanks;
      Ok (VObj (fold_left seedBlank bs []))
    else if isStr "multiple_choice" (get nextActive "problem_type")
    then Ok (VArr [] [])
    else Ok (VStr EmptyString).

(** *** The objective grader *)

Definition normalizeText (s : value) : string :=
  toLowerCase (trim (toString (orElse s (VStr EmptyString)))).

Definition member (x : string) (l : list string) : bool :=
  existsb (String.eqb x) l.

(** [nextAttempt?.[b.id]]: the chain stops at an attempt that is null or
    undefined, before [b.id] is read. *)
Definition readTyped (nextAttempt b : value) : res found :=
  match nextAttempt with
  | VUndef | VNull => Ok (Plain VUndef)
  | _ =>
      do id <- getStrict b "id";
      Ok (getComputed nextAttempt (toString id))
  end.

(** [normalizeText(x ?? '')] for what a computed read found. *)
Definition normalizeFound (x : found) : string :=
  match x with
  | Plain v => normalizeText (orElse v (VStr EmptyString))
  | Builtin text => normalizeText (VStr text)
  end.

(** One turn of the loop over the blanks: the verdict for blank [b]. *)
Definition gradeBlank (nextAttempt b : value) : res bool :=
  do typed <- readTyped nextAttempt b;
  let userVal := normalizeFound typed in
  do answers <- getStrict b "expected_answers";
  let expected := match answers with VArr l _ => l | _ => [] end in
  Ok (member userVal (map normalizeText expected)).

Fixpoint gradeBlanks (nextAttempt : value) (blanks : list value)
  : res (list value * bool) :=
  match blanks with
  | [] => Ok ([], true)
  | b :: rest =>
      do ok <- gradeBlank nextAttempt b;
      do tail <- gradeBlanks nextAttempt rest;
      Ok (VObj [("id", get b "id"); ("correct", VBool ok)] :: fst tail,
          ok && snd tail)
  end.

(** [[...new Set(l)]]: first occurrences, in order. *)
Fixpoint dedupe (seen l : list string) : list string :=
  match l with
  | [] => []
  | x :: r =>
      if member x seen then dedupe seen r else x :: dedupe (x :: seen) r
  end.

(** Order of the default [sort]: by code units. *)
Fixpoint strLeb (a b : string) : bool :=
  match a, b with
  | EmptyString, _ => true
  | String _ _, EmptyString => false
  | String x a', String y b' =>
      if N.ltb (code x) (code y) then true
      else if N.ltb (code y) (code x) then false
      else strLeb a' b'
  end.

Fixpoint insertSorted (x : string) (l : list string) : list string :=
  match l with
  | [] => [x]
  | y :: r => if strLeb x y then x :: l else y :: insertSorted x r
  end.

Fixpoint sort (l : list string) : list string :=
  match l with
  | [] => []
  | x :: r => insertSorted x (sort r)
  end.

(** [[...new Set(l)].sort()] *)
Definition canonical (l : list string) : list string := sort (dedupe [] l).

Definition setEq (a b : list string) : bool :=
  if negb (Nat.eqb (List.length a) (List.length b)) then false
  else forallb (fun x => member x a) b.

Definition stringsOf (v : value) : list string :=
  match v with VArr l _ => map toString l | _ => [] end.

Definition gradeObjective (nextActive nextAttempt : value) : res value :=
  if negb (exerciseUsable nextActive) then Ok VNull
  else
    let blanks := get (get nextActive "fill_in_blank") "blanks" in
    let mc := get nextActive "multiple_choice" in
    if isStr "fill_in_blank" (get nextActive "problem_type") && truthy blanks
    then
      do bs <- iterate "nextActive.fill_in_blank.blanks" blanks;
      do graded <- gradeBlanks nextAttempt bs;
      Ok (VObj [("kind", VStr "fill_in_blank");
                ("allCorrect", VBool (snd graded));
                ("results", VArr (fst graded) [])])
    else if isStr "multiple_choice" (get nextActive "problem_type") && truthy mc
    then
      let selected := stringsOf nextAttempt in
      let correct := stringsOf (get mc "correct_option_ids") in
      let allCorrect := setEq (canonical selected) (canonical correct) in
      Ok (VObj [("kind", VStr "multiple_choice");
                ("allCorrect", VBool allCorrect)])
    else Ok VNull.

(** *** Component state *)

Record placement := { levelText : string; focusText : string }.

Record state := {
  nativeLanguage : string;
  targetLanguage : string;
  messages : list value;
  conversationMode : string;
  onboardingStep : Z;
  placementOf : placement;
  active : value;
  attempt : value;
  pendingProposal : value;
  grade : value;
  inputText : string;
  error : string;
  loading : bool
}.

Definition setMessages (f : list value -> list value) (s : state) : state :=
  {| nativeLanguage := nativeLanguage s; targetLanguage := targetLanguage s;
     messages := f (messages s); conversationMode := conversationMode s;
     onboardingStep := onboardingStep s; placementOf := placementOf s;
     active := active s; attempt := attempt s;
     pendingProposal := pendingProposal s; grade := grade s;
     inputText := inputText s; error := error s; loading := loading s |}.

Definition setConversationMode (m : string) (s : state) : state :=
  {| nativeLanguage := nativeLanguage s; targetLanguage := targetLanguage s;
     messages := messages s; conversationMode := m;
     onboardingStep := onboardingStep s; placementOf := placementOf s;
     active := active s; attempt := attempt s;
     pendingProposal := pendingProposal s; grade := grade s;
     inputText := inputText s; error := error s; loading := loading s |}.

Definition setOnboardingStep (n : Z) (s : state) : state :=
  {| nativeLanguage := nativeLanguage s; targetLanguage := targetLanguage s;
     messages := messages s; conversationMode := conversationMode s;
     onboardingStep := n; placementOf := placementOf s;
     active := active s; attempt := attempt s;
     pendingProposal := pendingProposal s; grade := grade s;
     inputText := inputText s; error := error s; loading := loading s |}.

Definition setPlacement (f : placement -> placement) (s : state) : state :=
  {| nativeLanguage := nativeLanguage s; targetLanguage := targetLanguage s;
     messages := messages s; conversationMode := conversationMode s;
     onboardingStep := onboardingStep s; placementOf := f (placementOf s);
     active := active s; attempt := attempt s;
     pendingProposal := pendingProposal s; grade := grade s;
     inputText := inputText s; error := error s; loading := loading s |}.

Definition setActive (v : value) (s : state) : state :=
  {| nativeLanguage := nativeLanguage s; targetLanguage := targetLanguage s;
     messages := messages s; conversationMode := conversationMode s;
     onboardingStep := onboardingStep s; placementOf := placementOf s;
     active := v; attempt := attempt s;
     pendingProposal := pendingProposal s; grade := grade s;
     inputText := inputText s; error := error s; loading := loading s |}.

Definition setAttempt (v : value) (s : state) : state :=
  {| nativeLanguage := nativeLanguage s; targetLanguage := targetLanguage s;
     messages := messages s; conversationMode := conversationMode s;
     onboardingStep := onboardingStep s; placementOf := placementOf s;
     active := active s; attempt := v;
     pendingProposal := pendingProposal s; grade := grade s;
     inputText := inputText s; error := error s; loading := loading s |}.

Definition setPendingProposal (v : value) (s : state) : state :=
  {| nativeLanguage := nativeLanguage s; targetLanguage := targetLanguage s;
     messages := messages s; conversationMode := conversationMode s;
     onboardingStep := onboardingStep s; placementOf := placementOf s;
     active := active s; attempt := attempt s;
     pendingProposal := v; grade := grade s;
     inputText := inputText s; error := error s; loading := loading s |}.

Definition setGrade (v : value) (s : state) : state :=
  {| nativeLanguage := nativeLanguage s; targetLanguage := targetLanguage s;
     messages := messages s; conversationMode := conversationMode s;
     onboardingStep := onboardingStep s; placementOf := placementOf s;
     active := active s; attempt := attempt s;
     pendingProposal := pendingProposal s; grade := v;
     inputText := inputText s; error := error s; loading := loading s |}.

Definition setError (e : string) (s : state) : state :=
  {| nativeLanguage := nativeLanguage s; targetLanguage := targetLanguage s;
     messages := messages s; conversationMode := conversationMode s;
     onboardingStep := onboardingStep s; placementOf := placementOf s;
     active := active s; attempt := attempt s;
     pendingProposal := pendingProposal s; grade := grade s;
     inputText := inputText s; error := e; loading := loading s |}.

Definition setLoading (b : bool) (s : state) : state :=
  {| nativeLanguage := nativeLanguage s; targetLanguage := targetLanguage s;
     messages := messages s; conversationMode := conversationMode s;
     onboardingStep := onboardingStep s; placementOf := placementOf s;
     active := active s; attempt := attempt s;
     pendingProposal := pendingProposal s; grade := grade s;
     inputText := inputText s; error := error s; loading := b |}.

(** The active exercise, the attempt and the grade of a state. *)
Definition exerciseFields (s : state) : value * value * value :=
  (active s, attempt s, grade s).

(** [setMessages((prev) => [...prev, msg])] *)
Definition appendMessage (msg : value) : state -> state :=
  setMessages (fun prev => (prev ++ [msg])%list).

(** *** Calls to the route *)

(** The body [callApi] posts to [/api/chat]. *)
Record api_request := {
  rq_mode : string;
  rq_userText : value;
  rq_messages : list value;
  rq_nativeLanguage : string;
  rq_targetLanguage : string;
  rq_active : value;
  rq_attempt : value;
  rq_cleared : value;
  rq_clearedOutcome : value
}.

(** What [fetch] settles to: a reply with its [ok] flag, status and JSON body
    ([None] when the body is not JSON), or a rejection. *)
Inductive fetch_result : Type :=
| HttpReply (ok : bool) (status : Z) (json : option value)
| NetworkFailure (e : exn).

(** A handler of the component.  It runs with the state [st] of the render
    that created it; the updates it enqueues are applied to the current
    state.  At an [await] the updates made so far are committed: [Await]
    carries that committed state, the request, and the rest of the handler. *)
Inductive proc : Type :=
| Finish (s : state)
| Await (committed : state) (rq : api_request) (k : fetch_result -> proc).

(** The request of [callApi] made from a handler of render state [st]. *)
Definition requestOf (st : state) (mode : string) (userText : value)
  (messagesOverride : option (list value)) (cleared clearedOutcome : value)
  : api_request :=
  {| rq_mode := mode;
     rq_userText := userText;
     rq_messages :=
       match messagesOverride with Some l => l | None => messages st end;
     rq_nativeLanguage := nativeLanguage st;
     rq_targetLanguage := targetLanguage st;
     rq_active := active st;
     rq_attempt := attempt st;
     rq_cleared := cleared;
     rq_clearedOutcome := clearedOutcome |}.

(** What [callApi] returns or throws, from what [fetch] settled to. *)
Definition callApiResult (fr : fetch_result) : res value :=
  match fr with
  | NetworkFailure e => Throw e
  | HttpReply ok status body =>
      let json := match body with Some j => j | None => VObj [] end in
      if negb ok
      then Throw (Error (match get json "error" with
                         | VStr m => m
                         | _ => "Request failed (" ++ numberToString status ++ ")"
                         end))
      else Ok json
  end.

Definition proposalEnabled (result : value) : bool :=
  isNum 1 (get (get result "proposal") "enabled").

Definition pollEnabled (result : value) : bool :=
  isNum 1 (get (get result "poll") "enabled").

Definition assistantMessage (result : value) : value :=
  let msg := VObj [("role", VStr "assistant");
                   ("content", get result "response");
                   ("flags", get result "flags")] in
  let msg := if proposalEnabled result
             then set msg "proposal" (get result "proposal") else msg in
  if pollEnabled result then set msg "poll" (get result "poll") else msg.

Definition errorMessage (e : exn) : value :=
  VObj [("role", VStr "assistant");
        ("content", VStr ("Error: " ++ message_of e))].

(** The three lines every handler runs on a reply: append the assistant
    message when [result.response] is a string. *)
Definition showReply (result : value) (s : state) : state :=
  if typeofString (get result "response")
  then appendMessage (assistantMessage result) s else s.

Definition keepProposal (result : value) (s : state) : state :=
  if proposalEnabled result
  then setPendingProposal (get result "proposal") s else s.

Definition reportError (e : exn) (s : state) : state :=
  appendMessage (errorMessage e) (setError (message_of e) s).

Definition clearExercise (s : state) : state :=
  setGrade VNull (setAttempt VNull (setActive VNull s)).

Definition outcomeTag (kind : string) : value := VObj [("kind", VStr kind)].

(** *** triggerPostClear *)

Definition triggerPostClear (st : state) (cleared clearedOutcome : value)
  (messagesOverride : option (list value)) (s : state) (k : state -> proc)
  : proc :=
  let s1 := setLoading true (setError EmptyString s) in
  Await s1
        (requestOf st "post_clear" (VStr "post_clear") messagesOverride
                   cleared clearedOutcome)
        (fun fr =>
           k (setLoading false
                (match callApiResult fr with
                 | Ok result => keepProposal result (showReply result s1)
                 | Throw e => reportError e s1
                 end))).

(** *** sendText *)

Definition userMessage (content : string) : value :=
  VObj [("role", VStr "user"); ("content", VStr content)].

Definition secondQuestion : value :=
  VObj [("role", VStr "assistant");
        ("content", VStr "2) What do you want to focus on right now? (speaking, writing, grammar, vocab, travel, work, etc.)")].

Definition placementRequest (reportedLevel approxLevel cleaned : string)
  : string :=
  join Route.newline
    ["We are starting a new conversation and need a placement exercise.";
     "User self-reported level: " ++ reportedLevel;
     "Approx level (coarse): " ++ approxLevel;
     "User focus: " ++ cleaned;
     "Task: Propose exactly one placement exercise as proposal.enabled=1 with proposal.problem_type=free_response.";
     "Do not propose any other exercise types.";
     "In response, briefly acknowledge the info and instruct the user to click Start exercise."].

Definition plainReply (result : value) : value :=
  VObj [("role", VStr "assistant"); ("content", get result "response")].

Definition sendText (st : state) (text : value) : proc :=
  let cleaned := trim (toString (orElse text (VStr EmptyString))) in
  if isEmpty cleaned || loading st then Finish st
  else
    let nextMessages := (messages st ++ [userMessage cleaned])%list in
    let s0 := setMessages (fun _ => nextMessages) (setError EmptyString st) in
    if String.eqb (conversationMode st) "onboarding"
       && Z.eqb (onboardingStep st) 0
    then
      Finish (setOnboardingStep 1
                (appendMessage secondQuestion
                   (setPlacement
                      (fun prev => {| levelText := cleaned;
                                      focusText := focusText prev |}) s0)))
    else if String.eqb (conversationMode st) "onboarding"
            && Z.eqb (onboardingStep st) 1
    then
      let reportedLevel := levelText (placementOf st) in
      let approxLevel := inferApproxLevel (VStr reportedLevel) in
      let s1 :=
        setLoading true
          (setPlacement (fun prev => {| levelText := levelText prev;
                                        focusText := cleaned |}) s0) in
      Await s1
        (requestOf st "chat"
           (VStr (placementRequest reportedLevel approxLevel cleaned))
           (Some nextMessages) VUndef VUndef)
        (fun fr =>
           Finish (setLoading false
                     (match callApiResult fr with
                      | Ok result =>
                          let s2 :=
                            keepProposal result
                              (showReply result
                                 (setOnboardingStep 2
                                    (setConversationMode "chat" s1))) in
                          if isNum 1 (get result "clear_active")
                          then clearExercise s2 else s2
                      | Throw e => reportError e s1
                      end)))
    else
      let requestMode := if exerciseUsable (active st) then "help" else "chat" in
      let s1 := setLoading true s0 in
      Await s1
        (requestOf st requestMode (VStr cleaned) (Some nextMessages)
                   VUndef VUndef)
        (fun fr =>
           match callApiResult fr with
           | Ok result =>
               let s2 := showReply result s1 in
               if isNum 1 (get result "clear_active")
                  && truthy (active st) && isNum 1 (get (active st) "enabled")
               then
                 triggerPostClear st (active st) (outcomeTag "model_clear")
                   (Some (nextMessages ++ [plainReply result])%list)
                   (clearExercise s2)
                   (fun s3 => Finish (setLoading false (keepProposal result s3)))
               else Finish (setLoading false (keepProposal result s2))
           | Throw e => Finish (setLoading false (reportError e s1))
           end).

(** *** Exercise actions *)

(** [a === b] on primitive values.  Exercise identifiers are strings or
    null; two objects are equal only as references, which this does not
    track. *)
Definition strictEq (a b : value) : bool :=
  match a, b with
  | VUndef, VUndef | VNull, VNull => true
  | VBool x, VBool y => Bool.eqb x y
  | VNum x, VNum y => Z.eqb x y
  | VStr x, VStr y => String.eqb x y
  | _, _ => false
  end.

Definition helpOffer (exercise : value) : value :=
  VObj [("role", VStr "assistant");
        ("content", VStr "It looks like that answer isn't fully correct. Want help?");
        ("help_offer",
          VObj [("enabled", VNum 1);
                ("exercise_id", orElse (get exercise "exercise_id") VNull)])].

Definition offerHelp (exercise : value) (prev : list value) : list value :=
  let last := List.last prev VUndef in
  if isNum 1 (get (get last "help_offer") "enabled")
     && strictEq (get (get last "help_offer") "exercise_id")
                 (get exercise "exercise_id")
  then prev
  else (prev ++ [helpOffer exercise])%list.

Definition onSubmitObjective (st : state) : proc :=
  if negb (truthy (active st)) || negb (isNum 1 (get (active st) "enabled"))
  then Finish st
  else
    match gradeObjective (active st) (attempt st) with
    | Throw _ => Finish st
    | Ok g =>
        if negb (truthy g) then Finish st
        else
          let s1 := setGrade g st in
          if truthy (get g "allCorrect")
          then
            triggerPostClear st (active st) (outcomeTag "objective_correct")
              None (setAttempt VNull (setActive VNull s1)) Finish
          else Finish (setMessages (offerHelp (active st)) s1)
    end.

Definition onSubmitExercise (st : state) : proc :=
  if negb (truthy (active st)) || negb (isNum 1 (get (active st) "enabled"))
     || loading st
  then Finish st
  else if isStr "fill_in_blank" (get (active st) "problem_type")
          || isStr "multiple_choice" (get (active st) "problem_type")
  then onSubmitObjective st
  else
    let userText := "Please review my attempt and help me improve." in
    let s1 := setLoading true (setError EmptyString st) in
    Await s1
      (requestOf st "help" (VStr userText) (Some (messages st)) VUndef VUndef)
      (fun fr =>
         match callApiResult fr with
         | Ok result =>
             let s2 := showReply result s1 in
             if isNum 1 (get result "clear_active")
             then
               triggerPostClear st (active st) (outcomeTag "model_clear")
                 (Some (messages st ++ [plainReply result])%list)
                 (clearExercise s2)
                 (fun s3 => Finish (setLoading false (keepProposal result s3)))
             else Finish (setLoading false (keepProposal result s2))
         | Throw e => Finish (setLoading false (reportError e s1))
         end).

Definition onClearActive (st : state) : proc :=
  if loading st then Finish st
  else if negb (truthy (active st))
          || negb (isNum 1 (get (active st) "enabled"))
  then Finish st
  else
    triggerPostClear st (active st) (outcomeTag "user_cleared") None
      (clearExercise st) Finish.

Definition onStartProposal (st : state) (proposal : value) : state :=
  if loading st then st
  else
    let nextActive := makeActiveFromProposal proposal in
    if negb (truthy nextActive) then st
    else
      match defaultAttemptForActive nextActive with
      | Throw _ => setActive nextActive st
      | Ok a =>
          let s1 := setGrade VNull (setAttempt a (setActive nextActive st)) in
          if truthy (get proposal "proposal_id")
             && strictEq (get (pendingProposal st) "proposal_id")
                         (get proposal "proposal_id")
          then setPendingProposal VNull s1
          else s1
      end.

(** *** renderExercise *)

(** [items.map((x) => x[field])] *)
Fixpoint fieldOfEach (field : string) (items : list value) : res (list value) :=
  match items with
  | [] => Ok []
  | x :: rest =>
      do v <- getStrict x field;
      do vs <- fieldOfEach field rest;
      Ok (v :: vs)
  end.

(** [v.map((x) => x[field])] for a [v] that need not be an array. *)
Definition mapField (what field : string) (v : value) : res (list value) :=
  match v with
  | VArr items _ => fieldOfEach field items
  | VUndef | VNull =>
      Throw (TypeError "Cannot read properties of null or undefined (reading 'map')")
  | _ => Throw (TypeError (what ++ ".map is not a function"))
  end.

Definition panel (title : string) (lines : list value) : value :=
  VObj [("title", VStr title); ("lines", VArr lines [])].

Definition renderExercise (exercise : value) : res value :=
  if negb (truthy exercise) || negb (isNum 1 (get exercise "enabled"))
     || negb (truthy (get exercise "problem_type"))
  then Ok VNull
  else
    let problem_type := get exercise "problem_type" in
    let translation := get exercise "translation" in
    let fill_in_blank := get exercise "fill_in_blank" in
    let multiple_choice := get exercise "multiple_choice" in
    let free_response := get exercise "free_response" in
    if isStr "translation" problem_type && truthy translation
    then Ok (panel "Translation" [get translation "text"])
    else if isStr "fill_in_blank" problem_type && truthy fill_in_blank
    then
      do texts <- mapField "exercise.fill_in_blank.blanks"
                    "text_with_placeholder" (get fill_in_blank "blanks");
      Ok (panel "Fill in the blank" (get fill_in_blank "prompt" :: texts))
    else if isStr "multiple_choice" problem_type && truthy multiple_choice
    then
      do texts <- mapField "exercise.multiple_choice.options"
                    "text" (get multiple_choice "options");
      Ok (panel "Multiple choice" (get multiple_choice "prompt" :: texts))
    else if isStr "free_response" problem_type && truthy free_response
    then Ok (panel "Free response" [get free_response "prompt"])
    else Ok (panel "Exercise"
               [VStr "Unrecognized or missing payload for problem_type"]).

(** *** Poll options *)







(** [sendText] called from a handler of render state [st] that has already
    enqueued updates: [current] is [st] with those updates applied. *)
Definition sendTextFrom (st current : state) (text : value) : proc :=
  let cleaned := trim (toString (orElse text (VStr EmptyString))) in
  if isEmpty cleaned || loading st then Finish current
  else
    let nextMessages := (messages st ++ [userMessage cleaned])%list in
    let s0 := setMessages (fun _ => nextMessages) (setError EmptyString current) in
    if String.eqb (conversationMode st) "onboarding"
       && Z.eqb (onboardingStep st) 0
    then
      Finish (setOnboardingStep 1
                (appendMessage secondQuestion
                   (setPlacement
                      (fun prev => {| levelText := cleaned;
                                      focusText := focusText prev |}) s0)))
    else if String.eqb (conversationMode st) "onboarding"
            && Z.eqb (onboardingStep st) 1
    then
      let reportedLevel := levelText (placementOf st) in
      let approxLevel := inferApproxLevel (VStr reportedLevel) in
      let s1 :=
        setLoading true
          (setPlacement (fun prev => {| levelText := levelText prev;
                                        focusText := cleaned |}) s0) in
      Await s1
        (requestOf st "chat"
           (VStr (placementRequest reportedLevel approxLevel cleaned))
           (Some nextMessages) VUndef VUndef)
        (fun fr =>
           Finish (setLoading false
                     (match callApiResult fr with
                      | Ok result =>
                          let s2 :=
                            keepProposal result
                              (showReply result
                                 (setOnboardingStep 2
                                    (setConversationMode "chat" s1))) in
                          if isNum 1 (get result "clear_active")
                          then clearExercise s2 else s2
                      | Throw e => reportError e s1
                      end)))
    else
      let requestMode := if exerciseUsable (active st) then "help" else "chat" in
      let s1 := setLoading true s0 in
      Await s1
        (requestOf st requestMode (VStr cleaned) (Some nextMessages)
                   VUndef VUndef)
        (fun fr =>
           match callApiResult fr with
           | Ok result =>
               let s2 := showReply result s1 in
               if isNum 1 (get result "clear_active")
                  && truthy (active st) && isNum 1 (get (active st) "enabled")
               then
                 triggerPostClear st (active st) (outcomeTag "model_clear")
                   (Some (nextMessages ++ [plainReply result])%list)
                   (clearExercise s2)
                   (fun s3 => Finish (setLoading false (keepProposal result s3)))
               else Finish (setLoading false (keepProposal result s2))
           | Throw e => Finish (setLoading false (reportError e s1))
           end).


(** *** toggleMcOption *)

(** [set.delete(x)] on the elements of a Set in insertion order. *)
Definition withoutString (x : string) (l : list string) : list string :=
  filter (fun y => negb (String.eqb y x)) l.

Definition toggleMcOption (st : state) (id : value) : state :=
  if negb (truthy (get (active st) "multiple_choice")) then st
  else
    let allowMultiple :=
      truthy (get (get (active st) "multiple_choice") "allow_multiple") in
    let selected := stringsOf (attempt st) in
    if negb allowMultiple then setAttempt (VArr [VStr (toString id)] []) st
    else
      let set := dedupe [] selected in
      let set := if member (toString id) set
                 then withoutString (toString id) set
                 else (set ++ [toString id])%list in
      setAttempt (VArr (map VStr set) []) st.

(** *** The wire *)

(** The body of a request as the route reads it: [req.json()] of the
    [JSON.stringify] that [callApi] posts. *)
Definition bodyOf (rq : api_request) : value :=
  jsonClone
    (VObj [("mode", VStr (rq_mode rq));
           ("userText", rq_userText rq);
           ("messages", VArr (rq_messages rq) []);
           ("config",
             VObj [("nativeLanguage", VStr (rq_nativeLanguage rq));
                   ("targetLanguage", VStr (rq_targetLanguage rq))]);
           ("active", rq_active rq);
           ("attempt", rq_attempt rq);
           ("cleared", rq_cleared rq);
           ("clearedOutcome", rq_clearedOutcome rq)]).

(** An answer of the route as [fetch] hands it to [callApi]: [resp.ok] for
    a status from 200 to 299, and [resp.json()] of the serialized payload. *)
Definition replyOf (r : Route.response) : fetch_result :=
  HttpReply ((200 <=? Route.status r)%Z && (Route.status r <=? 299)%Z)
            (Route.status r)
            (Some (jsonClone (Route.payload r))).

(** *** Running a handler *)

(** Run a handler against the replies [net 0], [net 1], ... of the network:
    the committed state and request of every call, and the final state. *)
Fixpoint run (p : proc) (net : nat -> fetch_result) (n : nat)
  : list (state * api_request) * state :=
  match p with
  | Finish s => ([], s)
  | Await committed rq k =>
      let (calls, final) := run (k (net n)) net (S n) in
      ((committed, rq) :: calls, final)
  end.

End Page.

(** ** What a handler does throughout a run *)

Module Trace.
Import Page.

(** Every call a handler makes satisfies [P], as to the state committed with
    it and the request, and the state the handler ends in satisfies [Q],
    whatever the network replies. *)
Inductive throughout (P : state -> api_request -> Prop) (Q : state -> Prop)
  : proc -> Prop :=
| throughout_finish s : Q s -> throughout P Q (Finish s)
| throughout_await c rq k :
    P c rq -> (forall fr, throughout P Q (k fr)) ->
    throughout P Q (Await c rq k).

(** The handlers that call the route. *)
Definition callers (st : state) (text : value) : list proc :=
  [sendText st text; onSubmitExercise st; onClearActive st].

(** The messages of [s] are those of [base] and some more. *)
Definition extends (base : list value) (s : state) : Prop :=
  exists more, messages s = (base ++ more)%list.

(** A request the route has no reason to reject: a post_clear request, or
    one with text that is not blank, in chat mode or in help mode about a
    usable exercise. *)
Definition wellFormedRequest (rq : api_request) : Prop :=
  rq_mode rq = "post_clear" \/
  (exists t, rq_userText rq = VStr t /\ isEmpty (trim t) = false) /\
  (rq_mode rq = "chat" \/
   (rq_mode rq = "help" /\ exerciseUsable (rq_active rq) = true)).

(** A well-formed request about the exercise of [st], committed with any
    state. *)
Definition sound (st : state) (c : state) (rq : api_request) : Prop :=
  wellFormedRequest rq /\ rq_active rq = active st.

End Trace.

(** ** The shape rule of the data model *)

Module Shape.

Definition payloadFields : list string :=
  ["translation"; "fill_in_blank"; "multiple_choice"; "free_response"].

Definition pollPayloadFields : list string :=
  ["poll_id"; "question"; "options"].

Definition isNullish (v : value) : bool :=
  match v with VUndef | VNull => true | _ => false end.

(** The payload fields of [x] that are not null. *)
Definition populated (fields : list string) (x : value) : list string :=
  filter (fun k => negb (isNullish (get x k))) fields.

(** The rule for an Exercise or Proposal: with [enabled] 0 no payload field
    is populated; with [enabled] 1 exactly one is, the one [problem_type]
    names. *)
Definition exerciseShape (x : value) : bool :=
  if isNum 0 (get x "enabled")
  then match populated payloadFields x with [] => true | _ => false end
  else if isNum 1 (get x "enabled")
  then match populated payloadFields x with
       | [k] => isStr k (get x "problem_type")
       | _ => false
       end
  else true.

End Shape.

(** ** Exercises as the schema shapes them *)

Module Exercise.

Record blank := {
  blank_id : string;
  text_with_placeholder : string;
  expected_answers : list string
}.

Definition blankValue (b : blank) : value :=
  VObj [("id", VStr (blank_id b));
        ("text_with_placeholder", VStr (text_with_placeholder b));
        ("expected_answers", VArr (map VStr (expected_answers b)) [])].

(** An active fill-in-the-blank exercise. *)
Definition fillExercise (exercise_id prompt : value) (blanks : list blank)
  : value :=
  VObj [("enabled", VNum 1);
        ("exercise_id", exercise_id);
        ("problem_type", VStr "fill_in_blank");
        ("translation", VNull);
        ("fill_in_blank",
          VObj [("prompt", prompt);
                ("blanks", VArr (map blankValue blanks) [])]);
        ("multiple_choice", VNull);
        ("free_response", VNull)].

(** An attempt at it: the text typed for each blank id. *)
Definition fillAttempt (typed : list (string * string)) : value :=
  VObj (map (fun kv => (fst kv, VStr (snd kv))) typed).

(** The text typed for blank [id]; empty when there is none. *)
Fixpoint typedFor (id : string) (typed : list (string * string)) : string :=
  match typed with
  | [] => EmptyString
  | (k, t) :: rest => if String.eqb id k then t else typedFor id rest
  end.

(** The attempt has an entry for the id of blank [b], or the id names no
    member that the attempt inherits: the blank is read as the text typed
    for it. *)
Definition readAsTyped (typed : list (string * string)) (b : blank) : Prop :=
  In (blank_id b) (map fst typed) \/ inheritsKey (blank_id b) = false.

(** The spec's rule for one blank: the typed text, trimmed and lower-cased,
    equals some accepted answer treated the same way. *)
Definition blankCorrect (typed : list (string * string)) (b : blank) : Prop :=
  exists accepted,
    In accepted (expected_answers b) /\
    toLowerCase (trim (typedFor (blank_id b) typed))
    = toLowerCase (trim accepted).

(** The verdict of the loop for one blank of the schema's shape. *)
Definition verdictFor (typed : list (string * string)) (b : blank) : bool :=
  Page.member (toLowerCase (trim (typedFor (blank_id b) typed)))
         (map (fun accepted => toLowerCase (trim accepted)) (expected_answers b)).

(** The entry of [results] for blank [b] under [verdict]. *)
Definition resultEntry (verdict : blank -> bool) (b : blank) : value :=
  VObj [("id", VStr (blank_id b)); ("correct", VBool (verdict b))].

(** An active multiple-choice exercise. *)
Definition choiceExercise (exercise_id prompt options allow_multiple : value)
  (correct_option_ids : list string) : value :=
  VObj [("enabled", VNum 1);
        ("exercise_id", exercise_id);
        ("problem_type", VStr "multiple_choice");
        ("translation", VNull);
        ("fill_in_blank", VNull);
        ("multiple_choice",
          VObj [("prompt", prompt);
                ("options", options);
                ("allow_multiple", allow_multiple);
                ("correct_option_ids", VArr (map VStr correct_option_ids) [])]);
        ("free_response", VNull)].

(** The options of a multiple-choice exercise: an id and a text each. *)
Definition optionValue (o : string * string) : value :=
  VObj [("id", VStr (fst o)); ("text", VStr (snd o))].

Definition choiceOptions (options : list (string * string)) : value :=
  VArr (map optionValue options) [].

(** What is left of a blank without its accepted answers. *)
Definition visibleBlank (b : blank) : value :=
  VObj [("id", VStr (blank_id b));
        ("text_with_placeholder", VStr (text_with_placeholder b))].

(** An attempt at it: the selected option ids. *)
Definition selection (ids : list string) : value := VArr (map VStr ids) [].

(** What is left of the two exercises without their answer keys. *)
Definition shownFill (exercise_id prompt : string) (blanks : list blank)
  : value :=
  VObj [("enabled", VNum 1);
        ("exercise_id", VStr exercise_id);
        ("problem_type", VStr "fill_in_blank");
        ("translation", VNull);
        ("fill_in_blank",
          VObj [("prompt", VStr prompt);
                ("blanks", VArr (map visibleBlank blanks) [])]);
        ("multiple_choice", VNull);
        ("free_response", VNull)].

Definition shownChoice (exercise_id prompt : string)
  (options : list (string * string)) (allow_multiple : bool) : value :=
  VObj [("enabled", VNum 1);
        ("exercise_id", VStr exercise_id);
        ("problem_type", VStr "multiple_choice");
        ("translation", VNull);
        ("fill_in_blank", VNull);
        ("multiple_choice",
          VObj [("prompt", VStr prompt);
                ("options", choiceOptions options);
                ("allow_multiple", VBool allow_multiple)]);
        ("free_response", VNull)].


End Exercise.

(** ** The level a text reports, as the specification words it *)

Module LevelSpec.
Import Page.

Definition levelNames : list string := ["A1"; "A2"; "B1"; "B2"; "C1"; "C2"].

(** In the text [pre ++ w ++ post], [w] is the level [name] in some letter
    case, standing as a whole word. *)
Definition wholeWordLevel (pre w post name : string) : Prop :=
  In name levelNames /\
  toUpperCase w = name /\
  isWord (lastChar pre) = false /\
  isWord (headChar post) = false.

(** [name] is the first whole-word level of the text [s]. *)
Definition firstLevel (s name : string) : Prop :=
  exists pre w post,
    s = pre ++ w ++ post /\
    wholeWordLevel pre w post name /\
    forall pre' w' post' name',
      s = pre' ++ w' ++ post' -> wholeWordLevel pre' w' post' name' ->
      String.length pre <= String.length pre'.

(** The text [s] has no whole-word level. *)
Definition noLevel (s : string) : Prop :=
  forall pre w post name,
    s = pre ++ w ++ post -> ~ wholeWordLevel pre w post name.

(** The text [s] contains [keyword] in some letter case. *)
Definition mentions (keyword s : string) : Prop :=
  exists pre w post, s = pre ++ w ++ post /\ toLowerCase w = keyword.

(** The text [s] contains [keyword] letter for letter. *)
Definition contains (keyword s : string) : Prop :=
  exists pre post, s = pre ++ keyword ++ post.

(** The upper-case letters and the digits of the level codes. *)
Definition levelChars : list ascii := ["A"; "B"; "C"; "1"; "2"]%char.

Definition isLevelChar (c : ascii) : bool :=
  existsb (Ascii.eqb (upperChar c)) levelChars.

(** Every character of [s] satisfies [P]. *)
Fixpoint allOf (P : ascii -> bool) (s : string) : bool :=
  match s with
  | EmptyString => true
  | String c r => P c && allOf P r
  end.

Definition lowerBoth (mr : string * string) : string * string :=
  (toLowerCase (fst mr), toLowerCase (snd mr)).

(** The character before the text that follows [pre], when [prev] is the
    character before [pre]. *)
Definition prevOf (prev : option ascii) (pre : string) : option ascii :=
  match lastChar pre with Some c => Some c | None => prev end.

End LevelSpec.

(** ** Sample data *)

Module Samples.

(** The raw output of the conflict scenario, with a translation proposal. *)
Definition conflictOutput : value :=
  VObj [("response", VStr "Choose one.");
        ("clear_active", VNum 1);
        ("proposal",
          VObj [("enabled", VNum 1); ("proposal_id", VStr "p1");
                ("problem_type", VStr "translation");
                ("translation", VObj [("text", VStr "Buenos dias")]);
                ("fill_in_blank", VNull); ("multiple_choice", VNull);
                ("free_response", VNull)]);
        ("poll",
          VObj [("enabled", VNum 1); ("poll_id", VStr "q1");
                ("question", VStr "Next?");
                ("options", VArr [VObj [("id", VStr "a"); ("text", VStr "More")]] [])])].

(** A raw output whose proposal is enabled but carries no payload. *)
Definition hollowOutput : value :=
  VObj [("response", VStr "Try this.");
        ("clear_active", VNum 0);
        ("proposal",
          VObj [("enabled", VNum 1); ("proposal_id", VStr "p2");
                ("problem_type", VStr "translation");
                ("translation", VNull); ("fill_in_blank", VNull);
                ("multiple_choice", VNull); ("free_response", VNull)]);
        ("poll",
          VObj [("enabled", VNum 0); ("poll_id", VNull);
                ("question", VNull); ("options", VNull)])].

(** A server configuration in working order. *)
Definition sampleEnv : Route.env :=
  {| Route.OPENAI_API_KEY := Some "sk-test"; Route.OPENAI_MODEL := None |}.

Definition samplePrompts : value :=
  VObj [("system_lines",
          VArr [VStr "You coach {{targetLanguage}} for a {{ nativeLanguage }} speaker.";
                VStr "Answer with JSON only."] []);
        ("help_user_message_with_active",
          VStr "Student says: {{userText}} | exercise: {{activeContextJson}} | attempt: {{attemptJson}}");
        ("post_clear_user_message",
          VStr "Cleared {{clearedJson}} because {{clearedOutcomeJson}}.")].

Definition sampleFiles : Route.files :=
  {| Route.schemaJson := Ok (VObj [("type", VStr "object")]);
     Route.promptsJson := Ok samplePrompts |}.

(** A stand-in for [JSON.parse] where its result does not matter. *)
Definition parseNothing (raw : string) : res value := Ok VNull.

(** A help request without an active exercise. *)
Definition helpWithoutExercise : value :=
  VObj [("mode", VStr "help"); ("userText", VStr "What does this mean?");
        ("messages", VArr [] []); ("active", VNull); ("attempt", VNull)].

(** A request whose mode is not a mode of the route, and the same request
    in chat mode. *)
Definition oddModeRequest : value :=
  VObj [("mode", VStr "quiz"); ("userText", VStr "Hola");
        ("messages", VArr [] [])].

Definition chatModeRequest : value :=
  VObj [("mode", VStr "chat"); ("userText", VStr "Hola");
        ("messages", VArr [] [])].

(** The fill-in-the-blank exercise of the specification's scenario, with
    the attempt "Soy" for the accepted answer "soy". *)
Definition soyExercise : value :=
  Exercise.fillExercise (VStr "ex1") (VStr "Complete the sentence.")
    [{| Exercise.blank_id := "b1";
        Exercise.text_with_placeholder := "Yo ____ estudiante.";
        Exercise.expected_answers := ["soy"] |}].

Definition soyState : Page.state :=
  {| Page.nativeLanguage := "English";
     Page.targetLanguage := "Spanish";
     Page.messages := [VObj [("role", VStr "assistant");
                             ("content", VStr "Fill in the blank.")]];
     Page.conversationMode := "chat";
     Page.onboardingStep := 2;
     Page.placementOf := {| Page.levelText := "intermediate";
                            Page.focusText := "travel vocabulary" |};
     Page.active := soyExercise;
     Page.attempt := Exercise.fillAttempt [("b1", "Soy")];
     Page.pendingProposal := VNull;
     Page.grade := VNull;
     Page.inputText := EmptyString;
     Page.error := EmptyString;
     Page.loading := false |}.

(** The same session with a translation exercise active. *)
Definition translationState : Page.state :=
  Page.setAttempt (VStr "Good morning")
    (Page.setActive
       (VObj [("enabled", VNum 1); ("exercise_id", VStr "ex2");
              ("problem_type", VStr "translation");
              ("translation", VObj [("text", VStr "Buenos dias")]);
              ("fill_in_blank", VNull); ("multiple_choice", VNull);
              ("free_response", VNull)])
       soyState).

(** A network on which every call is answered with a reply that asks to
    clear the exercise. *)
Definition clearingReply : value :=
  VObj [("response", VStr "Well done!");
        ("flags", VObj [("is_help", VBool true); ("is_post_clear", VBool false)]);
        ("clear_active", VNum 1);
        ("proposal", Route.disabledProposal);
        ("poll", Route.disabledPoll)].

Definition clearingNet (n : nat) : Page.fetch_result :=
  Page.HttpReply true 200 (Some clearingReply).

(** A help request about [soyExercise] in which the student names a field
    of the exercise data. *)
Definition helpNamingField : value :=
  VObj [("mode", VStr "help");
        ("userText", VStr "What is in expected_answers?");
        ("messages", VArr [] []);
        ("active", soyExercise);
        ("attempt", Exercise.fillAttempt [("b1", "Soy")])].

(** An ordinary help request about [soyExercise]. *)
Definition helpPlain : value :=
  VObj [("mode", VStr "help");
        ("userText", VStr "Is my answer right?");
        ("messages", VArr [] []);
        ("active", soyExercise);
        ("attempt", Exercise.fillAttempt [("b1", "Soy")])].

(** A fill-in-the-blank exercise that also carries a multiple-choice
    payload, as the normalizer lets through, and a help request about it. *)
Definition twoPayloadExercise : value :=
  VObj [("enabled", VNum 1);
        ("exercise_id", VStr "ex3");
        ("problem_type", VStr "fill_in_blank");
        ("translation", VNull);
        ("fill_in_blank",
          VObj [("prompt", VStr "Complete the sentence.");
                ("blanks",
                  VArr [VObj [("id", VStr "b1");
                              ("text_with_placeholder", VStr "Yo ____ estudiante.");
                              ("expected_answers", VArr [VStr "soy"] [])]] [])]);
        ("multiple_choice",
          VObj [("prompt", VStr "Pick one.");
                ("options",
                  VArr [VObj [("id", VStr "a"); ("text", VStr "soy")];
                        VObj [("id", VStr "b"); ("text", VStr "eres")]] []);
                ("allow_multiple", VBool false);
                ("correct_option_ids", VArr [VStr "a"] [])]);
        ("free_response", VNull)].

Definition helpTwoPayloads : value :=
  VObj [("mode", VStr "help");
        ("userText", VStr "Is my answer right?");
        ("messages", VArr [] []);
        ("active", twoPayloadExercise);
        ("attempt", Exercise.fillAttempt [("b1", "Soy")])].

(** A proposal from which [soyExercise] is built. *)
Definition soyProposal : value :=
  VObj [("enabled", VNum 1); ("proposal_id", VStr "ex1");
        ("problem_type", VStr "fill_in_blank"); ("translation", VNull);
        ("fill_in_blank", get soyExercise "fill_in_blank");
        ("multiple_choice", VNull); ("free_response", VNull)].

(** The session with no exercise, and the same at the first onboarding
    question. *)
Definition idleState : Page.state := Page.clearExercise soyState.

Definition onboardingState : Page.state :=
  Page.setOnboardingStep 0 (Page.setConversationMode "onboarding" idleState).

(** The session with a wrong answer typed. *)
Definition wrongState : Page.state :=
  Page.setAttempt (Exercise.fillAttempt [("b1", "eres")]) soyState.

(** A fill-in-the-blank exercise whose blank has no accepted answers. *)
Definition openBlank : value :=
  VObj [("id", VStr "b1");
        ("text_with_placeholder", VStr "Yo ____ estudiante.")].

Definition openExercise : value :=
  VObj [("enabled", VNum 1);
        ("exercise_id", VStr "ex4");
        ("problem_type", VStr "fill_in_blank");
        ("translation", VNull);
        ("fill_in_blank",
          VObj [("prompt", VStr "Complete the sentence.");
                ("blanks", VArr [openBlank] [])]);
        ("multiple_choice", VNull);
        ("free_response", VNull)].

Definition openState : Page.state := Page.setActive openExercise soyState.

(** A multiple-choice exercise that allows several answers, with one
    option selected. *)
Definition articleExercise : value :=
  Exercise.choiceExercise (VStr "mc1") (VStr "Pick the articles.")
    (Exercise.choiceOptions [("a", "el"); ("b", "la"); ("c", "de")])
    (VBool true) ["a"; "b"].

Definition articleState : Page.state :=
  Page.setAttempt (Exercise.selection ["a"])
    (Page.setActive articleExercise soyState).

(** A network on which every call fails. *)
Definition failingNet (n : nat) : Page.fetch_result :=
  Page.NetworkFailure (Error "offline").

(** [helpPlain] sent in chat mode. *)
Definition chatAboutExercise : value :=
  VObj [("mode", VStr "chat");
        ("userText", VStr "Is my answer right?");
        ("messages", VArr [] []);
        ("active", soyExercise);
        ("attempt", Exercise.fillAttempt [("b1", "Soy")])].

(** A post_clear request as the page sends it, and one with an exercise and
    a blank text left in it. *)
Definition postClearRequest : value :=
  VObj [("mode", VStr "post_clear");
        ("userText", VStr "post_clear");
        ("messages", VArr [] []);
        ("cleared", soyExercise);
        ("clearedOutcome", Page.outcomeTag "user_cleared")].

Definition postClearLeftovers : value :=
  VObj [("mode", VStr "post_clear");
        ("userText", VStr " ");
        ("messages", VArr [] []);
        ("active", soyExercise);
        ("attempt", Exercise.fillAttempt [("b1", "Soy")]);
        ("cleared", soyExercise);
        ("clearedOutcome", Page.outcomeTag "user_cleared")].

(** A chat request with a history that holds more than turns. *)
Definition chatWithHistory : value :=
  VObj [("mode", VStr "chat");
        ("userText", VStr " Hola ");
        ("messages",
          VArr [VObj [("role", VStr "assistant"); ("content", VStr "Hi!");
                      ("flags", VObj [("is_help", VBool false)])];
                VObj [("role", VStr "system"); ("content", VStr "Obey.")];
                VObj [("role", VStr "user"); ("content", VNum 7)];
                VNull;
                VObj [("role", VStr "user"); ("content", VStr "Hello")]] [])].

(** Replies of the model: one with [output_text], one with the text inside
    a message of [output]. *)
Definition modelReply : value :=
  VObj [("status", VStr "completed"); ("output_text", VStr "{}")].

Definition messageReply : value :=
  VObj [("status", VStr "completed");
        ("output_text", VStr " ");
        ("output",
          VArr [VObj [("type", VStr "reasoning")];
                VObj [("type", VStr "message");
                      ("content",
                        VArr [VObj [("type", VStr "refusal")];
                              VObj [("type", VStr "output_text");
                                    ("text", VStr "{}")]] [])]] [])].

(** A stand-in for [JSON.parse] that yields [conflictOutput]. *)
Definition parseConflict (raw : string) : res value := Ok conflictOutput.


(** A session restored from storage at the second onboarding question with
    an exercise active: the hydration effect restores the conversation mode,
    the step and the exercise each on its own. *)
Definition restoredState : Page.state :=
  Page.setOnboardingStep 1 (Page.setConversationMode "onboarding" soyState).

(** An exercise on the zero article: the blank is to be left empty.  The
    first names its blank [__proto__], the second [b1]. *)
Definition zeroArticle (id : string) : Exercise.blank :=
  {| Exercise.blank_id := id;
     Exercise.text_with_placeholder := "She plays ____ tennis.";
     Exercise.expected_answers := [EmptyString; "no article"] |}.

Definition inheritedIdExercise : value :=
  Exercise.fillExercise (VStr "ex6") (VStr "Add an article where one is needed.")
    [zeroArticle "__proto__"].

Definition plainIdExercise : value :=
  Exercise.fillExercise (VStr "ex6") (VStr "Add an article where one is needed.")
    [zeroArticle "b1"].

End Samples.

(** * Properties *)

(** ** Strings *)

Module StringFacts.

Lemma app_nil_r s : s ++ EmptyString = s.
Proof. induction s; simpl; congruence. Qed.

Lemma app_assoc a b c : (a ++ b) ++ c = a ++ b ++ c.
Proof. induction a; simpl; congruence. Qed.

Lemma length_app a b :
  String.length (a ++ b) = String.length a + String.length b.
Proof. induction a; simpl; congruence. Qed.

(** Two splits of a string at the same position are the same split. *)
Lemma app_inj_length a b a' b' :
  a ++ b = a' ++ b' -> String.length a = String.length a' ->
  a = a' /\ b = b'.
Proof.
  revert a'. induction a as [|x a IH]; intros [|y a'] E L; simpl in *;
    try discriminate; auto.
  injection E as -> E. injection L as L.
  destruct (IH a' E L) as [-> ->]. auto.
Qed.

Lemma mapChars_app f a b :
  mapChars f (a ++ b) = mapChars f a ++ mapChars f b.
Proof. induction a; simpl; congruence. Qed.

Lemma mapChars_split f s a b :
  mapChars f s = a ++ b ->
  exists sa sb, s = sa ++ sb /\ mapChars f sa = a /\ mapChars f sb = b.
Proof.
  revert s. induction a as [|x a IH]; intros s E; simpl in *.
  - exists EmptyString, s. auto.
  - destruct s as [|c s]; simpl in E; [discriminate|].
    injection E as Ec E. destruct (IH s E) as [sa [sb [-> [Ha Hb]]]].
    exists (String c sa), sb. simpl. subst. auto.
Qed.

Lemma startsWith_spec p s :
  startsWith p s = true <-> exists post, s = p ++ post.
Proof.
  revert s. induction p as [|a p IH]; intros s; simpl.
  - split; eauto.
  - destruct s as [|b s].
    + split; [discriminate|]. intros [post E]. discriminate.
    + rewrite andb_true_iff, IH. split.
      * intros [E [post ->]]. apply Ascii.eqb_eq in E. subst. eauto.
      * intros [post E]. injection E as -> ->.
        split; [apply Ascii.eqb_refl|eauto].
Qed.

Lemma includes_spec needle hay :
  includes needle hay = true <-> exists pre post, hay = pre ++ needle ++ post.
Proof.
  induction hay as [|c hay IH].
  - simpl. rewrite orb_false_r, startsWith_spec. split.
    + intros [post E]. exists EmptyString, post. exact E.
    + intros [pre [post E]]. destruct pre; [eauto|discriminate].
  - cbn [includes]. rewrite orb_true_iff, startsWith_spec, IH. split.
    + intros [[post E]|[pre [post E]]].
      * exists EmptyString, post. exact E.
      * exists (String c pre), post. simpl. now rewrite E.
    + intros [[|x pre] [post E]].
      * left. eauto.
      * right. injection E as -> E. eauto.
Qed.

Lemma occurs_app c a b : occurs c (a ++ b) = occurs c a || occurs c b.
Proof.
  induction a as [|x a IH]; simpl; auto. rewrite IH. apply orb_assoc.
Qed.

(** A string that includes [needle] has every character of [needle]. *)
Lemma includes_occurs needle hay c :
  includes needle hay = true -> occurs c needle = true -> occurs c hay = true.
Proof.
  intros H Hc. apply includes_spec in H. destruct H as [pre [post ->]].
  rewrite !occurs_app, Hc. now rewrite orb_true_r.
Qed.

(** *** Occurrences across a character the needle does not have *)

Section Separator.

Variable needle : string.
Variable d : ascii.
Hypothesis absent : occurs d needle = false.

Lemma startsWith_sep p w v :
  occurs d p = false ->
  startsWith p (w ++ String d v) = startsWith p w.
Proof.
  revert p. induction w as [|c w IH]; intros [|a p] Hp; simpl in *; auto.
  - apply orb_false_iff in Hp. destruct Hp as [Hd _].
    rewrite Ascii.eqb_sym, Hd. reflexivity.
  - apply orb_false_iff in Hp. destruct Hp as [_ Hp].
    now rewrite IH.
Qed.

Lemma includes_sep u v :
  includes needle (u ++ String d v) = includes needle u || includes needle v.
Proof.
  induction u as [|c u IH].
  - pose proof (startsWith_sep needle EmptyString v absent) as E.
    cbn [append] in E. cbn [append includes]. rewrite E.
    now rewrite orb_false_r.
  - pose proof (startsWith_sep needle (String c u) v absent) as E.
    cbn [append] in E. cbn [append includes]. rewrite E, IH.
    now rewrite orb_assoc.
Qed.

End Separator.

Lemma includes_empty needle :
  needle <> EmptyString -> includes needle EmptyString = false.
Proof. destruct needle; [congruence|reflexivity]. Qed.

(** [open ++ body ++ close] for two characters the needle does not have. *)
Lemma includes_wrap needle o c body :
  needle <> EmptyString ->
  occurs o needle = false -> occurs c needle = false ->
  includes needle (String o (body ++ String c EmptyString))
  = includes needle body.
Proof.
  intros Hne Ho Hc.
  change (String o (body ++ String c EmptyString))
    with (EmptyString ++ String o (body ++ String c EmptyString)).
  rewrite (includes_sep needle o Ho), (includes_sep needle c Hc).
  rewrite includes_empty by assumption. now rewrite orb_false_r.
Qed.

Lemma includes_join needle sep parts :
  needle <> EmptyString -> occurs sep needle = false ->
  includes needle (join (String sep EmptyString) parts)
  = existsb (includes needle) parts.
Proof.
  intros Hne Hsep. unfold join.
  induction parts as [|x [|y r] IH].
  - now apply includes_empty.
  - simpl. now rewrite orb_false_r.
  - change (String.concat (String sep EmptyString) (x :: y :: r))
      with (x ++ String sep (String.concat (String sep EmptyString) (y :: r))).
    rewrite (includes_sep needle sep Hsep), IH. reflexivity.
Qed.

Lemma forall_chars (P : ascii -> bool) :
  forallb P allChars = true -> forall c, P c = true.
Proof.
  intros H c. rewrite forallb_forall in H. apply H.
  unfold allChars. rewrite <- (ascii_nat_embedding c).
  apply in_map, in_seq. pose proof (nat_ascii_bounded c). lia.
Qed.

End StringFacts.

(** ** The primitives on sample inputs *)

Module PrimitiveExamples.
Import Route.

Example trim_Hola : trim " Hola " = "Hola".
Proof. reflexivity. Qed.

Example lower_Hola : toLowerCase "Hola" = "hola".
Proof. reflexivity. Qed.

Example render_placeholders :
  renderTemplate "a {{x}} b {{  y_1 }} {{{x}} {{ z }} {{x }}} {{}} {{ x y }} {{x"
                 [("x", VStr "X"); ("y_1", VNum (-12))]
  = "a X b -12 {X  X} {{}} {{ x y }} {{x".
Proof. reflexivity. Qed.

Example stringify_skips_undefined :
  stringify (VObj [("a", VUndef);
                   ("b", VArr [VUndef; VNull; VNum 0] [("k", VNum 1)]);
                   ("c", VBool true)])
  = Some ("{" ++ quote "b" ++ ":[null,null,0]," ++ quote "c" ++ ":true}").
Proof. reflexivity. Qed.

(** The malformed output [{}] in chat mode: both shapes disabled,
    [clear_active] 0. *)
Example normalize_empty_object :
  normalizeModelOutput (VObj []) Chat
  = VObj [("proposal", disabledProposal); ("poll", disabledPoll);
          ("clear_active", VNum 0)].
Proof. reflexivity. Qed.

End PrimitiveExamples.

(** ** Property tables and values *)

Section PropertyTables.

Lemma lookup_assign_same (k : string) (v : value) props :
  lookup k (assign k v props) = Some v.
Proof.
  induction props as [|[k' v'] rest IH]; simpl.
  - now rewrite String.eqb_refl.
  - destruct (String.eqb k k') eqn:E; simpl; rewrite E; auto.
Qed.

Lemma lookup_assign_other (k k' : string) (v : value) props :
  k <> k' -> lookup k' (assign k v props) = lookup k' props.
Proof.
  intros Hne. induction props as [|[k0 v0] rest IH]; simpl.
  - destruct (String.eqb_spec k' k); congruence.
  - destruct (String.eqb_spec k k0) as [->|Hk]; simpl.
    + destruct (String.eqb_spec k' k0); congruence.
    + destruct (String.eqb_spec k' k0); auto.
Qed.

Lemma lookup_remove_same (k : string) props : lookup k (remove k props) = None.
Proof.
  induction props as [|[k' v'] rest IH]; simpl; auto.
  destruct (String.eqb k k') eqn:E; simpl; auto. now rewrite E.
Qed.

Lemma lookup_remove_other (k k' : string) props :
  k <> k' -> lookup k' (remove k props) = lookup k' props.
Proof.
  intros Hne. induction props as [|[k0 v0] rest IH]; simpl; auto.
  destruct (String.eqb_spec k k0) as [->|Hk]; simpl.
  - destruct (String.eqb_spec k' k0); congruence.
  - destruct (String.eqb_spec k' k0); auto.
Qed.

End PropertyTables.

Lemma get_set_same o k x : isContainer o = true -> get (set o k x) k = x.
Proof.
  destruct o; simpl; try discriminate; intros _;
    now rewrite lookup_assign_same.
Qed.

Lemma get_set_other o k k' x : k <> k' -> get (set o k x) k' = get o k'.
Proof.
  intros Hne. destruct o; simpl; auto; now rewrite lookup_assign_other.
Qed.

Lemma set_container o k x : isContainer o = true -> isContainer (set o k x) = true.
Proof. destruct o; simpl; auto. Qed.

Lemma truthy_object_container v :
  truthy v && typeofObject v = true -> isContainer v = true.
Proof.
  destruct v; simpl; intros H; try reflexivity; try discriminate;
    rewrite andb_false_r in H; discriminate.
Qed.

Create HintDb js.
#[local] Hint Resolve set_container truthy_object_container : js.

Lemma isNum_true n v : isNum n v = true -> v = VNum n.
Proof.
  destruct v; simpl; try discriminate.
  intros H. apply Z.eqb_eq in H. now subst.
Qed.

Lemma isStr_true s v : isStr s v = true -> v = VStr s.
Proof.
  destruct v; simpl; try discriminate.
  intros H. apply String.eqb_eq in H. now subst.
Qed.

Lemma isStr_false s v : v <> VStr s -> isStr s v = false.
Proof.
  destruct v; simpl; auto. intros H.
  destruct (String.eqb_spec s0 s); congruence.
Qed.

Lemma get_primitive v k : isContainer v = false -> get v k = VUndef.
Proof. destruct v; simpl; auto; discriminate. Qed.

Lemma get_num_container v k n : get v k = VNum n -> isContainer v = true.
Proof.
  destruct (isContainer v) eqn:E; auto.
  intros H. rewrite get_primitive in H by assumption. discriminate.
Qed.

Lemma get_defined_container v k :
  get v k <> VUndef -> isContainer v = true.
Proof.
  destruct (isContainer v) eqn:E; auto.
  intros H. now rewrite get_primitive in H.
Qed.

Lemma container_truthy_object v :
  isContainer v = true -> truthy v && typeofObject v = true.
Proof. destruct v; simpl; auto; discriminate. Qed.

(** ** The normalizer *)

Module NormalizerFacts.
Import Route Samples.

Lemma if_set_container (c : bool) o k x :
  isContainer o = true -> isContainer (if c then set o k x else o) = true.
Proof. destruct c; auto with js. Qed.

Lemma coerceOutput_container parsed : isContainer (coerceOutput parsed) = true.
Proof.
  unfold coerceOutput.
  repeat apply if_set_container.
  destruct (truthy parsed && typeofObject parsed) eqn:E; auto with js.
Qed.

(** The starting point [parsed && typeof parsed === "object" ? parsed : {}]
    has the properties of [parsed]. *)
Lemma start_get parsed k :
  get (if truthy parsed && typeofObject parsed then parsed else VObj []) k
  = get parsed k.
Proof.
  destruct (truthy parsed && typeofObject parsed) eqn:E; auto.
  destruct parsed; simpl in *; auto; discriminate.
Qed.

(** One conditional assignment of the normalizer, seen from property [k']. *)
Lemma step_other (c : bool) o k k' x :
  k <> k' -> get (if c then set o k x else o) k' = get o k'.
Proof. intros. destruct c; auto using get_set_other. Qed.

Lemma step_same (c : bool) o k x :
  isContainer o = true ->
  get (if c then set o k x else o) k = if c then x else get o k.
Proof. intros. destruct c; auto using get_set_same. Qed.

Ltac name_steps :=
  unfold coerceOutput; cbv zeta;
  match goal with
  | |- context [if truthy ?p && typeofObject ?p then ?p else VObj []] =>
      let o0 := fresh "o0" in
      set (o0 := if truthy p && typeofObject p then p else VObj []);
      assert (isContainer o0 = true)
        by (subst o0; destruct (truthy p && typeofObject p) eqn:?; auto with js);
      assert (forall k, get o0 k = get p k) by (intro; apply start_get)
  end.

Ltac case_if :=
  match goal with
  | |- context [if ?c then _ else _] => destruct c eqn:?
  end.

Ltac name_step o k x o' :=
  match goal with
  | |- context [if ?c then set o k x else o] =>
      set (o' := if c then set o k x else o);
      assert (isContainer o' = true) by (apply if_set_container; auto)
  end.

(** After the coercions the proposal is the disabled shape, or it is the
    proposal of the raw output and that one is enabled. *)
Lemma coerceOutput_proposal parsed :
  let p := get (coerceOutput parsed) "proposal" in
  p = disabledProposal \/
  (get p "enabled" = VNum 1 /\ p = get parsed "proposal").
Proof.
  name_steps.
  match goal with H : forall k, get o0 k = _ |- _ => rename H into G0 end.
  name_step o0 "proposal" disabledProposal o1.
  assert (P1 : get o1 "proposal" = disabledProposal
               \/ get o1 "proposal" = get parsed "proposal").
  { subst o1. rewrite step_same by auto. case_if; auto. }
  name_step o1 "poll" disabledPoll o2.
  assert (P2 : get o2 "proposal" = get o1 "proposal")
    by (subst o2; apply step_other; discriminate).
  name_step o2 "proposal" disabledProposal o3.
  name_step o3 "poll" disabledPoll o4.
  cbv zeta.
  rewrite step_other by discriminate.
  subst o4. rewrite step_other by discriminate.
  subst o3. rewrite step_same by auto.
  destruct (isNum 1 (get (get o2 "proposal") "enabled")) eqn:E; simpl; auto.
  right. split; [now apply isNum_true|].
  rewrite P2. destruct P1 as [P1|P1]; auto.
  rewrite P2, P1 in E. discriminate.
Qed.

Lemma coerceOutput_poll parsed :
  let p := get (coerceOutput parsed) "poll" in
  p = disabledPoll \/ (get p "enabled" = VNum 1 /\ p = get parsed "poll").
Proof.
  name_steps.
  match goal with H : forall k, get o0 k = _ |- _ => rename H into G0 end.
  name_step o0 "proposal" disabledProposal o1.
  assert (P1 : get o1 "poll" = get parsed "poll").
  { subst o1. rewrite step_other by discriminate. apply G0. }
  name_step o1 "poll" disabledPoll o2.
  assert (P2 : get o2 "poll" = disabledPoll \/ get o2 "poll" = get parsed "poll").
  { subst o2. rewrite step_same by auto. case_if; auto. }
  name_step o2 "proposal" disabledProposal o3.
  assert (P3 : get o3 "poll" = get o2 "poll")
    by (subst o3; apply step_other; discriminate).
  name_step o3 "poll" disabledPoll o4.
  cbv zeta.
  rewrite step_other by discriminate.
  subst o4. rewrite step_same by auto.
  destruct (isNum 1 (get (get o3 "poll") "enabled")) eqn:E; simpl; auto.
  right. split; [now apply isNum_true|].
  rewrite P3. destruct P2 as [P2|P2]; auto.
  rewrite P3, P2 in E. discriminate.
Qed.

Lemma coerceOutput_clear parsed :
  let c := get (coerceOutput parsed) "clear_active" in
  c = VNum 0 \/ (c = VNum 1 /\ get parsed "clear_active" = VNum 1).
Proof.
  name_steps.
  match goal with H : forall k, get o0 k = _ |- _ => rename H into G0 end.
  name_step o0 "proposal" disabledProposal o1.
  name_step o1 "poll" disabledPoll o2.
  name_step o2 "proposal" disabledProposal o3.
  name_step o3 "poll" disabledPoll o4.
  assert (P4 : get o4 "clear_active" = get parsed "clear_active").
  { subst o4 o3 o2 o1. rewrite !step_other by discriminate. apply G0. }
  cbv zeta. rewrite step_same by auto.
  destruct (isNum 1 (get o4 "clear_active")) eqn:E; simpl; auto.
  apply isNum_true in E. right. split; congruence.
Qed.

Lemma container_checks v :
  isContainer v = true -> negb (truthy v) || negb (typeofObject v) = false.
Proof. destruct v; simpl; auto; discriminate. Qed.

(** A raw output with an enabled poll, an enabled proposal and
    [clear_active] 1 passes the coercions unchanged. *)
Lemma coerceOutput_id parsed :
  get (get parsed "poll") "enabled" = VNum 1 ->
  get (get parsed "proposal") "enabled" = VNum 1 ->
  get parsed "clear_active" = VNum 1 ->
  coerceOutput parsed = parsed.
Proof.
  intros Hpoll Hprop Hclear.
  unfold coerceOutput; cbv zeta.
  rewrite (container_truthy_object parsed) by eauto using get_num_container.
  cbv iota.
  rewrite (container_checks (get parsed "proposal")) by eauto using get_num_container.
  cbv iota.
  rewrite (container_checks (get parsed "poll")) by eauto using get_num_container.
  cbv iota.
  rewrite Hprop. simpl (if negb (isNum 1 (VNum 1)) then _ else _).
  rewrite Hpoll. simpl (if negb (isNum 1 (VNum 1)) then _ else _).
  rewrite Hclear. reflexivity.
Qed.

(** C2: for every raw model output in chat or post_clear mode whose poll and
    proposal are both enabled and whose [clear_active] is 1, the normalizer
    returns the raw output with the poll replaced by the disabled poll: the
    poll is disabled, the proposal is exactly the one given (the
    poll-against-proposal rule is not reached) and [clear_active] is still
    1. *)
Theorem poll_proposal_clear_conflict (parsed : value) (m : mode) :
  m = Chat \/ m = PostClear ->
  get (get parsed "poll") "enabled" = VNum 1 ->
  get (get parsed "proposal") "enabled" = VNum 1 ->
  get parsed "clear_active" = VNum 1 ->
  let out := normalizeModelOutput parsed m in
  out = set parsed "poll" disabledPoll /\
  get out "poll" = disabledPoll /\
  get (get out "poll") "enabled" = VNum 0 /\
  get out "proposal" = get parsed "proposal" /\
  get out "clear_active" = VNum 1.
Proof.
  intros Hm Hpoll Hprop Hclear. cbv zeta.
  assert (Hout : normalizeModelOutput parsed m = set parsed "poll" disabledPoll).
  { unfold normalizeModelOutput. rewrite coerceOutput_id by assumption.
    cbv zeta. rewrite Hpoll, Hclear. simpl.
    destruct Hm as [-> | ->]; reflexivity. }
  rewrite Hout.
  assert (C : isContainer parsed = true) by eauto using get_num_container.
  rewrite get_set_same by assumption.
  rewrite !get_set_other by discriminate.
  repeat split; assumption.
Qed.

Lemma poll_proposal_clear_conflict_witness :
  let out := normalizeModelOutput conflictOutput PostClear in
  out = set conflictOutput "poll" disabledPoll /\
  get out "poll" = disabledPoll /\
  get (get out "poll") "enabled" = VNum 0 /\
  get out "proposal" = get conflictOutput "proposal" /\
  get out "clear_active" = VNum 1.
Proof.
  apply (poll_proposal_clear_conflict conflictOutput PostClear);
    [right; reflexivity | reflexivity | reflexivity | reflexivity].
Defined.

(** C7: for every raw model output normalized in help mode, the poll of the
    result is the disabled poll: [enabled] is 0 and [poll_id], [question] and
    [options] are null, whatever the raw output held. *)
Theorem help_mode_poll_disabled (parsed : value) :
  let poll := get (normalizeModelOutput parsed Help) "poll" in
  poll = disabledPoll /\
  get poll "enabled" = VNum 0 /\
  get poll "poll_id" = VNull /\
  get poll "question" = VNull /\
  get poll "options" = VNull.
Proof.
  cbv zeta. unfold normalizeModelOutput.
  rewrite get_set_same by apply coerceOutput_container.
  repeat split.
Qed.

End NormalizerFacts.

(** ** The shape rule across the normalizer and activation *)

Module ShapeFacts.
Import Route Page Shape Samples NormalizerFacts.

Lemma normalize_proposal parsed m :
  let p := get (normalizeModelOutput parsed m) "proposal" in
  p = disabledProposal \/
  (get p "enabled" = VNum 1 /\ p = get parsed "proposal").
Proof.
  cbv zeta. unfold normalizeModelOutput. cbv zeta.
  pose proof (coerceOutput_proposal parsed) as P. cbv zeta in P.
  pose proof (coerceOutput_container parsed) as C.
  destruct m.
  - case_if; [now rewrite get_set_other by discriminate|].
    rewrite step_other by discriminate.
    rewrite step_same by assumption. case_if; auto.
  - now rewrite get_set_other by discriminate.
  - case_if; [now rewrite get_set_other by discriminate|].
    rewrite step_other by discriminate.
    rewrite step_same by assumption. case_if; auto.
Qed.

Lemma normalize_poll parsed m :
  let p := get (normalizeModelOutput parsed m) "poll" in
  p = disabledPoll \/ (get p "enabled" = VNum 1 /\ p = get parsed "poll").
Proof.
  cbv zeta. unfold normalizeModelOutput. cbv zeta.
  pose proof (coerceOutput_poll parsed) as P. cbv zeta in P.
  pose proof (coerceOutput_container parsed) as C.
  destruct m.
  - case_if; [left; now apply get_set_same|].
    now rewrite !step_other by discriminate.
  - left; now apply get_set_same.
  - case_if; [left; now apply get_set_same|].
    now rewrite !step_other by discriminate.
Qed.

Lemma populated_ext fields x y :
  (forall k, In k fields -> isNullish (get x k) = isNullish (get y k)) ->
  populated fields x = populated fields y.
Proof.
  intros H. unfold populated. induction fields as [|k rest IH]; simpl; auto.
  rewrite (H k) by (left; reflexivity).
  rewrite IH by (intros; apply H; right; assumption). reflexivity.
Qed.

Lemma isNullish_orElse v : isNullish (orElse v VNull) = isNullish v.
Proof. destruct v; reflexivity. Qed.

(** C3, as the code has it: the two disabled shapes have [enabled] 0 and
    every payload field null; each proposal and each poll the normalizer
    returns is the disabled shape or the one of the raw output with
    [enabled] 1, passed through as it is; and an exercise made from a
    proposal has [enabled] 1 with the [problem_type] and the four payload
    fields of the proposal (null where the proposal has none), so that it
    obeys the shape rule exactly when the proposal does. *)
Theorem shapes_disabled_or_passed_through :
  (exerciseShape disabledProposal = true /\
   get disabledProposal "enabled" = VNum 0 /\
   populated payloadFields disabledProposal = [] /\
   get disabledPoll "enabled" = VNum 0 /\
   populated pollPayloadFields disabledPoll = []) /\
  (forall parsed m,
     let out := normalizeModelOutput parsed m in
     (get out "proposal" = disabledProposal \/
      (get (get out "proposal") "enabled" = VNum 1 /\
       get out "proposal" = get parsed "proposal")) /\
     (get out "poll" = disabledPoll \/
      (get (get out "poll") "enabled" = VNum 1 /\
       get out "poll" = get parsed "poll"))) /\
  (forall proposal,
     let exercise := makeActiveFromProposal proposal in
     exercise = VNull \/
     (get proposal "enabled" = VNum 1 /\
      get exercise "enabled" = VNum 1 /\
      get exercise "exercise_id" = orElse (get proposal "proposal_id") VNull /\
      get exercise "problem_type" = get proposal "problem_type" /\
      (forall k, In k payloadFields ->
                 get exercise k = orElse (get proposal k) VNull) /\
      exerciseShape exercise = exerciseShape proposal)).
Proof.
  split; [repeat split|split].
  - intros parsed m. cbv zeta. split.
    + apply normalize_proposal.
    + apply normalize_poll.
  - intros proposal. cbv zeta. unfold makeActiveFromProposal.
    destruct (truthy proposal); simpl; auto.
    destruct (isNum 1 (get proposal "enabled")) eqn:E; simpl; auto.
    destruct (truthy (get proposal "problem_type")); simpl; auto.
    right. apply isNum_true in E.
    assert (F : forall k, In k payloadFields ->
              get (VObj [("enabled", VNum 1);
                         ("exercise_id", orElse (get proposal "proposal_id") VNull);
                         ("problem_type", get proposal "problem_type");
                         ("translation", orElse (get proposal "translation") VNull);
                         ("fill_in_blank", orElse (get proposal "fill_in_blank") VNull);
                         ("multiple_choice", orElse (get proposal "multiple_choice") VNull);
                         ("free_response", orElse (get proposal "free_response") VNull)]) k
              = orElse (get proposal k) VNull).
    { intros k Hk. simpl in Hk.
      destruct Hk as [<-|[<-|[<-|[<-|[]]]]]; reflexivity. }
    repeat split; auto.
    unfold exerciseShape.
    rewrite (populated_ext payloadFields _ proposal).
    + rewrite E. reflexivity.
    + intros k Hk. rewrite F by assumption. apply isNullish_orElse.
Qed.

Lemma shapes_disabled_or_passed_through_witness :
  let proposal := get conflictOutput "proposal" in
  let exercise := makeActiveFromProposal proposal in
  get exercise "enabled" = VNum 1 /\
  get exercise "exercise_id" = VStr "p1" /\
  get exercise "translation" = get proposal "translation" /\
  get exercise "fill_in_blank" = VNull /\
  exerciseShape exercise = exerciseShape proposal.
Proof.
  destruct shapes_disabled_or_passed_through as [_ [_ H]].
  destruct (H (get conflictOutput "proposal")) as [H0|[_ [He [Hid [_ [Hf Hs]]]]]];
    [discriminate H0|].
  exact (conj He
           (conj Hid
              (conj (Hf "translation" (or_introl eq_refl))
                 (conj (Hf "fill_in_blank" (or_intror (or_introl eq_refl)))
                    Hs)))).
Defined.

(** C3 fails as stated: the normalizer returns the enabled proposal of
    [hollowOutput] although none of its payload fields is populated, and
    the exercise made from it has [enabled] 1 and no payload either. *)
Lemma enabled_without_payload :
  let proposal := get (normalizeModelOutput hollowOutput Chat) "proposal" in
  let exercise := makeActiveFromProposal proposal in
  get proposal "enabled" = VNum 1 /\
  populated payloadFields proposal = [] /\
  exerciseShape proposal = false /\
  get exercise "enabled" = VNum 1 /\
  populated payloadFields exercise = [] /\
  exerciseShape exercise = false.
Proof. repeat split. Qed.

End ShapeFacts.

(** ** The route handler *)

Module RouteFacts.
Import Route Samples.

Lemma modeOf_unrecognized v :
  v <> VStr "help" -> v <> VStr "post_clear" -> modeOf v = Chat.
Proof.
  intros H1 H2. unfold modeOf. now rewrite !isStr_false by assumption.
Qed.

Section SameButMode.

Variables body1 body2 : value.
Hypothesis same : forall k, k <> "mode" -> get body1 k = get body2 k.
Hypothesis sameMode : modeOf (get body1 "mode") = modeOf (get body2 "mode").

Lemma configOf_same : configOf body1 = configOf body2.
Proof. unfold configOf. now rewrite (same "config") by discriminate. Qed.

Lemma messagesOf_same : messagesOf body1 = messagesOf body2.
Proof. unfold messagesOf. now rewrite (same "messages") by discriminate. Qed.

Lemma activeOf_same : activeOf body1 = activeOf body2.
Proof. unfold activeOf. now rewrite (same "active") by discriminate. Qed.

Lemma userTextOf_same : userTextOf body1 = userTextOf body2.
Proof. unfold userTextOf. now rewrite (same "userText") by discriminate. Qed.

Lemma effectiveModeOf_same : effectiveModeOf body1 = effectiveModeOf body2.
Proof. unfold effectiveModeOf. now rewrite sameMode, activeOf_same. Qed.

Lemma userContentFor_same prompts :
  userContentFor body1 prompts = userContentFor body2 prompts.
Proof.
  unfold userContentFor, hasUserText.
  rewrite effectiveModeOf_same, activeOf_same, userTextOf_same.
  rewrite (same "attempt"), (same "cleared"), (same "clearedOutcome")
    by discriminate.
  reflexivity.
Qed.

Lemma POST_same parse e fs :
  POST parse e fs (Ok body1) = POST parse e fs (Ok body2).
Proof.
  unfold POST, prepare. simpl.
  rewrite configOf_same, messagesOf_same, effectiveModeOf_same.
  destruct (schemaJson fs); simpl; auto.
  destruct (promptsJson fs) as [prompts|]; simpl; auto.
  now rewrite userContentFor_same.
Qed.

End SameButMode.

(** C10: a [mode] field that is neither the string "help" nor the string
    "post_clear" (a missing one and a non-string one included) is read as
    chat, and the handler does for such a body exactly what it does for a
    body with mode "chat" and the same other fields: no request is rejected
    because of the value of its mode. *)
Theorem unrecognized_mode_is_chat
  (parse : string -> res value) (e : env) (fs : files) (body chatBody : value) :
  get body "mode" <> VStr "help" ->
  get body "mode" <> VStr "post_clear" ->
  get chatBody "mode" = VStr "chat" ->
  (forall k, k <> "mode" -> get body k = get chatBody k) ->
  modeOf (get body "mode") = Chat /\
  POST parse e fs (Ok body) = POST parse e fs (Ok chatBody).
Proof.
  intros H1 H2 Hchat Hsame.
  assert (M : modeOf (get body "mode") = Chat) by now apply modeOf_unrecognized.
  split; [assumption|].
  apply POST_same; [assumption|]. now rewrite M, Hchat.
Qed.

Lemma odd_and_chat_agree k :
  k <> "mode" -> get oddModeRequest k = get chatModeRequest k.
Proof.
  intros Hk. unfold oddModeRequest, chatModeRequest, get, lookup.
  destruct (String.eqb_spec k "mode"); [contradiction|reflexivity].
Qed.

Lemma unrecognized_mode_is_chat_witness :
  modeOf (get oddModeRequest "mode") = Chat /\
  POST parseNothing sampleEnv sampleFiles (Ok oddModeRequest)
  = POST parseNothing sampleEnv sampleFiles (Ok chatModeRequest).
Proof.
  apply (unrecognized_mode_is_chat parseNothing sampleEnv sampleFiles
           oddModeRequest chatModeRequest);
    [discriminate | discriminate | reflexivity | exact odd_and_chat_agree].
Defined.

(** A missing mode and a numeric mode are chat as well. *)
Example missing_mode_is_chat :
  modeOf (get (VObj [("userText", VStr "Hola")]) "mode") = Chat /\
  modeOf (VNum 7) = Chat /\ modeOf (VStr "HELP") = Chat.
Proof. repeat split. Qed.

Example odd_mode_reaches_model :
  exists q k, POST parseNothing sampleEnv sampleFiles (Ok oddModeRequest)
              = CallModel q k
              /\ List.last (llm_input q) VNull = turn "user" "Hola".
Proof. eexists. eexists. split; reflexivity. Qed.

Lemma activeUsable_enabled body :
  activeEnabled body = false -> activeUsable (activeOf body) = false.
Proof. unfold activeEnabled, activeUsable. now intros ->. Qed.

(** In help mode without a usable exercise or without text, the user
    content is never built. *)
Lemma help_rejected body prompts :
  effectiveModeOf body = Help ->
  activeEnabled body = false \/ hasUserText body = false ->
  userContentFor body prompts
    = Ok (Reject (jsonError 400 "No active exercise to help with.")) \/
  userContentFor body prompts = Ok (Reject (jsonError 400 "Missing userText")).
Proof.
  intros Hm Hbad. unfold userContentFor. rewrite Hm.
  destruct (activeUsable (activeOf body)) eqn:U; simpl; auto.
  destruct Hbad as [Hbad|Hbad].
  - apply activeUsable_enabled in Hbad. congruence.
  - rewrite Hbad. simpl. auto.
Qed.

(** C8: a request whose effective mode is help and that has no enabled
    active exercise, or whose user text is empty after trimming, is answered
    with an error without the model being called: the outcome is a response
    of status 400 or 500 whose body is an error message, and with the server
    configuration in order it is status 400 with "No active exercise to help
    with." or "Missing userText".  The handler holds no session state; the
    model call, its only effect, is not made. *)
Theorem invalid_help_request_rejected
  (parse : string -> res value) (e : env) (fs : files) (body : value) :
  effectiveModeOf body = Help ->
  activeEnabled body = false \/ hasUserText body = false ->
  (exists st msg,
     POST parse e fs (Ok body) = Respond (jsonError st msg) /\
     (st = 400 \/ st = 500)%Z) /\
  (forall apiKey schema prompts systemPrompt,
     OPENAI_API_KEY e = Some apiKey -> isEmpty apiKey = false ->
     schemaJson fs = Ok schema -> promptsJson fs = Ok prompts ->
     buildSystemPrompt (configOf body) prompts = Ok systemPrompt ->
     POST parse e fs (Ok body)
       = Respond (jsonError 400 "No active exercise to help with.") \/
     POST parse e fs (Ok body) = Respond (jsonError 400 "Missing userText")).
Proof.
  intros Hm Hbad. split.
  - unfold POST, prepare. simpl.
    destruct (OPENAI_API_KEY e) as [apiKey|]; [|eauto].
    destruct (isEmpty apiKey); [eauto|].
    destruct (schemaJson fs); simpl; [|eauto].
    destruct (promptsJson fs) as [prompts|]; simpl; [|eauto].
    destruct (buildSystemPrompt (configOf body) prompts); simpl; [|eauto].
    destruct (help_rejected body prompts Hm Hbad) as [-> | ->]; simpl; eauto.
  - intros apiKey schema prompts systemPrompt Hkey Hne Hs Hp Hsys.
    unfold POST, prepare. simpl. rewrite Hkey, Hne, Hs, Hp. simpl.
    rewrite Hsys. simpl.
    destruct (help_rejected body prompts Hm Hbad) as [-> | ->]; simpl; auto.
Qed.

Lemma invalid_help_request_rejected_witness :
  POST parseNothing sampleEnv sampleFiles (Ok helpWithoutExercise)
  = Respond (jsonError 400 "No active exercise to help with.").
Proof.
  destruct (invalid_help_request_rejected parseNothing sampleEnv sampleFiles
              helpWithoutExercise eq_refl (or_introl eq_refl)) as [_ H].
  destruct (H "sk-test" _ _ _ eq_refl eq_refl eq_refl eq_refl eq_refl)
    as [H1|H1]; [exact H1 | discriminate H1].
Defined.

End RouteFacts.

(** ** The objective grader *)

Module GraderFacts.
Import Page Exercise Samples.

Lemma member_In x l : member x l = true <-> In x l.
Proof.
  unfold member. rewrite existsb_exists. split.
  - intros [y [Hy E]]. apply String.eqb_eq in E. now subst.
  - intros H. exists x. split; [assumption|apply String.eqb_refl].
Qed.



(** *** De-duplication and sorting keep the set *)











(** *** Fill in the blank *)

Lemma inheritedText_none props k :
  inheritsKey k = false -> inheritedText (VObj props) k = None.
Proof.
  unfold inheritsKey, inheritedText. intros H.
  apply orb_false_iff in H. destruct H as [H F].
  apply orb_false_iff in H. destruct H as [P C].
  cbn [kindFunctions]. rewrite List.app_nil_r. now rewrite P, C, F.
Qed.

Lemma lookup_typed id typed :
  lookup id (map (fun kv => (fst kv, VStr (snd kv))) typed)
  = if Page.member id (map fst typed) then Some (VStr (typedFor id typed))
    else None.
Proof.
  unfold Page.member.
  induction typed as [|[k t] rest IH]; [reflexivity|].
  cbn [map lookup fst snd typedFor existsb].
  destruct (String.eqb id k); [reflexivity|exact IH].
Qed.

Lemma typedFor_absent id typed :
  Page.member id (map fst typed) = false -> typedFor id typed = EmptyString.
Proof.
  unfold Page.member.
  induction typed as [|[k t] rest IH]; [reflexivity|].
  cbn [map fst typedFor existsb].
  destruct (String.eqb id k); [discriminate|exact IH].
Qed.

Lemma typed_lookup typed b :
  readAsTyped typed b ->
  normalizeFound (getComputed (fillAttempt typed) (blank_id b))
  = toLowerCase (trim (typedFor (blank_id b) typed)).
Proof.
  intros H. unfold getComputed, fillAttempt, ownComputed.
  rewrite lookup_typed.
  destruct (Page.member (blank_id b) (map fst typed)) eqn:M; [reflexivity|].
  destruct H as [H|H]; [apply member_In in H; congruence|].
  rewrite (inheritedText_none _ _ H), (typedFor_absent _ _ M). reflexivity.
Qed.

Lemma gradeBlank_shaped typed b :
  readAsTyped typed b ->
  gradeBlank (fillAttempt typed) (blankValue b) = Ok (verdictFor typed b).
Proof.
  intros H. unfold gradeBlank, readTyped, fillAttempt.
  change (getStrict (blankValue b) "id") with (Ok (VStr (blank_id b))).
  change (getStrict (blankValue b) "expected_answers")
    with (Ok (VArr (map VStr (expected_answers b)) [])).
  cbn [bind toString].
  change (VObj (map (fun kv => (fst kv, VStr (snd kv))) typed))
    with (fillAttempt typed).
  rewrite (typed_lookup typed b H).
  unfold verdictFor, normalizeText. cbn [orElse toString].
  now rewrite map_map.
Qed.

Lemma gradeBlanks_shaped typed blanks :
  (forall b, In b blanks -> readAsTyped typed b) ->
  gradeBlanks (fillAttempt typed) (map blankValue blanks)
  = Ok (map (resultEntry (verdictFor typed)) blanks,
        forallb (verdictFor typed) blanks).
Proof.
  induction blanks as [|b rest IH]; intros H; [reflexivity|].
  cbn [map gradeBlanks].
  rewrite gradeBlank_shaped by (apply H; now left). cbn [bind].
  rewrite IH by (intros x Hx; apply H; now right). reflexivity.
Qed.

Lemma verdictFor_spec typed b :
  verdictFor typed b = true <-> blankCorrect typed b.
Proof.
  unfold verdictFor, blankCorrect. rewrite member_In, in_map_iff. split.
  - intros [a [E H]]. exists a. auto.
  - intros [a [H E]]. exists a. auto.
Qed.

(** Where the grader follows the rule.  For every fill-in-the-blank exercise
    and attempt in which each blank id has an entry in the attempt or names
    no inherited member, [gradeObjective] marks a blank correct exactly when
    the text typed for it, trimmed and lower-cased, equals at least one
    accepted answer trimmed and lower-cased, and reports [allCorrect]
    exactly when every blank is correct; the attempt " Hola " matches the
    accepted answer "hola". *)
Lemma fill_grading_normalized_equality
  (exercise_id prompt : value) (blanks : list blank)
  (typed : list (string * string)) :
  (forall b, In b blanks -> readAsTyped typed b) ->
  (exists (verdict : blank -> bool) (allCorrect : bool),
     gradeObjective (fillExercise exercise_id prompt blanks) (fillAttempt typed)
     = Ok (VObj [("kind", VStr "fill_in_blank");
                 ("allCorrect", VBool allCorrect);
                 ("results", VArr (map (resultEntry verdict) blanks) [])]) /\
     (forall b, verdict b = true <-> blankCorrect typed b) /\
     (allCorrect = true <-> forall b, In b blanks -> blankCorrect typed b)) /\
  gradeObjective
    (fillExercise exercise_id prompt
       [{| blank_id := "b1"; text_with_placeholder := "____, amigo";
           expected_answers := ["hola"] |}])
    (fillAttempt [("b1", " Hola ")])
  = Ok (VObj [("kind", VStr "fill_in_blank");
              ("allCorrect", VBool true);
              ("results",
                VArr [VObj [("id", VStr "b1"); ("correct", VBool true)]] [])]).
Proof.
  intros R. split; [|reflexivity].
  exists (verdictFor typed), (forallb (verdictFor typed) blanks).
  split; [|split].
  - unfold gradeObjective, fillExercise. simpl.
    rewrite gradeBlanks_shaped by assumption. reflexivity.
  - apply verdictFor_spec.
  - rewrite forallb_forall. split; intros H b Hb; apply verdictFor_spec; auto.
Qed.

Example soy_grading :
  exists (verdict : blank -> bool) (allCorrect : bool),
    gradeObjective soyExercise (fillAttempt [("b1", "Soy")])
    = Ok (VObj [("kind", VStr "fill_in_blank");
                ("allCorrect", VBool allCorrect);
                ("results",
                  VArr (map (resultEntry verdict)
                          [{| blank_id := "b1";
                              text_with_placeholder := "Yo ____ estudiante.";
                              expected_answers := ["soy"] |}]) [])]) /\
    (forall b, verdict b = true <-> blankCorrect [("b1", "Soy")] b) /\
    (allCorrect = true <->
     forall b,
       In b [{| blank_id := "b1";
                text_with_placeholder := "Yo ____ estudiante.";
                expected_answers := ["soy"] |}] ->
       blankCorrect [("b1", "Soy")] b).
Proof.
  apply (fill_grading_normalized_equality
           (VStr "ex1") (VStr "Complete the sentence.")
           [{| blank_id := "b1";
               text_with_placeholder := "Yo ____ estudiante.";
               expected_answers := ["soy"] |}]
           [("b1", "Soy")]).
  intros b [<-|[]]. left. now left.
Qed.

(** C5: the input at which the grader leaves the rule.  The blank of
    [inheritedIdExercise] is named [__proto__]; the attempt seeded for it is
    the empty object, since the assignment under that key adds no property.
    With nothing typed the rule holds for the blank (the empty text is an
    accepted answer), yet [gradeObjective] reads the attempt through the
    prototype chain, compares the text of [Object.prototype] and marks the
    blank incorrect.  The same exercise with the blank named [b1] is graded
    correct; and once a text is typed for the blank, which gives the attempt
    an entry of its own, the grader compares that text. *)
Theorem inherited_blank_id_misgraded :
  defaultAttemptForActive inheritedIdExercise = Ok (fillAttempt []) /\
  blankCorrect [] (zeroArticle "__proto__") /\
  gradeObjective inheritedIdExercise (fillAttempt [])
  = Ok (VObj [("kind", VStr "fill_in_blank");
              ("allCorrect", VBool false);
              ("results",
                VArr [VObj [("id", VStr "__proto__");
                            ("correct", VBool false)]] [])]) /\
  readTyped (fillAttempt []) (blankValue (zeroArticle "__proto__"))
  = Ok (Builtin "[object Object]") /\
  defaultAttemptForActive plainIdExercise = Ok (fillAttempt [("b1", EmptyString)]) /\
  gradeObjective plainIdExercise (fillAttempt [("b1", EmptyString)])
  = Ok (VObj [("kind", VStr "fill_in_blank");
              ("allCorrect", VBool true);
              ("results",
                VArr [VObj [("id", VStr "b1"); ("correct", VBool true)]] [])]) /\
  gradeObjective inheritedIdExercise (fillAttempt [("__proto__", " No article ")])
  = Ok (VObj [("kind", VStr "fill_in_blank");
              ("allCorrect", VBool true);
              ("results",
                VArr [VObj [("id", VStr "__proto__");
                            ("correct", VBool true)]] [])]).
Proof.
  split; [reflexivity|]. split.
  - exists EmptyString. split; [now left|reflexivity].
  - repeat split.
Qed.

(** A blank named after a function that objects inherit is read as the text
    of that function when the attempt has no entry for it. *)
Example inherited_function_read :
  readTyped (fillAttempt [("b1", "Soy")]) (blankValue (zeroArticle "toString"))
  = Ok (Builtin "function toString() { [native code] }") /\
  readTyped (fillAttempt [("b1", "Soy")]) (blankValue (zeroArticle "constructor"))
  = Ok (Builtin "function Object() { [native code] }") /\
  readTyped (fillAttempt [("toString", "Soy")])
            (blankValue (zeroArticle "toString"))
  = Ok (Plain (VStr "Soy")).
Proof. repeat split. Qed.


Example choice_order_and_duplicates :
  gradeObjective
    (choiceExercise (VStr "mc1") (VStr "Pick the articles.") (VArr [] [])
                    (VBool true) ["a"; "b"])
    (selection ["b"; "a"; "a"])
  = Ok (VObj [("kind", VStr "multiple_choice"); ("allCorrect", VBool true)]).
Proof. reflexivity. Qed.

Example choice_no_partial_credit :
  gradeObjective
    (choiceExercise (VStr "mc1") (VStr "Pick the articles.") (VArr [] [])
                    (VBool true) ["a"; "b"])
    (selection ["a"])
  = Ok (VObj [("kind", VStr "multiple_choice"); ("allCorrect", VBool false)]).
Proof. reflexivity. Qed.

End GraderFacts.

(** ** The exercise lifecycle of the controller *)

Module LifecycleFacts.
Import Page Exercise Samples.

Lemma showReply_frame result s :
  exerciseFields (showReply result s) = exerciseFields s.
Proof. unfold showReply. destruct (typeofString _); reflexivity. Qed.

Lemma keepProposal_frame result s :
  exerciseFields (keepProposal result s) = exerciseFields s.
Proof. unfold keepProposal. destruct (proposalEnabled _); reflexivity. Qed.

Lemma reportError_frame e s :
  exerciseFields (reportError e s) = exerciseFields s.
Proof. reflexivity. Qed.

Lemma setLoading_frame b s :
  exerciseFields (setLoading b s) = exerciseFields s.
Proof. reflexivity. Qed.

(** What the reply of a post-clear call does to the state leaves the three
    exercise fields alone. *)
Lemma postClear_reply_frame fr s :
  exerciseFields
    (setLoading false
       (match callApiResult fr with
        | Ok result => keepProposal result (showReply result s)
        | Throw e => reportError e s
        end))
  = exerciseFields s.
Proof.
  rewrite setLoading_frame.
  destruct (callApiResult fr).
  - now rewrite keepProposal_frame, showReply_frame.
  - apply reportError_frame.
Qed.

Lemma enabled_guard st :
  truthy (active st) && isNum 1 (get (active st) "enabled") = true ->
  negb (truthy (active st)) || negb (isNum 1 (get (active st) "enabled")) = false.
Proof.
  intros H. apply andb_true_iff in H. destruct H as [-> ->]. reflexivity.
Qed.

(** The run of [triggerPostClear]: one call, in post_clear mode, committed
    with the state it was given. *)
Lemma run_triggerPostClear st cleared outcome override s k net n :
  run (triggerPostClear st cleared outcome override s k) net n
  = let s1 := setLoading true (setError EmptyString s) in
    let after :=
      setLoading false
        (match callApiResult (net n) with
         | Ok result => keepProposal result (showReply result s1)
         | Throw e => reportError e s1
         end) in
    ((s1, requestOf st "post_clear" (VStr "post_clear") override cleared outcome)
       :: fst (run (k after) net (S n)),
     snd (run (k after) net (S n))).
Proof.
  unfold triggerPostClear. cbv zeta. cbn [run].
  destruct (run _ net (S n)). reflexivity.
Qed.

Lemma onboarding_guards st :
  String.eqb (conversationMode st) "onboarding"
  && (Z.eqb (onboardingStep st) 0 || Z.eqb (onboardingStep st) 1) = false ->
  String.eqb (conversationMode st) "onboarding" && Z.eqb (onboardingStep st) 0
  = false /\
  String.eqb (conversationMode st) "onboarding" && Z.eqb (onboardingStep st) 1
  = false.
Proof.
  destruct (String.eqb _ _); simpl; [|auto].
  intros H. apply orb_false_iff in H. exact H.
Qed.

(** The clears that issue the follow-up.  From a state with an enabled
    active exercise and no call in flight: the Clear action, and a reply
    with [clear_active] 1 to a turn sent while the exercise is active
    (typed text outside the onboarding questions, or Submit on a
    translation or free-response exercise), set [active], [attempt] and
    [grade] to null in the batch of updates that issues the post_clear
    call; a fully correct objective submission sets [active] and [attempt]
    to null in that batch.  In each of these cases exactly one post_clear
    call is made, carrying the cleared exercise and the cause, and the
    fields are still null when its reply has been handled. *)
Lemma clear_issues_one_post_clear (st : state) (net : nat -> fetch_result) :
  truthy (active st) && isNum 1 (get (active st) "enabled") = true ->
  loading st = false ->
  (exists c rq final,
     run (onClearActive st) net 0 = ([(c, rq)], final) /\
     rq_mode rq = "post_clear" /\
     rq_cleared rq = active st /\
     rq_clearedOutcome rq = outcomeTag "user_cleared" /\
     exerciseFields c = (VNull, VNull, VNull) /\
     exerciseFields final = (VNull, VNull, VNull)) /\
  (forall g,
     gradeObjective (active st) (attempt st) = Ok g ->
     get g "allCorrect" = VBool true ->
     exists c rq final,
       run (onSubmitObjective st) net 0 = ([(c, rq)], final) /\
       rq_mode rq = "post_clear" /\
       rq_cleared rq = active st /\
       rq_clearedOutcome rq = outcomeTag "objective_correct" /\
       (active c = VNull /\ attempt c = VNull) /\
       (active final = VNull /\ attempt final = VNull)) /\
  (forall text result,
     isEmpty (trim (toString (orElse text (VStr EmptyString)))) = false ->
     String.eqb (conversationMode st) "onboarding"
     && (Z.eqb (onboardingStep st) 0 || Z.eqb (onboardingStep st) 1) = false ->
     callApiResult (net 0%nat) = Ok result ->
     get result "clear_active" = VNum 1 ->
     exists c0 rq0 c rq final,
       run (sendText st text) net 0 = ([(c0, rq0); (c, rq)], final) /\
       rq_mode rq0 <> "post_clear" /\
       rq_mode rq = "post_clear" /\
       rq_cleared rq = active st /\
       rq_clearedOutcome rq = outcomeTag "model_clear" /\
       exerciseFields c = (VNull, VNull, VNull) /\
       exerciseFields final = (VNull, VNull, VNull)) /\
  (forall result,
     isStr "fill_in_blank" (get (active st) "problem_type")
     || isStr "multiple_choice" (get (active st) "problem_type") = false ->
     callApiResult (net 0%nat) = Ok result ->
     get result "clear_active" = VNum 1 ->
     exists c0 rq0 c rq final,
       run (onSubmitExercise st) net 0 = ([(c0, rq0); (c, rq)], final) /\
       rq_mode rq0 = "help" /\
       rq_mode rq = "post_clear" /\
       rq_cleared rq = active st /\
       rq_clearedOutcome rq = outcomeTag "model_clear" /\
       exerciseFields c = (VNull, VNull, VNull) /\
       exerciseFields final = (VNull, VNull, VNull)).
Proof.
  intros Hen Hload.
  pose proof (enabled_guard st Hen) as Hguard.
  split; [|split; [|split]].
  - unfold onClearActive. rewrite Hload, Hguard.
    rewrite run_triggerPostClear. cbv zeta. cbn [run fst snd].
    do 3 eexists. split; [reflexivity|].
    repeat split. now rewrite postClear_reply_frame.
  - intros g Hg Hall.
    unfold onSubmitObjective. rewrite Hguard, Hg.
    assert (Tg : truthy g = true) by (destruct g; try discriminate; reflexivity).
    rewrite Tg, Hall. cbn [negb truthy].
    rewrite run_triggerPostClear. cbv zeta. cbn [run fst snd].
    do 3 eexists. split; [reflexivity|].
    pose proof (postClear_reply_frame (net 0%nat)
                  (setLoading true
                     (setError EmptyString
                        (setAttempt VNull (setActive VNull (setGrade g st))))))
      as F.
    unfold exerciseFields in F. injection F as Fa Ft _.
    repeat split; assumption.
  - intros text result Htext Honb Hres Hclear.
    destruct (onboarding_guards st Honb) as [G0 G1].
    unfold sendText. cbv zeta. rewrite Htext, Hload, G0, G1. cbn [orb].
    cbn [run]. rewrite Hres, Hclear. cbn [isNum Z.eqb Pos.eqb andb].
    rewrite Hen. rewrite run_triggerPostClear. cbv zeta. cbn [run fst snd].
    do 5 eexists. split; [reflexivity|].
    split; [cbn; destruct (exerciseUsable (active st)); discriminate|].
    repeat split.
    rewrite setLoading_frame, keepProposal_frame, postClear_reply_frame.
    reflexivity.
  - intros result Hobj Hres Hclear.
    unfold onSubmitExercise. rewrite Hguard, Hload, Hobj. cbn [orb].
    cbn [run]. rewrite Hres, Hclear. cbn [isNum Z.eqb Pos.eqb].
    rewrite run_triggerPostClear. cbv zeta. cbn [run fst snd].
    do 5 eexists. split; [reflexivity|].
    repeat split.
    rewrite setLoading_frame, keepProposal_frame, postClear_reply_frame.
    reflexivity.
Qed.

Lemma clear_issues_one_post_clear_witness :
  (exists c rq final,
     run (onClearActive soyState) clearingNet 0 = ([(c, rq)], final) /\
     rq_mode rq = "post_clear" /\
     rq_cleared rq = soyExercise /\
     rq_clearedOutcome rq = outcomeTag "user_cleared" /\
     exerciseFields c = (VNull, VNull, VNull) /\
     exerciseFields final = (VNull, VNull, VNull)) /\
  (exists c rq final,
     run (onSubmitObjective soyState) clearingNet 0 = ([(c, rq)], final) /\
     rq_mode rq = "post_clear" /\
     rq_cleared rq = soyExercise /\
     rq_clearedOutcome rq = outcomeTag "objective_correct" /\
     (active c = VNull /\ attempt c = VNull) /\
     (active final = VNull /\ attempt final = VNull)) /\
  (exists c0 rq0 c rq final,
     run (sendText soyState (VStr "Is this right?")) clearingNet 0
     = ([(c0, rq0); (c, rq)], final) /\
     rq_mode rq0 <> "post_clear" /\
     rq_mode rq = "post_clear" /\
     rq_cleared rq = soyExercise /\
     rq_clearedOutcome rq = outcomeTag "model_clear" /\
     exerciseFields c = (VNull, VNull, VNull) /\
     exerciseFields final = (VNull, VNull, VNull)) /\
  (exists c0 rq0 c rq final,
     run (onSubmitExercise translationState) clearingNet 0
     = ([(c0, rq0); (c, rq)], final) /\
     rq_mode rq0 = "help" /\
     rq_mode rq = "post_clear" /\
     rq_cleared rq = active translationState /\
     rq_clearedOutcome rq = outcomeTag "model_clear" /\
     exerciseFields c = (VNull, VNull, VNull) /\
     exerciseFields final = (VNull, VNull, VNull)).
Proof.
  destruct (clear_issues_one_post_clear soyState clearingNet eq_refl eq_refl)
    as [Huser [Hobjective [Hmodel _]]].
  destruct (clear_issues_one_post_clear translationState clearingNet
              eq_refl eq_refl) as [_ [_ [_ Hsubmit]]].
  split; [exact Huser|split; [|split]].
  - exact (Hobjective _ eq_refl eq_refl).
  - exact (Hmodel (VStr "Is this right?") clearingReply
             eq_refl eq_refl eq_refl eq_refl).
  - exact (Hsubmit clearingReply eq_refl eq_refl eq_refl).
Defined.

(** C1: the two clears at which the code leaves the rule.

    A reply with [clear_active] 1 to the answer to the second onboarding
    question, given while an exercise is active, sets [active], [attempt]
    and [grade] to null and makes no post_clear call: the whole run is the
    one chat call of the placement request.  The same text and the same
    reply outside onboarding make the post_clear call.

    A fully correct objective submission makes the post_clear call and
    sets [active] and [attempt] to null, but leaves in [grade] the grading
    result it has just stored there, in the batch that issues the call and
    after the reply.  The Clear action from the same state, with that
    result in [grade], sets [grade] to null. *)
Theorem clears_that_leave_the_rule :
  (truthy (active restoredState)
   && isNum 1 (get (active restoredState) "enabled") = true /\
   loading restoredState = false /\
   exists c rq final,
     run (sendText restoredState (VStr "travel vocabulary")) clearingNet 0
     = ([(c, rq)], final) /\
     rq_mode rq = "chat" /\
     exerciseFields c = exerciseFields restoredState /\
     exerciseFields final = (VNull, VNull, VNull)) /\
  (exists c0 rq0 c rq final,
     run (sendText soyState (VStr "travel vocabulary")) clearingNet 0
     = ([(c0, rq0); (c, rq)], final) /\
     rq_mode rq0 = "help" /\
     rq_mode rq = "post_clear" /\
     exerciseFields final = (VNull, VNull, VNull)) /\
  (exists c rq final,
     run (onSubmitObjective soyState) clearingNet 0 = ([(c, rq)], final) /\
     rq_mode rq = "post_clear" /\
     rq_clearedOutcome rq = outcomeTag "objective_correct" /\
     active c = VNull /\ attempt c = VNull /\
     gradeObjective (active soyState) (attempt soyState) = Ok (grade c) /\
     get (grade c) "allCorrect" = VBool true /\
     grade c <> VNull /\
     grade final = grade c) /\
  (exists g c rq final,
     gradeObjective (active soyState) (attempt soyState) = Ok g /\
     run (onClearActive (setGrade g soyState)) clearingNet 0
     = ([(c, rq)], final) /\
     rq_mode rq = "post_clear" /\
     exerciseFields c = (VNull, VNull, VNull) /\
     exerciseFields final = (VNull, VNull, VNull)).
Proof.
  split; [|split; [|split]].
  - split; [reflexivity|]. split; [reflexivity|].
    do 3 eexists. split; [reflexivity|]. repeat split.
  - do 5 eexists. split; [reflexivity|]. repeat split.
  - do 3 eexists. split; [reflexivity|]. repeat split. discriminate.
  - do 4 eexists. split; [reflexivity|]. split; [reflexivity|]. repeat split.
Qed.

End LifecycleFacts.

(** ** Level inference *)

Module LevelFacts.
Import Page LevelSpec StringFacts.

(** *** Characters *)

Lemma lower_word c : isWordChar (lowerChar c) = isWordChar c.
Proof.
  apply eqb_prop.
  apply (forall_chars
           (fun c => Bool.eqb (isWordChar (lowerChar c)) (isWordChar c))).
  vm_compute. reflexivity.
Qed.

Lemma level_char_word c : isLevelChar c = true -> isWordChar c = true.
Proof.
  intros H.
  pose proof (forall_chars
                (fun c => implb (isLevelChar c) (isWordChar c))
                ltac:(vm_compute; reflexivity) c) as F.
  cbv beta in F. now rewrite H in F.
Qed.

(** Lower-casing does not change whether a character matches a letter or
    digit of a level code. *)
Lemma lower_level_char c x :
  In x levelChars ->
  Ascii.eqb x (upperChar (lowerChar c)) = Ascii.eqb x (upperChar c).
Proof.
  intros Hx.
  pose proof (forall_chars
                (fun c => forallb
                            (fun x => Bool.eqb
                                        (Ascii.eqb x (upperChar (lowerChar c)))
                                        (Ascii.eqb x (upperChar c)))
                            levelChars)
                ltac:(vm_compute; reflexivity) c) as F.
  cbv beta in F. rewrite forallb_forall in F.
  apply eqb_prop, F, Hx.
Qed.

Lemma ciEq_spec a x : ciEq a x = true <-> upperChar x = upperChar a.
Proof.
  unfold ciEq. rewrite Ascii.eqb_eq. split; congruence.
Qed.

(** *** Lower-casing commutes with the search *)

Lemma headChar_lower s :
  headChar (toLowerCase s) = option_map lowerChar (headChar s).
Proof. destruct s; reflexivity. Qed.

Lemma lastChar_lower s :
  lastChar (toLowerCase s) = option_map lowerChar (lastChar s).
Proof.
  induction s as [|c [|d r] IH]; try reflexivity.
  exact IH.
Qed.

Lemma isWord_lower c : isWord (option_map lowerChar c) = isWord c.
Proof. destruct c; simpl; auto using lower_word. Qed.

Lemma wordBoundary_lower a b :
  wordBoundary (option_map lowerChar a) (option_map lowerChar b)
  = wordBoundary a b.
Proof. unfold wordBoundary. now rewrite !isWord_lower. Qed.

Lemma ciPrefix_lower p s :
  allOf isLevelChar p = true ->
  ciPrefix p (toLowerCase s) = option_map lowerBoth (ciPrefix p s).
Proof.
  revert s. induction p as [|a p IH]; intros s Hp; [reflexivity|].
  cbn [allOf] in Hp. apply andb_true_iff in Hp. destruct Hp as [Ha Hp].
  destruct s as [|b s]; [reflexivity|].
  cbn [ciPrefix toLowerCase mapChars].
  assert (E : ciEq a (lowerChar b) = ciEq a b).
  { unfold ciEq. apply lower_level_char.
    unfold isLevelChar in Ha.
    apply existsb_exists in Ha. destruct Ha as [x [Hx Ex]].
    apply Ascii.eqb_eq in Ex. now subst. }
  rewrite E. destruct (ciEq a b); [|reflexivity].
  change (mapChars lowerChar s) with (toLowerCase s).
  rewrite IH by assumption.
  destruct (ciPrefix p s) as [[m r]|]; reflexivity.
Qed.

Lemma firstAlternative_lower alts s :
  forallb (allOf isLevelChar) alts = true ->
  firstAlternative alts (toLowerCase s)
  = option_map toLowerCase (firstAlternative alts s).
Proof.
  induction alts as [|alt more IH]; intros H; [reflexivity|].
  cbn [forallb] in H. apply andb_true_iff in H. destruct H as [Ha Hm].
  cbn [firstAlternative]. rewrite ciPrefix_lower by assumption.
  destruct (ciPrefix alt s) as [[m r]|]; cbn [option_map lowerBoth fst snd];
    [|now apply IH].
  rewrite lastChar_lower, headChar_lower, wordBoundary_lower.
  destruct (wordBoundary (lastChar m) (headChar r)); [reflexivity|now apply IH].
Qed.

Lemma searchLevel_eq prev s :
  searchLevel prev s =
  match matchHere prev s with
  | Some m => Some m
  | None =>
      match s with
      | EmptyString => None
      | String c r => searchLevel (Some c) r
      end
  end.
Proof. destruct s; reflexivity. Qed.

Lemma matchHere_lower prev s :
  matchHere (option_map lowerChar prev) (toLowerCase s)
  = option_map toLowerCase (matchHere prev s).
Proof.
  unfold matchHere. rewrite headChar_lower, wordBoundary_lower.
  destruct (wordBoundary prev (headChar s)); [|reflexivity].
  now apply firstAlternative_lower.
Qed.

Lemma searchLevel_lower s prev :
  searchLevel (option_map lowerChar prev) (toLowerCase s)
  = option_map toLowerCase (searchLevel prev s).
Proof.
  revert prev. induction s as [|c r IH]; intros prev;
    rewrite (searchLevel_eq _ (toLowerCase _)), (searchLevel_eq prev),
      matchHere_lower;
    destruct (matchHere prev _); try reflexivity.
  apply (IH (Some c)).
Qed.

(** *** What a match is *)

Lemma upper_level_word c x :
  In x levelChars -> upperChar c = x -> isWordChar c = true.
Proof.
  intros Hin E. apply level_char_word. unfold isLevelChar.
  apply existsb_exists. exists x. split; [assumption|].
  rewrite E. apply Ascii.eqb_refl.
Qed.

Lemma boundary_after_word d next :
  isWordChar d = true ->
  wordBoundary (Some d) next = negb (isWord next).
Proof. unfold wordBoundary. simpl. intros ->. reflexivity. Qed.

Lemma boundary_before_word prev x :
  isWordChar x = true ->
  wordBoundary prev (Some x) = negb (isWord prev).
Proof.
  unfold wordBoundary. simpl. intros ->. destruct (isWord prev); reflexivity.
Qed.

Lemma ciPrefix_some p u m rest :
  ciPrefix p u = Some (m, rest) ->
  u = m ++ rest /\ toUpperCase m = toUpperCase p.
Proof.
  revert u m rest. induction p as [|a p IH]; intros u m rest H.
  - injection H as <- <-. auto.
  - destruct u as [|b u]; [discriminate|]. cbn [ciPrefix] in H.
    destruct (ciEq a b) eqn:E; [|discriminate].
    destruct (ciPrefix p u) as [[m' r']|] eqn:P; [|discriminate].
    injection H as <- <-. apply ciEq_spec in E.
    destruct (IH _ _ _ P) as [-> Hm].
    split; [reflexivity|]. cbn [toUpperCase mapChars].
    f_equal; assumption.
Qed.

Lemma firstAlternative_in alts u m :
  firstAlternative alts u = Some m ->
  exists alt rest,
    In alt alts /\ ciPrefix alt u = Some (m, rest) /\
    wordBoundary (lastChar m) (headChar rest) = true.
Proof.
  induction alts as [|alt more IH]; [discriminate|].
  cbn [firstAlternative].
  destruct (ciPrefix alt u) as [[m' rest]|] eqn:P.
  - destruct (wordBoundary (lastChar m') (headChar rest)) eqn:B.
    + intros H. injection H as <-. exists alt, rest. simpl. auto.
    + intros H. destruct (IH H) as [a [r [Hin Hr]]].
      exists a, r. simpl. auto.
  - intros H. destruct (IH H) as [a [r [Hin Hr]]].
    exists a, r. simpl. auto.
Qed.

Lemma upper_is_level w name :
  In name levelNames -> toUpperCase w = name ->
  exists x d,
    w = String x (String d EmptyString) /\
    In (upperChar x) levelChars /\ In (upperChar d) levelChars.
Proof.
  intros Hin E.
  destruct w as [|x [|d [|e w]]];
    simpl in Hin;
    repeat (destruct Hin as [<-|Hin]; try discriminate E);
    try contradiction;
    injection E as Hx Hd; exists x, d; rewrite Hx, Hd; simpl; tauto.
Qed.

Lemma firstAlternative_complete w post name :
  In name levelNames -> toUpperCase w = name ->
  isWord (headChar post) = false ->
  firstAlternative levelCodes (w ++ post) = Some w.
Proof.
  intros Hin E Hpost.
  destruct (upper_is_level w name Hin E) as [x [d [-> [Hx Hd]]]].
  assert (Wd : isWordChar d = true) by (eapply upper_level_word; eauto).
  cbn [toUpperCase mapChars] in E. simpl in Hin.
  repeat (destruct Hin as [<-|Hin];
          [ injection E as Ex Ed;
            cbn -[ciEq wordBoundary]; unfold ciEq; rewrite Ex, Ed;
            cbn -[wordBoundary];
            rewrite boundary_after_word, Hpost by assumption;
            reflexivity
          | ]).
  contradiction.
Qed.

Lemma firstAlternative_some u m :
  firstAlternative levelCodes u = Some m ->
  exists post name,
    u = m ++ post /\ In name levelNames /\ toUpperCase m = name /\
    isWord (headChar m) = true /\
    isWord (headChar post) = false.
Proof.
  intros H.
  destruct (firstAlternative_in _ _ _ H) as [alt [rest [Hin [P B]]]].
  destruct (ciPrefix_some _ _ _ _ P) as [-> Hup].
  assert (Hname : In (toUpperCase alt) levelNames).
  { simpl in Hin.
    repeat (destruct Hin as [<-|Hin]; [simpl; tauto|]). contradiction. }
  destruct (upper_is_level m _ Hname Hup) as [x [d [-> [Hx Hd]]]].
  exists rest, (toUpperCase alt). repeat split; auto.
  - change (isWordChar x = true).
    eapply upper_level_word; [exact Hx|reflexivity].
  - cbn [lastChar] in B. rewrite boundary_after_word in B
      by (eapply upper_level_word; [exact Hd|reflexivity]).
    now apply negb_true_iff in B.
Qed.

Lemma headChar_app m post :
  isWord (headChar m) = true -> headChar (m ++ post) = headChar m.
Proof. destruct m; [discriminate|reflexivity]. Qed.

Lemma matchHere_some prev u m :
  matchHere prev u = Some m ->
  exists post name,
    u = m ++ post /\ In name levelNames /\ toUpperCase m = name /\
    isWord prev = false /\ isWord (headChar post) = false.
Proof.
  unfold matchHere. destruct (wordBoundary prev (headChar u)) eqn:B;
    [|discriminate].
  intros H.
  destruct (firstAlternative_some _ _ H)
    as [post [name [-> [Hin [Hup [Hhead Hpost]]]]]].
  exists post, name. repeat split; auto.
  rewrite headChar_app in B by assumption.
  unfold wordBoundary in B. rewrite Hhead in B.
  destruct (isWord prev); [discriminate|reflexivity].
Qed.

Lemma matchHere_complete prev w post name :
  In name levelNames -> toUpperCase w = name ->
  isWord prev = false -> isWord (headChar post) = false ->
  matchHere prev (w ++ post) = Some w.
Proof.
  intros Hin Hup Hprev Hpost. unfold matchHere.
  rewrite (firstAlternative_complete w post name) by assumption.
  destruct (upper_is_level w name Hin Hup) as [x [d [-> [Hx Hd]]]].
  cbn [append headChar].
  rewrite boundary_before_word
    by (eapply upper_level_word; [exact Hx|reflexivity]).
  now rewrite Hprev.
Qed.

(** *** What the search returns *)

Lemma lastChar_nonempty a s : lastChar (String a s) <> None.
Proof.
  revert a. induction s as [|b s IH]; intros a; [discriminate|].
  change (lastChar (String a (String b s))) with (lastChar (String b s)).
  apply IH.
Qed.

Lemma prevOf_cons prev c pre : prevOf prev (String c pre) = prevOf (Some c) pre.
Proof.
  unfold prevOf. destruct pre as [|a pre]; [reflexivity|].
  change (lastChar (String c (String a pre))) with (lastChar (String a pre)).
  destruct (lastChar (String a pre)) eqn:E; [reflexivity|].
  now apply lastChar_nonempty in E.
Qed.

Lemma search_none s :
  forall prev, searchLevel prev s = None ->
  forall pre u, s = pre ++ u -> matchHere (prevOf prev pre) u = None.
Proof.
  induction s as [|c r IH]; intros prev H pre u E;
    rewrite searchLevel_eq in H;
    destruct (matchHere prev _) eqn:M; try discriminate.
  - destruct pre; [|discriminate]. simpl in E. now subst.
  - destruct pre as [|c' pre].
    + simpl in E. now subst.
    + injection E as <- E. rewrite prevOf_cons. now apply IH.
Qed.

Lemma search_some s :
  forall prev m, searchLevel prev s = Some m ->
  exists pre u,
    s = pre ++ u /\ matchHere (prevOf prev pre) u = Some m /\
    forall pre' u', s = pre' ++ u' ->
                    String.length pre' < String.length pre ->
                    matchHere (prevOf prev pre') u' = None.
Proof.
  induction s as [|c r IH]; intros prev m H;
    rewrite searchLevel_eq in H;
    destruct (matchHere prev _) eqn:M; try discriminate.
  - injection H as <-. exists EmptyString, EmptyString.
    repeat split; auto. simpl. intros; lia.
  - injection H as <-. exists EmptyString, (String c r).
    repeat split; auto. simpl. intros; lia.
  - destruct (IH _ _ H) as [pre [u [-> [Hm Hmin]]]].
    exists (String c pre), u. rewrite prevOf_cons.
    repeat split; auto.
    intros [|c' pre'] u' E L.
    + simpl in E. now subst.
    + injection E as <- E. rewrite prevOf_cons. apply Hmin; auto.
      simpl in L. lia.
Qed.

(** The search finds the first whole-word level of the text, if there is
    one. *)
Lemma search_first s m :
  searchLevel None s = Some m -> firstLevel s (toUpperCase m).
Proof.
  intros H. destruct (search_some _ _ _ H) as [pre [u [-> [Hm Hmin]]]].
  destruct (matchHere_some _ _ _ Hm)
    as [post [name [-> [Hin [Hup [Hprev Hpost]]]]]].
  exists pre, m, post. split; [reflexivity|]. split.
  - unfold wholeWordLevel. rewrite Hup. repeat split; auto.
    unfold prevOf in Hprev. destruct (lastChar pre); auto.
  - intros pre' w' post' name' E [Hin' [Hup' [Hpre' Hpost']]].
    destruct (Nat.le_gt_cases (String.length pre) (String.length pre'))
      as [L|L]; [assumption|].
    specialize (Hmin pre' (w' ++ post') E L).
    rewrite (matchHere_complete _ w' post' name') in Hmin; auto.
    + discriminate.
    + unfold prevOf. destruct (lastChar pre'); auto.
Qed.

Lemma search_nothing s : searchLevel None s = None -> noLevel s.
Proof.
  intros H pre w post name E [Hin [Hup [Hpre Hpost]]].
  pose proof (search_none _ _ H pre (w ++ post) E) as N.
  rewrite (matchHere_complete _ w post name) in N; auto.
  - discriminate.
  - unfold prevOf. destruct (lastChar pre); auto.
Qed.

(** A first whole-word level is unique. *)
Lemma firstLevel_unique s name name' :
  firstLevel s name -> firstLevel s name' -> name = name'.
Proof.
  intros [pre [w [post [E [W Hmin]]]]] [pre' [w' [post' [E' [W' Hmin']]]]].
  pose proof (Hmin _ _ _ _ E' W') as L1.
  pose proof (Hmin' _ _ _ _ E W) as L2.
  assert (L : String.length pre = String.length pre') by lia.
  rewrite E in E'.
  destruct (app_inj_length _ _ _ _ E' L) as [-> E2].
  destruct W as [Hin [Hup _]], W' as [Hin' [Hup' _]].
  destruct (upper_is_level w name Hin Hup) as [x [d [-> _]]].
  destruct (upper_is_level w' name' Hin' Hup') as [x' [d' [-> _]]].
  simpl in E2. injection E2 as -> -> _. congruence.
Qed.

(** *** The function *)

Lemma upper_lower_level c :
  In (upperChar c) levelChars -> upperChar (lowerChar c) = upperChar c.
Proof.
  intros H. pose proof (lower_level_char c _ H) as E.
  rewrite Ascii.eqb_refl in E. apply Ascii.eqb_eq in E. congruence.
Qed.

Lemma infer_eq s :
  inferApproxLevel (VStr s) =
  match searchLevel None s with
  | Some m => toUpperCase m
  | None => byKeyword (toLowerCase s)
  end.
Proof.
  unfold inferApproxLevel. cbn [orElse toString].
  change (searchLevel None (toLowerCase s))
    with (searchLevel (option_map lowerChar None) (toLowerCase s)).
  rewrite searchLevel_lower.
  destruct (searchLevel None s) as [m|] eqn:H; [|reflexivity].
  destruct (search_first _ _ H) as [pre [w [post [_ [[Hin [Hup _]] _]]]]].
  destruct (upper_is_level m _ Hin eq_refl) as [x [d [-> [Hx Hd]]]].
  cbn [option_map toLowerCase toUpperCase mapChars].
  now rewrite !upper_lower_level by assumption.
Qed.

Lemma includes_lower keyword s :
  includes keyword (toLowerCase s) = true <-> mentions keyword s.
Proof.
  rewrite includes_spec. unfold mentions. split.
  - intros [pre [post E]].
    destruct (mapChars_split _ _ _ _ E) as [sa [sb [-> [Ha Hb]]]].
    destruct (mapChars_split _ _ _ _ Hb) as [w [sc [-> [Hw Hc]]]].
    exists sa, w, sc. auto.
  - intros [pre [w [post [-> <-]]]].
    exists (toLowerCase pre), (toLowerCase post).
    unfold toLowerCase. now rewrite !mapChars_app.
Qed.

Lemma includes_lower_false keyword s :
  ~ mentions keyword s -> includes keyword (toLowerCase s) = false.
Proof.
  intros H. destruct (includes keyword (toLowerCase s)) eqn:E; auto.
  now apply includes_lower in E.
Qed.

(** C9, as the code has it.  For every level text the inferred level is the
    first whole-word CEFR code among A1, A2, B1, B2, C1, C2, matched in any
    letter case and upper-cased; when the text has none it is A1 if the text
    contains "beginner", else B1 if it contains "intermediate", else C1 if it
    contains "advanced", each keyword in any letter case; else B1.  Every
    text has a first whole-word code or none, and "intermediate" gives B1. *)
Theorem level_inference (s : string) :
  ((exists name, firstLevel s name) \/ noLevel s) /\
  (forall name, firstLevel s name -> inferApproxLevel (VStr s) = name) /\
  (noLevel s ->
   (mentions "beginner" s -> inferApproxLevel (VStr s) = "A1") /\
   (~ mentions "beginner" s -> mentions "intermediate" s ->
    inferApproxLevel (VStr s) = "B1") /\
   (~ mentions "beginner" s -> ~ mentions "intermediate" s ->
    mentions "advanced" s -> inferApproxLevel (VStr s) = "C1") /\
   (~ mentions "beginner" s -> ~ mentions "intermediate" s ->
    ~ mentions "advanced" s -> inferApproxLevel (VStr s) = "B1")) /\
  inferApproxLevel (VStr "intermediate") = "B1".
Proof.
  split; [|split; [|split; [|reflexivity]]].
  - destruct (searchLevel None s) as [m|] eqn:H.
    + left. eexists. eapply search_first, H.
    + right. now apply search_nothing.
  - intros name F. rewrite infer_eq.
    destruct (searchLevel None s) as [m|] eqn:H.
    + eapply firstLevel_unique; [eapply search_first, H|exact F].
    + exfalso. destruct F as [pre [w [post [E [W _]]]]].
      exact (search_nothing _ H _ _ _ _ E W).
  - intros N. rewrite infer_eq.
    destruct (searchLevel None s) as [m|] eqn:H.
    + exfalso. destruct (search_first _ _ H) as [pre [w [post [E [W _]]]]].
      exact (N _ _ _ _ E W).
    + unfold byKeyword. repeat split.
      * intros B. apply includes_lower in B. now rewrite B.
      * intros B I. apply includes_lower_false in B.
        apply includes_lower in I. now rewrite B, I.
      * intros B I A. apply includes_lower_false in B, I.
        apply includes_lower in A. now rewrite B, I, A.
      * intros B I A. apply includes_lower_false in B, I, A.
        now rewrite B, I, A.
Qed.

Lemma level_inference_witness :
  inferApproxLevel (VStr "maybe b2, almost C1") = "B2" /\
  inferApproxLevel (VStr "Advanced Beginner") = "A1".
Proof.
  split.
  - apply (proj1 (proj2 (level_inference "maybe b2, almost C1")) "B2").
    apply (search_first "maybe b2, almost C1" "b2"). reflexivity.
  - apply (proj1 (proj2 (proj2 (level_inference "Advanced Beginner")))).
    + apply search_nothing. reflexivity.
    + exists "Advanced ", "Beginner", EmptyString. split; reflexivity.
Defined.

Lemma not_contains keyword s : includes keyword s = false -> ~ contains keyword s.
Proof.
  intros H C. apply includes_spec in C. congruence.
Qed.

(** C9 fails as stated where a keyword is not in lower case: "Beginner" has
    no level code and contains none of the three keywords letter for letter,
    so the claim gives the default B1, yet the function returns A1. *)
Lemma keyword_capitalized :
  noLevel "Beginner" /\
  ~ contains "beginner" "Beginner" /\
  ~ contains "intermediate" "Beginner" /\
  ~ contains "advanced" "Beginner" /\
  inferApproxLevel (VStr "Beginner") = "A1" /\
  inferApproxLevel (VStr "Beginner") <> "B1".
Proof.
  split; [apply search_nothing; reflexivity|].
  repeat split; try (apply not_contains; reflexivity).
  discriminate.
Qed.

End LevelFacts.

(** ** Redaction of the answer keys *)

Module RedactionFacts.
Import Route StringFacts Samples.

(** *** Induction over values *)

Section ValueInduction.

Variable P : value -> Prop.
Hypothesis onUndef : P VUndef.
Hypothesis onNull : P VNull.
Hypothesis onBool : forall b, P (VBool b).
Hypothesis onNum : forall n, P (VNum n).
Hypothesis onStr : forall s, P (VStr s).
Hypothesis onArr :
  forall items extra, Forall P items -> P (VArr items extra).
Hypothesis onObj :
  forall props, Forall (fun kx => P (snd kx)) props -> P (VObj props).

Fixpoint value_induction (v : value) : P v :=
  match v with
  | VUndef => onUndef
  | VNull => onNull
  | VBool b => onBool b
  | VNum n => onNum n
  | VStr s => onStr s
  | VArr items extra =>
      onArr items extra
        ((fix each (l : list value) : Forall P l :=
            match l with
            | [] => Forall_nil P
            | x :: r => Forall_cons x (value_induction x) (each r)
            end) items)
  | VObj props =>
      onObj props
        ((fix each (l : list (string * value))
            : Forall (fun kx => P (snd kx)) l :=
            match l with
            | [] => Forall_nil _
            | kx :: r =>
                Forall_cons kx (value_induction (snd kx)) (each r)
            end) props)
  end.

End ValueInduction.

(** *** Numbers print as digits and a sign *)

Lemma uint_chars d c :
  occurs c (NilEmpty.string_of_uint d) = true -> isNumberChar c = true.
Proof.
  induction d; simpl; intros H; try discriminate;
    apply orb_true_iff in H; destruct H as [H|H]; auto;
    apply Ascii.eqb_eq in H; subst; reflexivity.
Qed.

Lemma number_chars n c :
  occurs c (numberToString n) = true -> isNumberChar c = true.
Proof.
  unfold numberToString, NilZero.string_of_int, NilZero.string_of_uint.
  destruct (Z.to_int n) as [d|d].
  - destruct d; try apply uint_chars.
    simpl. intros H. apply orb_true_iff in H. destruct H as [H|H];
      [apply Ascii.eqb_eq in H; subst; reflexivity|discriminate].
  - simpl. intros H. apply orb_true_iff in H. destruct H as [H|H].
    + apply Ascii.eqb_eq in H. subst. reflexivity.
    + destruct d; try (revert H; apply uint_chars).
      simpl in H. apply orb_true_iff in H. destruct H as [H|H];
        [apply Ascii.eqb_eq in H; subst; reflexivity|discriminate].
Qed.

(** *** Where a name can occur in a serialization *)

Lemma plainName_nonempty name : plainName name -> name <> EmptyString.
Proof.
  intros [_ _ _ _ [H _] _] ->. discriminate.
Qed.

Lemma defined_value_texts k x :
  x <> VUndef ->
  (match x with VUndef => [] | _ => k :: texts x end) = k :: texts x.
Proof. destruct x; congruence. Qed.

Section Occurrences.

Variable name : string.
Hypothesis plain : plainName name.

Lemma no_number n : includes name (numberToString n) = false.
Proof.
  destruct (includes name (numberToString n)) eqn:E; [|reflexivity].
  destruct (has_letter name plain) as [c [Hc Hn]].
  pose proof (number_chars n c (includes_occurs _ _ c E Hc)). congruence.
Qed.

(** An occurrence of [name] in [JSON.stringify(v)] lies inside the JSON text
    of one key or one string value that [v] holds. *)
Lemma stringify_includes v :
  forall js,
    stringify v = Some js -> includes name js = true ->
    exists t, In t (texts v) /\ includes name (quote t) = true.
Proof.
  pose proof (plainName_nonempty name plain) as Hne.
  destruct plain as [[Hlb Hrb] [Hlc Hrc] Hcomma Hcolon [Hnull [Htrue Hfalse]] _].
  induction v using value_induction; intros js Hjs Hin.
  - discriminate.
  - injection Hjs as <-. congruence.
  - destruct b; injection Hjs as <-; congruence.
  - injection Hjs as <-. rewrite no_number in Hin. discriminate.
  - injection Hjs as <-. exists s. simpl. auto.
  - injection Hjs as <-.
    cbn [append] in Hin. rewrite includes_wrap in Hin by assumption.
    rewrite includes_join in Hin by assumption.
    apply existsb_exists in Hin. destruct Hin as [part [Hpart Hinc]].
    apply in_map_iff in Hpart. destruct Hpart as [item [<- Hitem]].
    rewrite Forall_forall in H. specialize (H item Hitem).
    destruct (stringify item) as [ji|] eqn:Ei; [|congruence].
    destruct (H ji eq_refl Hinc) as [t [Ht Hq]].
    exists t. split; [|assumption].
    cbn [texts]. apply in_flat_map. eauto.
  - injection Hjs as <-.
    cbn [append] in Hin. rewrite includes_wrap in Hin by assumption.
    rewrite includes_join in Hin by assumption.
    apply existsb_exists in Hin. destruct Hin as [part [Hpart Hinc]].
    apply in_flat_map in Hpart. destruct Hpart as [[k x] [Hkx Hpart]].
    rewrite Forall_forall in H. specialize (H (k, x) Hkx). cbn [snd] in H.
    destruct (stringify x) as [jx|] eqn:Ex; [|contradiction].
    destruct Hpart as [<-|[]].
    assert (Hx : x <> VUndef) by (intros ->; discriminate).
    assert (Hsplit : includes name (quote k) || includes name jx = true)
      by (rewrite <- (includes_sep name ":" Hcolon); exact Hinc).
    apply orb_true_iff in Hsplit. destruct Hsplit as [Hk|Hv].
    + exists k. split; [|assumption].
      cbn [texts]. apply in_flat_map. exists (k, x). split; [assumption|].
      rewrite defined_value_texts by assumption. now left.
    + destruct (H jx eq_refl Hv) as [t [Ht Hq]].
      exists t. split; [|assumption].
      cbn [texts]. apply in_flat_map. exists (k, x). split; [assumption|].
      rewrite defined_value_texts by assumption. now right.
Qed.

End Occurrences.

(** *** The keys are gone *)

Lemma delete_object v k props :
  delete v k = VObj props -> lookup k props = None.
Proof.
  destruct v; cbn; try discriminate.
  intros H. injection H as <-. apply lookup_remove_same.
Qed.

Lemma stripBlank_object blank props :
  stripBlank blank = VObj props -> lookup "expected_answers" props = None.
Proof.
  unfold stripBlank.
  destruct (truthy blank && typeofObject blank) eqn:G.
  - apply delete_object.
  - intros ->. discriminate.
Qed.

Lemma clone_container v :
  truthy v && typeofObject v = true -> isContainer (jsonClone v) = true.
Proof.
  destruct v; simpl; auto; intros H; try discriminate;
    rewrite andb_false_r in H; discriminate.
Qed.

Lemma redact_keys active redacted :
  redactActiveForModel active = Ok redacted ->
  (get redacted "problem_type" = VStr "fill_in_blank" ->
   forall items extra,
     get (get redacted "fill_in_blank") "blanks" = VArr items extra ->
     forall props, In (VObj props) items ->
                   lookup "expected_answers" props = None) /\
  (get redacted "problem_type" = VStr "multiple_choice" ->
   forall props,
     get redacted "multiple_choice" = VObj props ->
     lookup "correct_option_ids" props = None).
Proof.
  unfold redactActiveForModel.
  destruct (truthy active && typeofObject active) eqn:G.
  2:{ assert (E : negb (truthy active) || negb (typeofObject active) = true)
        by (destruct (truthy active), (typeofObject active);
            simpl in *; congruence).
      rewrite E. intros H. injection H as <-. split; discriminate. }
  assert (E : negb (truthy active) || negb (typeofObject active) = false)
    by (apply andb_true_iff in G; destruct G as [-> ->]; reflexivity).
  rewrite E. clear E.
  pose proof (clone_container active G) as C.
  set (c := jsonClone active) in *. cbv zeta.
  destruct (isStr "fill_in_blank" (get c "problem_type")
            && truthy (get (get c "fill_in_blank") "blanks")) eqn:S1.
  - apply andb_true_iff in S1. destruct S1 as [Hpt Hbl].
    apply isStr_true in Hpt.
    destruct (get (get c "fill_in_blank") "blanks")
      as [| |b|n|s|items extra|props0] eqn:B; try discriminate;
      cbn [bind].
    + rewrite Hpt. cbn [isStr String.eqb Ascii.eqb Bool.eqb andb].
      intros H. injection H as <-. split.
      * rewrite B. discriminate.
      * rewrite Hpt. discriminate.
    + rewrite get_set_other by discriminate.
      rewrite Hpt. cbn [isStr String.eqb Ascii.eqb Bool.eqb andb].
      intros H. injection H as <-. split.
      * intros _ items' extra' Hb props Hin.
        rewrite get_set_same in Hb by assumption.
        rewrite get_set_same in Hb
          by (apply (get_defined_container _ "blanks"); rewrite B; discriminate).
        injection Hb as <- <-.
        apply in_map_iff in Hin. destruct Hin as [blank [Hs _]].
        now apply stripBlank_object in Hs.
      * rewrite get_set_other by discriminate. rewrite Hpt. discriminate.
  - cbn [bind].
    destruct (isStr "multiple_choice" (get c "problem_type")
              && truthy (get c "multiple_choice")) eqn:S2.
    + apply andb_true_iff in S2. destruct S2 as [Hpt Hmc].
      apply isStr_true in Hpt.
      intros H. injection H as <-. split.
      * rewrite get_set_other by discriminate. rewrite Hpt. discriminate.
      * intros _ props Hp. rewrite get_set_same in Hp by assumption.
        now apply delete_object in Hp.
    + intros H. injection H as <-. split.
      * intros Hpt items extra Hb. rewrite Hpt, Hb in S1. discriminate.
      * intros Hpt props Hp. rewrite Hpt, Hp in S2. discriminate.
Qed.

Lemma wrapped_texts k x t :
  In t (texts (VObj [(k, x)])) -> t = k \/ In t (texts x).
Proof.
  cbn [texts flat_map]. rewrite List.app_nil_r.
  destruct x; cbn [In]; intuition auto.
Qed.

(** *** The two names *)

Lemma answer_key_names_plain name : In name answerKeyNames -> plainName name.
Proof.
  intros [<-|[<-|[]]]; constructor; repeat split;
    exists "_"%char; split; reflexivity.
Qed.

(** An occurrence of an answer-key name in the template variable holding
    [JSON.stringify(v)] lies inside the JSON text of a key or a string value
    of [v]. *)
Lemma serialized_occurrence name v :
  In name answerKeyNames ->
  includes name (toString (jsonVar v)) = true ->
  exists t, In t (texts v) /\ includes name (quote t) = true.
Proof.
  intros Hname Hocc.
  pose proof (answer_key_names_plain name Hname) as Hplain.
  unfold jsonVar in Hocc.
  destruct (stringify v) as [js|] eqn:E.
  - exact (stringify_includes name Hplain v js E Hocc).
  - exfalso. destruct Hname as [<-|[<-|[]]]; discriminate.
Qed.

(** *** Exercises of the schema's shape *)

Lemma redact_fill eid prompt blanks :
  redactActiveForModel (Exercise.fillExercise (VStr eid) (VStr prompt) blanks)
  = Ok (Exercise.shownFill eid prompt blanks).
Proof.
  unfold redactActiveForModel, Exercise.fillExercise, Exercise.shownFill.
  cbn -[map]. rewrite !map_map. reflexivity.
Qed.

Lemma redact_choice eid prompt options allow correct :
  redactActiveForModel
    (Exercise.choiceExercise (VStr eid) (VStr prompt)
       (Exercise.choiceOptions options) (VBool allow) correct)
  = Ok (Exercise.shownChoice eid prompt options allow).
Proof.
  unfold redactActiveForModel, Exercise.choiceExercise, Exercise.choiceOptions,
    Exercise.shownChoice.
  cbn -[map]. rewrite !map_map. reflexivity.
Qed.

(** Split a membership in a list built from conses and appends. *)
Ltac split_in H :=
  repeat match type of H with
         | _ \/ _ => destruct H as [H|H]
         | In _ (_ ++ _) => apply in_app_or in H
         | In _ (_ :: _) => cbn [In] in H
         | In _ [] => contradiction H
         | False => contradiction H
         end.

(** A value none of whose keys and strings holds an answer-key name is
    serialized, alone and as [{problem: ...}], without the name. *)
Lemma clean_serializations name v :
  In name answerKeyNames ->
  (forall t, In t (texts v) -> includes name (quote t) = false) ->
  includes name (toString (jsonVar v)) = false /\
  includes name (toString (jsonVar (VObj [("problem", v)]))) = false.
Proof.
  intros Hname Hclean. split.
  - destruct (includes name (toString (jsonVar v))) eqn:Hocc; [|reflexivity].
    destruct (serialized_occurrence name _ Hname Hocc) as [t [Ht Hq]].
    rewrite (Hclean t Ht) in Hq. discriminate.
  - destruct (includes name (toString (jsonVar (VObj [("problem", v)]))))
      eqn:Hocc; [|reflexivity].
    destruct (serialized_occurrence name _ Hname Hocc) as [t [Ht Hq]].
    apply wrapped_texts in Ht. destruct Ht as [->|Ht].
    + destruct Hname as [<-|[<-|[]]]; discriminate.
    + rewrite (Hclean t Ht) in Hq. discriminate.
Qed.

(** The keys and strings of a redacted fill-in-the-blank exercise of the
    schema's shape: the field names, its id, its prompt, and the id and
    text of its blanks; the accepted answers are not among them. *)
Lemma fill_texts_clean name eid prompt blanks :
  In name answerKeyNames ->
  includes name (quote eid) = false ->
  includes name (quote prompt) = false ->
  (forall b, In b blanks ->
             includes name (quote (Exercise.blank_id b)) = false /\
             includes name (quote (Exercise.text_with_placeholder b)) = false) ->
  forall t, In t (texts (Exercise.shownFill eid prompt blanks)) ->
            includes name (quote t) = false.
Proof.
  intros Hname Heid Hprompt Hblanks t Ht.
  unfold Exercise.shownFill in Ht. cbn [texts flat_map] in Ht. split_in Ht;
    try (subst t; first [assumption
                        | destruct Hname as [<-|[<-|[]]]; reflexivity]).
  apply in_flat_map in Ht. destruct Ht as [v [Hv Ht]].
  apply in_map_iff in Hv. destruct Hv as [b [<- Hb]].
  destruct (Hblanks b Hb) as [Hid Htext].
  cbn [Exercise.visibleBlank texts flat_map] in Ht. split_in Ht;
    subst t; first [assumption
                   | destruct Hname as [<-|[<-|[]]]; reflexivity].
Qed.

(** The same for a multiple-choice exercise: the field names, its id, its
    prompt, and the id and text of its options; the correct option ids are
    not among them. *)
Lemma choice_texts_clean name eid prompt options allow :
  In name answerKeyNames ->
  includes name (quote eid) = false ->
  includes name (quote prompt) = false ->
  (forall o, In o options ->
             includes name (quote (fst o)) = false /\
             includes name (quote (snd o)) = false) ->
  forall t, In t (texts (Exercise.shownChoice eid prompt options allow)) ->
            includes name (quote t) = false.
Proof.
  intros Hname Heid Hprompt Hoptions t Ht.
  unfold Exercise.shownChoice in Ht.
  cbn [texts flat_map Exercise.choiceOptions] in Ht. split_in Ht;
    try (subst t; first [assumption
                        | destruct Hname as [<-|[<-|[]]]; reflexivity]).
  apply in_flat_map in Ht. destruct Ht as [v [Hv Ht]].
  apply in_map_iff in Hv. destruct Hv as [o [<- Ho]].
  destruct (Hoptions o Ho) as [Hid Htext].
  cbn [Exercise.optionValue texts flat_map] in Ht. split_in Ht;
    subst t; first [assumption
                   | destruct Hname as [<-|[<-|[]]]; reflexivity].
Qed.

(** For a fill-in-the-blank exercise of the schema's shape, the serialized
    copy is free of an answer-key name that the JSON text of its id, its
    prompt, and the id and text of its blanks are free of; the accepted
    answers play no part. *)
Corollary fill_context_clean name eid prompt blanks :
  In name answerKeyNames ->
  includes name (quote eid) = false ->
  includes name (quote prompt) = false ->
  (forall b, In b blanks ->
             includes name (quote (Exercise.blank_id b)) = false /\
             includes name (quote (Exercise.text_with_placeholder b)) = false) ->
  exists redacted,
    redactActiveForModel (Exercise.fillExercise (VStr eid) (VStr prompt) blanks)
    = Ok redacted /\
    includes name (toString (jsonVar redacted)) = false.
Proof.
  intros Hname Heid Hprompt Hblanks.
  eexists. split; [apply redact_fill|].
  apply clean_serializations; [assumption|].
  now apply fill_texts_clean.
Qed.

(** The same for a multiple-choice exercise: its id, its prompt, and the id
    and text of its options; the correct option ids play no part. *)
Corollary choice_context_clean name eid prompt options allow correct :
  In name answerKeyNames ->
  includes name (quote eid) = false ->
  includes name (quote prompt) = false ->
  (forall o, In o options ->
             includes name (quote (fst o)) = false /\
             includes name (quote (snd o)) = false) ->
  exists redacted,
    redactActiveForModel
      (Exercise.choiceExercise (VStr eid) (VStr prompt)
         (Exercise.choiceOptions options) (VBool allow) correct)
    = Ok redacted /\
    includes name (toString (jsonVar redacted)) = false.
Proof.
  intros Hname Heid Hprompt Hoptions.
  eexists. split; [apply redact_choice|].
  apply clean_serializations; [assumption|].
  now apply choice_texts_clean.
Qed.

(** The user content of an ordinary help request about [soyExercise]: the
    answer key is not in it. *)
Example plain_help_content :
  userContentFor helpPlain samplePrompts
  = Ok (Proceed
          ("Student says: Is my answer right? | exercise: "
           ++ toString (jsonVar
                (VObj [("enabled", VNum 1); ("exercise_id", VStr "ex1");
                       ("problem_type", VStr "fill_in_blank");
                       ("translation", VNull);
                       ("fill_in_blank",
                         VObj [("prompt", VStr "Complete the sentence.");
                               ("blanks",
                                 VArr [VObj [("id", VStr "b1");
                                             ("text_with_placeholder",
                                               VStr "Yo ____ estudiante.")]] [])]);
                       ("multiple_choice", VNull);
                       ("free_response", VNull)]))
           ++ " | attempt: "
           ++ toString (jsonVar (Exercise.fillAttempt [("b1", "Soy")])))).
Proof. vm_compute. reflexivity. Qed.

Example plain_help_content_clean :
  match userContentFor helpPlain samplePrompts with
  | Ok (Proceed content) =>
      includes "expected_answers" content = false /\
      includes "correct_option_ids" content = false /\
      includes "soy" content = false
  | _ => False
  end.
Proof. vm_compute. repeat split. Qed.

(** C4 fails as stated.  The user content embeds the user text as typed, so
    it contains [expected_answers] when the student writes that word about
    a well-formed exercise; and the redaction of an exercise goes by its
    [problem_type], so the [correct_option_ids] of a multiple-choice payload
    carried by a fill_in_blank exercise stay in the serialized context and
    in the user content. *)
Lemma answer_key_name_in_content :
  (exists content,
     userContentFor helpNamingField samplePrompts = Ok (Proceed content) /\
     includes "expected_answers" content = true) /\
  (exists redacted,
     redactActiveForModel twoPayloadExercise = Ok redacted /\
     get redacted "problem_type" = VStr "fill_in_blank" /\
     get (get redacted "multiple_choice") "correct_option_ids"
     = VArr [VStr "a"] [] /\
     includes "correct_option_ids" (toString (jsonVar redacted)) = true) /\
  (exists content,
     userContentFor helpTwoPayloads samplePrompts = Ok (Proceed content) /\
     includes "correct_option_ids" content = true).
Proof.
  split; [|split].
  - eexists. split; vm_compute; reflexivity.
  - eexists. split; [vm_compute; reflexivity|]. repeat split.
  - eexists. split; vm_compute; reflexivity.
Qed.

End RedactionFacts.

(** ** More on the normalizer *)

Module NormalizerLaws.
Import Route Samples NormalizerFacts ShapeFacts.

Lemma assign_present k x props : lookup k props = Some x -> assign k x props = props.
Proof.
  induction props as [|[k' v'] rest IH]; simpl; [discriminate|].
  destruct (String.eqb_spec k k') as [->|Hk].
  - intros [= ->]. reflexivity.
  - intros H. now rewrite IH.
Qed.

Lemma set_present o k x : get o k = x -> x <> VUndef -> set o k x = o.
Proof.
  intros G D. destruct o; simpl in *; auto.
  - destruct (lookup k extra) as [y|] eqn:L; [|congruence].
    subst. now rewrite assign_present.
  - destruct (lookup k props) as [y|] eqn:L; [|congruence].
    subst. now rewrite assign_present.
Qed.

Lemma normalize_container parsed m :
  isContainer (normalizeModelOutput parsed m) = true.
Proof.
  unfold normalizeModelOutput. cbv zeta.
  pose proof (coerceOutput_container parsed) as C.
  destruct m.
  - case_if; [apply set_container; assumption|].
    apply if_set_container. apply if_set_container. assumption.
  - apply set_container; assumption.
  - case_if; [apply set_container; assumption|].
    apply if_set_container. apply if_set_container. assumption.
Qed.

Lemma inner_container (c : bool) parsed :
  isContainer (if c then set (coerceOutput parsed) "proposal" disabledProposal
               else coerceOutput parsed) = true.
Proof. apply if_set_container, coerceOutput_container. Qed.

Lemma normalize_clear parsed m :
  let c := get (normalizeModelOutput parsed m) "clear_active" in
  c = VNum 0 \/ (c = VNum 1 /\ get parsed "clear_active" = VNum 1).
Proof.
  cbv zeta. unfold normalizeModelOutput. cbv zeta.
  pose proof (coerceOutput_clear parsed) as P. cbv zeta in P.
  pose proof (coerceOutput_container parsed) as C.
  destruct m.
  - case_if; [now rewrite get_set_other by discriminate|].
    rewrite step_same by apply inner_container.
    case_if; auto.
  - now rewrite get_set_other by discriminate.
  - case_if; [now rewrite get_set_other by discriminate|].
    rewrite step_same by apply inner_container.
    case_if; auto.
Qed.

(** The resolution of conflicts, on the coerced output [o]. *)
Lemma resolve_eq parsed mm :
  mm = Chat \/ mm = PostClear ->
  normalizeModelOutput parsed mm =
    let o := coerceOutput parsed in
    if isNum 1 (get (get o "poll") "enabled") && isNum 1 (get o "clear_active")
    then set o "poll" disabledPoll
    else
      let out :=
        if isNum 1 (get (get o "poll") "enabled")
           && isNum 1 (get (get o "proposal") "enabled")
        then set o "proposal" disabledProposal else o in
      if isNum 1 (get (get o "poll") "enabled")
      then set out "clear_active" (VNum 0) else out.
Proof. intros [-> | ->]; reflexivity. Qed.

Lemma resolve_poll_alone o :
  isContainer o = true ->
  get o "proposal" = disabledProposal \/ get (get o "proposal") "enabled" = VNum 1 ->
  get o "poll" = disabledPoll \/ get (get o "poll") "enabled" = VNum 1 ->
  let r :=
    if isNum 1 (get (get o "poll") "enabled") && isNum 1 (get o "clear_active")
    then set o "poll" disabledPoll
    else
      let out :=
        if isNum 1 (get (get o "poll") "enabled")
           && isNum 1 (get (get o "proposal") "enabled")
        then set o "proposal" disabledProposal else o in
      if isNum 1 (get (get o "poll") "enabled")
      then set out "clear_active" (VNum 0) else out in
  get r "poll" = disabledPoll \/
  (get r "proposal" = disabledProposal /\ get r "clear_active" = VNum 0).
Proof.
  intros C P Q. cbv zeta.
  destruct (isNum 1 (get (get o "poll") "enabled")) eqn:PE.
  - destruct (isNum 1 (get o "clear_active")) eqn:CE; cbn [andb].
    + left. now apply get_set_same.
    + right. rewrite get_set_other by discriminate.
      rewrite get_set_same by (apply if_set_container; assumption).
      split; auto. rewrite step_same by assumption.
      destruct (isNum 1 (get (get o "proposal") "enabled")) eqn:RE; auto.
      destruct P as [P|P]; auto. rewrite P in RE. discriminate.
  - cbn [andb]. left. destruct Q as [Q|Q]; auto. rewrite Q in PE. discriminate.
Qed.

(** A poll that is still enabled after normalization stands alone. *)
Lemma normalize_poll_alone parsed m :
  let out := normalizeModelOutput parsed m in
  get out "poll" = disabledPoll \/
  (get out "proposal" = disabledProposal /\ get out "clear_active" = VNum 0).
Proof.
  cbv zeta.
  pose proof (coerceOutput_container parsed) as C.
  pose proof (coerceOutput_proposal parsed) as P. cbv zeta in P.
  pose proof (coerceOutput_poll parsed) as Q. cbv zeta in Q.
  assert (P' : get (coerceOutput parsed) "proposal" = disabledProposal \/
               get (get (coerceOutput parsed) "proposal") "enabled" = VNum 1)
    by (destruct P as [P|[P _]]; auto).
  assert (Q' : get (coerceOutput parsed) "poll" = disabledPoll \/
               get (get (coerceOutput parsed) "poll") "enabled" = VNum 1)
    by (destruct Q as [Q|[Q _]]; auto).
  destruct m.
  - rewrite resolve_eq by auto. apply resolve_poll_alone; assumption.
  - left. unfold normalizeModelOutput. now apply get_set_same.
  - rewrite resolve_eq by auto. apply resolve_poll_alone; assumption.
Qed.

Lemma disabled_or_enabled_container p d :
  isContainer d = true ->
  p = d \/ get p "enabled" = VNum 1 -> isContainer p = true.
Proof. intros D [->|H]; [assumption|exact (get_num_container _ _ _ H)]. Qed.

(** The coercions change nothing in an output that has the coerced form. *)
Lemma coerceOutput_fixed o :
  isContainer o = true ->
  get o "proposal" = disabledProposal \/ get (get o "proposal") "enabled" = VNum 1 ->
  get o "poll" = disabledPoll \/ get (get o "poll") "enabled" = VNum 1 ->
  get o "clear_active" = VNum 0 \/ get o "clear_active" = VNum 1 ->
  coerceOutput o = o.
Proof.
  intros C P Q K. unfold coerceOutput; cbv zeta.
  rewrite (container_truthy_object o) by assumption. cbv iota.
  rewrite (container_checks (get o "proposal"))
    by (apply (disabled_or_enabled_container _ disabledProposal); auto).
  cbv iota.
  rewrite (container_checks (get o "poll"))
    by (apply (disabled_or_enabled_container _ disabledPoll); auto).
  cbv iota.
  assert (S1 : (if negb (isNum 1 (get (get o "proposal") "enabled"))
                then set o "proposal" disabledProposal else o) = o).
  { destruct P as [P|P].
    - rewrite P. simpl negb. cbv iota. apply set_present; [assumption|discriminate].
    - now rewrite P. }
  rewrite S1.
  assert (S2 : (if negb (isNum 1 (get (get o "poll") "enabled"))
                then set o "poll" disabledPoll else o) = o).
  { destruct Q as [Q|Q].
    - rewrite Q. simpl negb. cbv iota. apply set_present; [assumption|discriminate].
    - now rewrite Q. }
  rewrite S2.
  destruct K as [K|K]; rewrite K; simpl negb; cbv iota; auto.
  apply set_present; [assumption|discriminate].
Qed.

(** X1: whatever the model returned and whatever the mode, the normalized
    output is an object whose [clear_active] is 0 or 1 and in which an
    enabled poll stands alone: either the poll is the disabled poll, or the
    proposal is the disabled proposal and [clear_active] is 0. *)
Theorem normalized_output_resolved (parsed : value) (m : mode) :
  let out := normalizeModelOutput parsed m in
  isContainer out = true /\
  (get out "clear_active" = VNum 0 \/ get out "clear_active" = VNum 1) /\
  (get out "poll" = disabledPoll \/
   (get out "proposal" = disabledProposal /\ get out "clear_active" = VNum 0)).
Proof.
  cbv zeta. split; [apply normalize_container|split].
  - destruct (normalize_clear parsed m) as [H|[H _]]; auto.
  - apply normalize_poll_alone.
Qed.

(** X2: normalizing an output that is already normalized, in the same mode,
    changes nothing. *)
Theorem normalize_idempotent (parsed : value) (m : mode) :
  normalizeModelOutput (normalizeModelOutput parsed m) m
  = normalizeModelOutput parsed m.
Proof.
  pose proof (normalize_container parsed m) as C.
  pose proof (normalize_proposal parsed m) as P. cbv zeta in P.
  pose proof (normalize_poll parsed m) as Q. cbv zeta in Q.
  pose proof (normalize_clear parsed m) as K. cbv zeta in K.
  pose proof (normalize_poll_alone parsed m) as A. cbv zeta in A.
  assert (Hhelp : get (normalizeModelOutput parsed Help) "poll" = disabledPoll).
  { unfold normalizeModelOutput. apply get_set_same, coerceOutput_container. }
  set (o := normalizeModelOutput parsed m) in *.
  assert (F : coerceOutput o = o).
  { apply coerceOutput_fixed; auto.
    - destruct P as [P|[P _]]; auto.
    - destruct Q as [Q|[Q _]]; auto.
    - destruct K as [K|[K _]]; auto. }
  assert (G : forall mm, mm = Chat \/ mm = PostClear ->
                         normalizeModelOutput o mm = o).
  { intros mm Hmm.
    assert (E : normalizeModelOutput o mm =
      let pollEnabled := isNum 1 (get (get o "poll") "enabled") in
      let proposalEnabled := isNum 1 (get (get o "proposal") "enabled") in
      let clearActive := isNum 1 (get o "clear_active") in
      if pollEnabled && clearActive then set o "poll" disabledPoll
      else
        let out :=
          if pollEnabled && proposalEnabled
          then set o "proposal" disabledProposal else o in
        let out :=
          if pollEnabled then set out "clear_active" (VNum 0) else out in
        out).
    { unfold normalizeModelOutput. rewrite F.
      destruct Hmm as [-> | ->]; reflexivity. }
    rewrite E. cbv zeta.
    destruct A as [A|[A1 A2]].
    - rewrite A. reflexivity.
    - rewrite A1, A2. simpl (isNum 1 (VNum 0)).
      simpl (isNum 1 (get disabledProposal "enabled")).
      rewrite !andb_false_r. cbv iota.
      case_if; auto. apply set_present; [assumption|discriminate]. }
  destruct m.
  - apply G; auto.
  - unfold normalizeModelOutput at 1. rewrite F.
    apply set_present; [|discriminate]. subst o. exact Hhelp.
  - apply G; auto.
Qed.



Lemma enabled_checks v :
  (if negb (truthy v) || negb (typeofObject v) then false
   else isNum 1 (get v "enabled")) = isNum 1 (get v "enabled").
Proof.
  destruct (isNum 1 (get v "enabled")) eqn:N.
  - apply isNum_true in N.
    now rewrite container_checks by exact (get_num_container _ _ _ N).
  - now destruct (negb (truthy v) || negb (typeofObject v)).
Qed.

(** The three coerced fields, read off the raw output. *)
Lemma coerceOutput_proposal_eq parsed :
  get (coerceOutput parsed) "proposal"
  = if isNum 1 (get (get parsed "proposal") "enabled")
    then get parsed "proposal" else disabledProposal.
Proof.
  name_steps.
  match goal with H : forall k, get o0 k = _ |- _ => rename H into G0 end.
  name_step o0 "proposal" disabledProposal o1.
  assert (P1 : get o1 "proposal" = if negb (truthy (get parsed "proposal"))
                  || negb (typeofObject (get parsed "proposal"))
               then disabledProposal else get parsed "proposal").
  { subst o1. rewrite step_same by auto. now rewrite !G0. }
  name_step o1 "poll" disabledPoll o2.
  assert (P2 : get o2 "proposal" = get o1 "proposal")
    by (subst o2; apply step_other; discriminate).
  name_step o2 "proposal" disabledProposal o3.
  name_step o3 "poll" disabledPoll o4.
  cbv zeta.
  rewrite step_other by discriminate.
  subst o4. rewrite step_other by discriminate.
  subst o3. rewrite step_same by auto. rewrite P2, P1.
  rewrite <- (enabled_checks (get parsed "proposal")).
  destruct (negb (truthy (get parsed "proposal"))
            || negb (typeofObject (get parsed "proposal"))); [reflexivity|].
  now destruct (isNum 1 (get (get parsed "proposal") "enabled")).
Qed.

Lemma coerceOutput_poll_eq parsed :
  get (coerceOutput parsed) "poll"
  = if isNum 1 (get (get parsed "poll") "enabled")
    then get parsed "poll" else disabledPoll.
Proof.
  name_steps.
  match goal with H : forall k, get o0 k = _ |- _ => rename H into G0 end.
  name_step o0 "proposal" disabledProposal o1.
  assert (Q1 : get o1 "poll" = get parsed "poll").
  { subst o1. rewrite step_other by discriminate. apply G0. }
  name_step o1 "poll" disabledPoll o2.
  assert (Q2 : get o2 "poll" = if negb (truthy (get parsed "poll"))
                  || negb (typeofObject (get parsed "poll"))
               then disabledPoll else get parsed "poll").
  { subst o2. rewrite step_same by auto. now rewrite Q1. }
  name_step o2 "proposal" disabledProposal o3.
  assert (Q3 : get o3 "poll" = get o2 "poll")
    by (subst o3; apply step_other; discriminate).
  name_step o3 "poll" disabledPoll o4.
  cbv zeta.
  rewrite step_other by discriminate.
  subst o4. rewrite step_same by auto. rewrite Q3, Q2.
  rewrite <- (enabled_checks (get parsed "poll")).
  destruct (negb (truthy (get parsed "poll"))
            || negb (typeofObject (get parsed "poll"))); [reflexivity|].
  now destruct (isNum 1 (get (get parsed "poll") "enabled")).
Qed.

Lemma coerceOutput_clear_eq parsed :
  get (coerceOutput parsed) "clear_active"
  = if isNum 1 (get parsed "clear_active") then VNum 1 else VNum 0.
Proof.
  name_steps.
  match goal with H : forall k, get o0 k = _ |- _ => rename H into G0 end.
  name_step o0 "proposal" disabledProposal o1.
  name_step o1 "poll" disabledPoll o2.
  name_step o2 "proposal" disabledProposal o3.
  name_step o3 "poll" disabledPoll o4.
  assert (P4 : get o4 "clear_active" = get parsed "clear_active").
  { subst o4 o3 o2 o1. rewrite !step_other by discriminate. apply G0. }
  cbv zeta. rewrite step_same by auto. rewrite P4.
  destruct (isNum 1 (get parsed "clear_active")) eqn:N; [|reflexivity].
  now apply isNum_true in N.
Qed.

(** X4: in chat or post_clear mode, a raw output whose poll is enabled and
    whose [clear_active] is not 1 keeps its poll; its proposal becomes the
    disabled proposal and [clear_active] is 0. *)
Theorem poll_wins_over_proposal (parsed : value) (m : mode) :
  m = Chat \/ m = PostClear ->
  get (get parsed "poll") "enabled" = VNum 1 ->
  get parsed "clear_active" <> VNum 1 ->
  let out := normalizeModelOutput parsed m in
  get out "poll" = get parsed "poll" /\
  get out "proposal" = disabledProposal /\
  get out "clear_active" = VNum 0.
Proof.
  intros Hm Hpoll Hclear. cbv zeta.
  assert (Q : get (coerceOutput parsed) "poll" = get parsed "poll")
    by (rewrite coerceOutput_poll_eq; now rewrite Hpoll).
  assert (K : get (coerceOutput parsed) "clear_active" = VNum 0).
  { rewrite coerceOutput_clear_eq.
    destruct (isNum 1 (get parsed "clear_active")) eqn:N; auto.
    apply isNum_true in N. contradiction. }
  pose proof (coerceOutput_container parsed) as C.
  pose proof (coerceOutput_proposal parsed) as P. cbv zeta in P.
  rewrite resolve_eq by assumption. cbv zeta.
  revert Q K C P. generalize (coerceOutput parsed) as o. intros o Q K C P.
  rewrite Q, Hpoll, K. cbn [isNum Z.eqb Pos.eqb andb].
  rewrite !get_set_other by discriminate.
  rewrite get_set_same by (apply if_set_container; assumption).
  rewrite step_other by discriminate. rewrite step_same by assumption.
  split; [exact Q|split; [|reflexivity]].
  destruct (isNum 1 (get (get o "proposal") "enabled")) eqn:N; auto.
  destruct P as [P|[P _]]; auto. rewrite P in N. discriminate.
Qed.

Lemma poll_wins_over_proposal_witness :
  let out := normalizeModelOutput (set conflictOutput "clear_active" (VNum 0)) Chat in
  get out "poll" = get conflictOutput "poll" /\
  get out "proposal" = disabledProposal /\
  get out "clear_active" = VNum 0.
Proof.
  apply (poll_wins_over_proposal (set conflictOutput "clear_active" (VNum 0)) Chat);
    [left; reflexivity | reflexivity | discriminate].
Defined.

(** X5: in help mode, and in any mode when the raw poll is not enabled, an
    enabled proposal and a [clear_active] of 1 reach the result as given. *)
Theorem proposal_and_clear_survive (parsed : value) (m : mode) :
  m = Help \/ get (get parsed "poll") "enabled" <> VNum 1 ->
  let out := normalizeModelOutput parsed m in
  get out "poll" = disabledPoll /\
  (get (get parsed "proposal") "enabled" = VNum 1 ->
   get out "proposal" = get parsed "proposal") /\
  (get parsed "clear_active" = VNum 1 -> get out "clear_active" = VNum 1).
Proof.
  intros H. cbv zeta.
  pose proof (coerceOutput_container parsed) as C.
  pose proof (coerceOutput_proposal_eq parsed) as P.
  pose proof (coerceOutput_poll_eq parsed) as Q.
  pose proof (coerceOutput_clear_eq parsed) as K.
  assert (Hh : get (normalizeModelOutput parsed Help) "poll" = disabledPoll /\
    (get (get parsed "proposal") "enabled" = VNum 1 ->
     get (normalizeModelOutput parsed Help) "proposal" = get parsed "proposal") /\
    (get parsed "clear_active" = VNum 1 ->
     get (normalizeModelOutput parsed Help) "clear_active" = VNum 1)).
  { unfold normalizeModelOutput. rewrite get_set_same by assumption.
    rewrite !get_set_other by discriminate. rewrite P, K.
    repeat split; intros ->; reflexivity. }
  destruct (isNum 1 (get (get parsed "poll") "enabled")) eqn:N.
  - apply isNum_true in N. destruct H as [-> | H]; [exact Hh | contradiction].
  - assert (G : forall mm, mm = Chat \/ mm = PostClear ->
      get (normalizeModelOutput parsed mm) "poll" = disabledPoll /\
      (get (get parsed "proposal") "enabled" = VNum 1 ->
       get (normalizeModelOutput parsed mm) "proposal" = get parsed "proposal") /\
      (get parsed "clear_active" = VNum 1 ->
       get (normalizeModelOutput parsed mm) "clear_active" = VNum 1)).
    { intros mm Hmm. rewrite resolve_eq by assumption. cbv zeta.
      revert P Q K C. generalize (coerceOutput parsed) as o. intros o P Q K C.
      rewrite Q. cbn [get lookup disabledPoll String.eqb Ascii.eqb Bool.eqb isNum Z.eqb andb].
      rewrite P, K, Q.
      repeat split; intros ->; reflexivity. }
    destruct m; [apply G; auto | exact Hh | apply G; auto].
Qed.

Lemma proposal_and_clear_survive_witness :
  let out := normalizeModelOutput conflictOutput Help in
  get out "poll" = disabledPoll /\
  get out "proposal" = get conflictOutput "proposal" /\
  get out "clear_active" = VNum 1.
Proof.
  destruct (proposal_and_clear_survive conflictOutput Help (or_introl eq_refl))
    as [H1 [H2 H3]].
  exact (conj H1 (conj (H2 eq_refl) (H3 eq_refl))).
Defined.

End NormalizerLaws.

(** ** Trimming and lower-casing *)

Module TextFacts.
Import Page LevelSpec StringFacts.

Lemma lower_space c : isSpace (lowerChar c) = isSpace c.
Proof.
  revert c.
  assert (H : forall c, Bool.eqb (isSpace (lowerChar c)) (isSpace c) = true)
    by (apply forall_chars; vm_compute; reflexivity).
  intros c. apply eqb_prop, H.
Qed.

Lemma lower_lower c : lowerChar (lowerChar c) = lowerChar c.
Proof.
  revert c.
  assert (H : forall c, Ascii.eqb (lowerChar (lowerChar c)) (lowerChar c) = true)
    by (apply forall_chars; vm_compute; reflexivity).
  intros c. apply Ascii.eqb_eq, H.
Qed.

Lemma toLowerCase_idempotent s : toLowerCase (toLowerCase s) = toLowerCase s.
Proof.
  unfold toLowerCase. induction s as [|c s IH]; simpl; [reflexivity|].
  now rewrite lower_lower, IH.
Qed.

Lemma trimStart_lower s : trimStart (toLowerCase s) = toLowerCase (trimStart s).
Proof.
  unfold toLowerCase. induction s as [|c s IH]; simpl; [reflexivity|].
  rewrite lower_space. now destruct (isSpace c).
Qed.

Lemma trimEnd_lower s : trimEnd (toLowerCase s) = toLowerCase (trimEnd s).
Proof.
  unfold toLowerCase. induction s as [|c s IH]; simpl; [reflexivity|].
  rewrite IH. destruct (trimEnd s); simpl; [|reflexivity].
  rewrite lower_space. now destruct (isSpace c).
Qed.

Lemma trim_lower s : trim (toLowerCase s) = toLowerCase (trim s).
Proof. unfold trim. now rewrite trimStart_lower, trimEnd_lower. Qed.

Lemma trimStart_spaces ws s :
  allOf isSpace ws = true -> trimStart (ws ++ s) = trimStart s.
Proof.
  induction ws as [|c ws IH]; simpl; auto.
  intros H. apply andb_true_iff in H. destruct H as [-> H]. auto.
Qed.

Lemma trimEnd_spaces ws : allOf isSpace ws = true -> trimEnd ws = EmptyString.
Proof.
  induction ws as [|c ws IH]; simpl; auto.
  intros H. apply andb_true_iff in H. destruct H as [-> H]. now rewrite IH.
Qed.

Lemma trimEnd_app_spaces s ws :
  allOf isSpace ws = true -> trimEnd (s ++ ws) = trimEnd s.
Proof.
  intros H. induction s as [|c s IH]; simpl.
  - now apply trimEnd_spaces.
  - now rewrite IH.
Qed.

Lemma trim_app_spaces s ws : allOf isSpace ws = true -> trim (s ++ ws) = trim s.
Proof.
  intros H. unfold trim. induction s as [|c s IH].
  - simpl. rewrite <- (app_nil_r ws), trimStart_spaces by assumption. reflexivity.
  - cbn [append trimStart]. destruct (isSpace c); [exact IH|].
    exact (trimEnd_app_spaces (String c s) ws H).
Qed.

(** The text left by [trimEnd] starts as the text did. *)
Lemma trimEnd_head c r :
  trimEnd (String c r) = EmptyString \/
  exists r', trimEnd (String c r) = String c r'.
Proof.
  simpl. destruct (trimEnd r); [destruct (isSpace c)|]; eauto.
Qed.

Lemma trimEnd_cons c r :
  trimEnd (String c r)
  = match trimEnd r with
    | EmptyString => if isSpace c then EmptyString else String c EmptyString
    | r' => String c r'
    end.
Proof. reflexivity. Qed.

Lemma trimEnd_idempotent s : trimEnd (trimEnd s) = trimEnd s.
Proof.
  induction s as [|c s IH]; [reflexivity|].
  rewrite trimEnd_cons. destruct (trimEnd s) as [|d t] eqn:E.
  - destruct (isSpace c) eqn:S; [reflexivity|]. simpl. now rewrite S.
  - rewrite trimEnd_cons, IH. reflexivity.
Qed.

Lemma trimStart_head s :
  trimStart s = EmptyString \/
  exists c r, trimStart s = String c r /\ isSpace c = false.
Proof.
  induction s as [|c s IH]; simpl; auto.
  destruct (isSpace c) eqn:S; eauto.
Qed.

Lemma trim_idempotent s : trim (trim s) = trim s.
Proof.
  unfold trim at 2 3.
  destruct (trimStart_head s) as [->|[c [r [-> S]]]]; [reflexivity|].
  destruct (trimEnd_head c r) as [->|[r' E]]; [reflexivity|].
  unfold trim. rewrite E. cbn [trimStart]. rewrite S. rewrite <- E.
  apply trimEnd_idempotent.
Qed.

Lemma normalizeText_string s : normalizeText (VStr s) = toLowerCase (trim s).
Proof. reflexivity. Qed.

(** X6: normalizing a normalized text changes nothing. *)
Theorem normalizeText_idempotent (v : value) :
  normalizeText (VStr (normalizeText v)) = normalizeText v.
Proof.
  rewrite normalizeText_string. unfold normalizeText.
  now rewrite trim_lower, trim_idempotent, toLowerCase_idempotent.
Qed.

(** X7: white space around a text and the case of its letters do not show in
    its normalized form, which is what the grader compares. *)
Theorem normalizeText_insensitive (ws1 s ws2 : string) :
  allOf isSpace ws1 = true -> allOf isSpace ws2 = true ->
  normalizeText (VStr (ws1 ++ toLowerCase s ++ ws2)) = normalizeText (VStr s) /\
  normalizeText (VStr (ws1 ++ s ++ ws2)) = normalizeText (VStr s).
Proof.
  intros H1 H2. rewrite !normalizeText_string.
  assert (T : forall t, trim (ws1 ++ t ++ ws2) = trim t).
  { intros t. rewrite <- app_assoc, trim_app_spaces by assumption.
    unfold trim. now rewrite trimStart_spaces. }
  rewrite !T. split; [|reflexivity].
  now rewrite trim_lower, toLowerCase_idempotent.
Qed.

Lemma normalizeText_insensitive_witness :
  normalizeText (VStr ("  " ++ toLowerCase "SOY" ++ " "))
  = normalizeText (VStr "SOY") /\
  normalizeText (VStr ("  " ++ "SOY" ++ " ")) = normalizeText (VStr "SOY").
Proof.
  apply (normalizeText_insensitive "  " "SOY" " "); reflexivity.
Defined.

End TextFacts.

(** ** Prompt templates *)

Module TemplateFacts.
Import Route LevelSpec StringFacts TextFacts.

Lemma word_not_space c : isWordChar c = true -> isSpace c = false.
Proof.
  revert c.
  assert (H : forall c, (negb (isWordChar c) || negb (isSpace c)) = true)
    by (apply forall_chars; vm_compute; reflexivity).
  intros c Hc. specialize (H c). rewrite Hc in H. simpl in H.
  now apply negb_true_iff.
Qed.

Lemma takeKey_app key s :
  allOf isWordChar key = true ->
  match s with String c _ => isWordChar c = false | EmptyString => True end ->
  takeKey (key ++ s) = (key, s).
Proof.
  intros Hk Hs. induction key as [|c key IH]; simpl in *.
  - destruct s as [|c r]; [reflexivity|]. simpl. now rewrite Hs.
  - apply andb_true_iff in Hk. destruct Hk as [-> Hk]. now rewrite IH.
Qed.

(** A well-formed placeholder at the start of the text is matched, with its
    key and the text after it. *)
Lemma matchPlaceholder_some ws1 key ws2 post :
  allOf isSpace ws1 = true -> allOf isSpace ws2 = true ->
  allOf isWordChar key = true -> key <> EmptyString ->
  matchPlaceholder ("{{" ++ ws1 ++ key ++ ws2 ++ "}}" ++ post) = Some (key, post).
Proof.
  intros H1 H2 Hk Hne.
  change ("{{" ++ ws1 ++ key ++ ws2 ++ "}}" ++ post)
    with (String "{" (String "{" (ws1 ++ key ++ ws2 ++ "}}" ++ post))).
  unfold matchPlaceholder.
  rewrite trimStart_spaces by assumption.
  assert (T : trimStart (key ++ ws2 ++ "}}" ++ post) = key ++ ws2 ++ "}}" ++ post).
  { destruct key as [|c key]; [congruence|]. simpl in *.
    apply andb_true_iff in Hk. destruct Hk as [Hc _].
    now rewrite (word_not_space c Hc). }
  rewrite T, takeKey_app; [|assumption|].
  - destruct key; [congruence|]. cbn [isEmpty].
    rewrite trimStart_spaces by assumption. reflexivity.
  - destruct ws2 as [|c ws2]; [reflexivity|]. simpl in *.
    apply andb_true_iff in H2. destruct H2 as [Hc _].
    destruct (isWordChar c) eqn:W; [|reflexivity].
    apply word_not_space in W. congruence.
Qed.

Lemma matchPlaceholder_start s :
  startsWith "{{" s = false -> matchPlaceholder s = None.
Proof.
  destruct s as [|a [|b r]]; try reflexivity.
  - intros _. unfold matchPlaceholder. 
    destruct a as [[] [] [] [] [] [] [] []]; reflexivity.
  - cbn [startsWith]. rewrite andb_true_r. intros H.
    unfold matchPlaceholder.
    destruct (Ascii.eqb_spec "{" a) as [<-|Ha].
    + destruct (Ascii.eqb_spec "{" b) as [<-|Hb]; [discriminate|].
      destruct b as [[] [] [] [] [] [] [] []]; try reflexivity. congruence.
    + destruct a as [[] [] [] [] [] [] [] []]; try reflexivity. congruence.
Qed.

Lemma renderFrom_skip vars a b :
  renderFrom vars (a ++ b) (String.length a) = renderFrom vars b O.
Proof.
  induction a as [|c a IH]; simpl; auto.
Qed.

Lemma renderFrom_match vars c r key rest :
  matchPlaceholder (String c r) = Some (key, rest) ->
  renderFrom vars (String c r) O
  = substitute vars key
    ++ renderFrom vars r (String.length r - String.length rest).
Proof. intros M. cbn [renderFrom]. now rewrite M. Qed.

Lemma renderFrom_prefix vars pre rest :
  includes "{{" pre = false -> startsWith "{{" rest = true ->
  renderFrom vars (pre ++ rest) O = pre ++ renderFrom vars rest O.
Proof.
  intros Hpre Hrest.
  induction pre as [|c pre IH]; [reflexivity|].
  cbn [includes] in Hpre. apply orb_false_iff in Hpre. destruct Hpre as [Hs Hi].
  cbn [append renderFrom].
  assert (M : matchPlaceholder (String c (pre ++ rest)) = None).
  { destruct pre as [|d pre].
    - apply startsWith_spec in Hrest. destruct Hrest as [post ->].
      cbn [append].
      destruct (Ascii.eqb_spec "{" c) as [<-|Hc]; [reflexivity|].
      apply matchPlaceholder_start. cbn [startsWith].
      destruct (Ascii.eqb_spec "{" c); [contradiction|reflexivity].
    - apply matchPlaceholder_start. cbn [append startsWith] in *.
      now rewrite andb_true_r in *. }
  rewrite M. now rewrite IH.
Qed.

(** X8: a template without the two characters [{{] is rendered as it is. *)
Theorem render_without_placeholder
  (template : string) (vars : list (string * value)) :
  includes "{{" template = false -> renderTemplate template vars = template.
Proof.
  unfold renderTemplate.
  induction template as [|c t IH]; [reflexivity|].
  cbn [includes]. intros H. apply orb_false_iff in H. destruct H as [Hs Hi].
  cbn [renderFrom]. rewrite matchPlaceholder_start by assumption.
  now rewrite IH.
Qed.

Lemma render_without_placeholder_witness :
  renderTemplate "Answer with {JSON} only." [("JSON", VStr "text")]
  = "Answer with {JSON} only.".
Proof.
  apply (render_without_placeholder "Answer with {JSON} only."
           [("JSON", VStr "text")]).
  reflexivity.
Defined.

(** X9: a placeholder is replaced by the text of its variable, or by
    nothing when there is no such variable; the white space inside the
    braces does not count; the text put in is not scanned again, and the
    rest of the template is rendered after it. *)
Theorem render_placeholder (pre ws1 key ws2 post : string)
  (vars : list (string * value)) :
  includes "{{" pre = false ->
  allOf isSpace ws1 = true -> allOf isSpace ws2 = true ->
  allOf isWordChar key = true -> key <> EmptyString ->
  renderTemplate (pre ++ "{{" ++ ws1 ++ key ++ ws2 ++ "}}" ++ post) vars
  = pre ++ substitute vars key ++ renderTemplate post vars.
Proof.
  intros Hpre H1 H2 Hk Hne. unfold renderTemplate.
  pose proof (matchPlaceholder_some ws1 key ws2 post H1 H2 Hk Hne) as M.
  rewrite renderFrom_prefix; [|assumption|reflexivity].
  f_equal.
  change ("{{" ++ ws1 ++ key ++ ws2 ++ "}}" ++ post)
    with (String "{" (String "{" (ws1 ++ key ++ ws2 ++ "}}" ++ post))) in *.
  rewrite (renderFrom_match _ _ _ _ _ M). f_equal.
  assert (E : String "{" (ws1 ++ key ++ ws2 ++ "}}" ++ post)
              = (String "{" (ws1 ++ key ++ ws2 ++ "}}")) ++ post).
  { cbn [append]. now rewrite !app_assoc. }
  rewrite E.
  rewrite (length_app (String "{" (ws1 ++ key ++ ws2 ++ "}}")) post), Nat.add_sub.
  apply renderFrom_skip.
Qed.

(** The value of [userText] holds a placeholder of its own: it is put in as
    it is. *)
Lemma render_placeholder_witness :
  renderTemplate "Student says: {{ userText }}!" [("userText", VStr "{{x}}")]
  = "Student says: {{x}}!".
Proof.
  apply (render_placeholder "Student says: " " " "userText" " " "!"
           [("userText", VStr "{{x}}")]);
    [reflexivity | reflexivity | reflexivity | reflexivity | discriminate].
Defined.

End TemplateFacts.

(** ** More on the route handler *)

Module HandlerFacts.
Import Route Samples RouteFacts.

Lemma userContentFor_reject body prompts r :
  userContentFor body prompts = Ok (Reject r) ->
  exists st msg, r = jsonError st msg /\ (st = 400 \/ st = 500)%Z.
Proof.
  unfold userContentFor.
  destruct (effectiveModeOf body).
  - destruct (negb (hasUserText body)); intros [= <-]; eauto.
  - destruct (negb (activeUsable (activeOf body))); [intros [= <-]; eauto|].
    destruct (negb (hasUserText body)); [intros [= <-]; eauto|].
    destruct (redactActiveForModel (activeOf body)); simpl; discriminate.
  - destruct (isEmpty _); intros [= <-]; eauto.
Qed.

Lemma getStrict_ok v k x : getStrict v k = Ok x -> x = get v k.
Proof. destruct v; simpl; intros H; try discriminate; now injection H. Qed.

Lemma getStrict_container v k : isContainer v = true -> getStrict v k = Ok (get v k).
Proof. destruct v; simpl; auto; discriminate. Qed.

Lemma finish_answers parse m lr :
  (exists msg, caught (finish parse m lr) = jsonError 500 msg) \/
  (exists resp raw parsed,
     lr = Replied resp /\ get resp "status" <> VStr "incomplete" /\
     getOutputText resp = Ok raw /\ raw <> EmptyString /\
     parse raw = Ok parsed /\
     caught (finish parse m lr)
     = {| status := 200; payload := normalizeModelOutput parsed m |}).
Proof.
  unfold finish. destruct lr as [resp|e]; simpl; [|eauto].
  destruct (getStrict resp "status") as [st|e] eqn:S; simpl; [|eauto].
  destruct (isStr "incomplete" st) eqn:I; simpl; [eauto|].
  destruct (getOutputText resp) as [raw|e] eqn:G; simpl; [|eauto].
  destruct raw as [|c raw]; simpl; [eauto|].
  destruct (parse (String c raw)) as [parsed|e] eqn:P; simpl; [|eauto].
  right. exists resp, (String c raw), parsed.
  repeat split; auto; try discriminate.
  intros E. apply getStrict_ok in S. rewrite S, E in I. discriminate.
Qed.

(** What [POST] does, by cases on the request and the configuration. *)
Lemma POST_cases parse e fs reqJson :
  (exists st msg, POST parse e fs reqJson = Respond (jsonError st msg)
                  /\ (st = 400 \/ st = 500)%Z) \/
  (exists apiKey body schema prompts systemPrompt userContent,
     OPENAI_API_KEY e = Some apiKey /\ isEmpty apiKey = false /\
     reqJson = Ok body /\ schemaJson fs = Ok schema /\
     promptsJson fs = Ok prompts /\
     buildSystemPrompt (configOf body) prompts = Ok systemPrompt /\
     userContentFor body prompts = Ok (Proceed userContent) /\
     POST parse e fs reqJson
     = CallModel
         {| llm_key := apiKey;
            llm_model := match OPENAI_MODEL e with
                         | Some m => if isEmpty m then "gpt-5.2" else m
                         | None => "gpt-5.2"
                         end;
            llm_input := ([turn "system" systemPrompt] ++ messagesOf body
                            ++ [turn "user" userContent])%list;
            llm_schema := schema |}
         (fun lr => caught (finish parse (effectiveModeOf body) lr))).
Proof.
  unfold POST, prepare.
  destruct (OPENAI_API_KEY e) as [apiKey|]; [|left; eauto].
  destruct (isEmpty apiKey) eqn:K; [left; eauto|].
  destruct reqJson as [body|err]; simpl; [|left; eauto].
  destruct (schemaJson fs) as [schema|err]; simpl; [|left; eauto].
  destruct (promptsJson fs) as [prompts|err]; simpl; [|left; eauto].
  destruct (buildSystemPrompt (configOf body) prompts) as [sp|err] eqn:B;
    simpl; [|left; eauto].
  destruct (userContentFor body prompts) as [[r|uc]|err] eqn:U; simpl;
    [| |left; eauto].
  - left. destruct (userContentFor_reject _ _ _ U) as [st [msg [-> H]]]. eauto.
  - right. exists apiKey, body, schema, prompts, sp, uc. repeat split; auto.
Qed.

(** X10: every answer of the handler is an error object with status 400 or
    500, or comes after the model call; and after the call the answer is an
    error with status 500, or it has status 200 and carries the normalized
    parse of the model's complete, non-empty output text. *)
Theorem POST_answers (parse : string -> res value) (e : env) (fs : files)
  (reqJson : res value) :
  match POST parse e fs reqJson with
  | Respond r =>
      exists st msg, r = jsonError st msg /\ (st = 400 \/ st = 500)%Z
  | CallModel q k =>
      exists body, reqJson = Ok body /\
      forall lr,
        (exists msg, k lr = jsonError 500 msg) \/
        (exists resp raw parsed,
           lr = Replied resp /\ get resp "status" <> VStr "incomplete" /\
           getOutputText resp = Ok raw /\ raw <> EmptyString /\
           parse raw = Ok parsed /\
           k lr = {| status := 200;
                     payload := normalizeModelOutput parsed (effectiveModeOf body) |})
  end.
Proof.
  destruct (POST_cases parse e fs reqJson)
    as [[st [msg [-> H]]]|[apiKey [body [schema [prompts [sp [uc H]]]]]]].
  - eauto.
  - destruct H as [_ [_ [Hb [_ [_ [_ [_ ->]]]]]]].
    exists body. split; [assumption|]. intros lr. apply finish_answers.
Qed.

Section SameEffectiveMode.

Variables body1 body2 : value.
Hypothesis same : forall k, k <> "mode" -> get body1 k = get body2 k.
Hypothesis sameEffective : effectiveModeOf body1 = effectiveModeOf body2.

Lemma userContentFor_effective prompts :
  userContentFor body1 prompts = userContentFor body2 prompts.
Proof.
  unfold userContentFor, hasUserText.
  rewrite sameEffective, (activeOf_same body1 body2 same),
    (userTextOf_same body1 body2 same).
  rewrite (same "attempt"), (same "cleared"), (same "clearedOutcome")
    by discriminate.
  reflexivity.
Qed.

Lemma POST_effective parse e fs :
  POST parse e fs (Ok body1) = POST parse e fs (Ok body2).
Proof.
  unfold POST, prepare. simpl.
  rewrite (configOf_same body1 body2 same), (messagesOf_same body1 body2 same),
    sameEffective.
  destruct (schemaJson fs); simpl; auto.
  destruct (promptsJson fs) as [prompts|]; simpl; auto.
  now rewrite userContentFor_effective.
Qed.

End SameEffectiveMode.

Lemma usable_is_help body :
  activeUsable (activeOf body) = true ->
  get body "mode" <> VStr "post_clear" -> effectiveModeOf body = Help.
Proof.
  intros U M. unfold effectiveModeOf, modeOf.
  rewrite (isStr_false "post_clear") by assumption. rewrite U.
  now destruct (isStr "help" (get body "mode")).
Qed.

(** X11: with a usable active exercise in the body, every mode but
    post_clear is help: two bodies that differ in their mode only, neither
    being post_clear, are handled alike, as help requests. *)
Theorem active_exercise_forces_help
  (parse : string -> res value) (e : env) (fs : files) (body1 body2 : value) :
  (forall k, k <> "mode" -> get body1 k = get body2 k) ->
  activeUsable (activeOf body1) = true ->
  get body1 "mode" <> VStr "post_clear" ->
  get body2 "mode" <> VStr "post_clear" ->
  effectiveModeOf body1 = Help /\ effectiveModeOf body2 = Help /\
  POST parse e fs (Ok body1) = POST parse e fs (Ok body2).
Proof.
  intros Hsame U M1 M2.
  assert (E1 : effectiveModeOf body1 = Help) by now apply usable_is_help.
  assert (E2 : effectiveModeOf body2 = Help).
  { apply usable_is_help; [|assumption].
    now rewrite <- (activeOf_same body1 body2 Hsame). }
  repeat split; auto. apply POST_effective; [assumption|congruence].
Qed.

Lemma chat_and_help_agree k :
  k <> "mode" -> get chatAboutExercise k = get helpPlain k.
Proof.
  intros Hk. unfold chatAboutExercise, helpPlain, get, lookup.
  destruct (String.eqb_spec k "mode"); [contradiction|reflexivity].
Qed.

Lemma active_exercise_forces_help_witness :
  effectiveModeOf chatAboutExercise = Help /\
  effectiveModeOf helpPlain = Help /\
  POST parseNothing sampleEnv sampleFiles (Ok chatAboutExercise)
  = POST parseNothing sampleEnv sampleFiles (Ok helpPlain).
Proof.
  apply (active_exercise_forces_help parseNothing sampleEnv sampleFiles
           chatAboutExercise helpPlain);
    [exact chat_and_help_agree | reflexivity | discriminate | discriminate].
Defined.

(** X12: in post_clear mode the handler reads neither [userText] nor
    [active] nor [attempt]: two post_clear bodies with the same messages,
    configuration, [cleared] and [clearedOutcome] are handled alike, and no
    such request is answered with status 400. *)
Theorem post_clear_ignores_exercise
  (parse : string -> res value) (e : env) (fs : files) (body1 body2 : value) :
  get body1 "mode" = VStr "post_clear" ->
  get body2 "mode" = VStr "post_clear" ->
  get body1 "messages" = get body2 "messages" ->
  get body1 "config" = get body2 "config" ->
  get body1 "cleared" = get body2 "cleared" ->
  get body1 "clearedOutcome" = get body2 "clearedOutcome" ->
  POST parse e fs (Ok body1) = POST parse e fs (Ok body2) /\
  forall msg, POST parse e fs (Ok body1) <> Respond (jsonError 400 msg).
Proof.
  intros M1 M2 Hm Hc Hcl Hco.
  assert (E : forall b, get b "mode" = VStr "post_clear" ->
                        effectiveModeOf b = PostClear).
  { intros b Hb. unfold effectiveModeOf. now rewrite Hb. }
  assert (U : forall prompts,
            userContentFor body1 prompts = userContentFor body2 prompts).
  { intros prompts. unfold userContentFor.
    rewrite (E body1 M1), (E body2 M2), Hcl, Hco. reflexivity. }
  split.
  - unfold POST, prepare, configOf, messagesOf. simpl.
    rewrite (E body1 M1), (E body2 M2), Hm, Hc.
    destruct (schemaJson fs); simpl; auto.
    destruct (promptsJson fs) as [prompts|]; simpl; auto.
    now rewrite U.
  - intros msg. unfold POST, prepare. simpl.
    destruct (OPENAI_API_KEY e) as [apiKey|]; [|discriminate].
    destruct (isEmpty apiKey); [discriminate|].
    destruct (schemaJson fs); simpl; [|discriminate].
    destruct (promptsJson fs) as [prompts|]; simpl; [|discriminate].
    destruct (buildSystemPrompt (configOf body1) prompts); simpl; [|discriminate].
    unfold userContentFor. rewrite (E body1 M1).
    destruct (isEmpty _); simpl; discriminate.
Qed.

Lemma post_clear_ignores_exercise_witness :
  POST parseNothing sampleEnv sampleFiles (Ok postClearLeftovers)
  = POST parseNothing sampleEnv sampleFiles (Ok postClearRequest) /\
  forall msg,
    POST parseNothing sampleEnv sampleFiles (Ok postClearLeftovers)
    <> Respond (jsonError 400 msg).
Proof.
  apply (post_clear_ignores_exercise parseNothing sampleEnv sampleFiles
           postClearLeftovers postClearRequest); reflexivity.
Defined.

Lemma messagesOf_turns body m :
  In m (messagesOf body) ->
  exists role content,
    m = turn role content /\ (role = "user" \/ role = "assistant").
Proof.
  unfold messagesOf. destruct (get body "messages"); try contradiction.
  intros H. apply filter_In in H. destruct H as [H T].
  apply in_map_iff in H. destruct H as [raw [<- _]].
  unfold isTurn, roleContent in *.
  change (get (VObj [("role", get raw "role"); ("content", get raw "content")]) "role")
    with (get raw "role") in T.
  change (get (VObj [("role", get raw "role"); ("content", get raw "content")]) "content")
    with (get raw "content") in T.
  apply andb_true_iff in T. destruct T as [R C].
  destruct (get raw "content") as [| | | |content| |]; try discriminate.
  apply orb_true_iff in R.
  destruct R as [R|R]; apply isStr_true in R; rewrite R; unfold turn; eauto.
Qed.

(** X13: whenever the handler calls the model, the input is the system
    prompt, then the history, then one user turn; every history entry is
    exactly a [role] and a string [content] with role user or assistant
    (whatever else the client sent is dropped); and in chat mode the user
    turn is the user's text as sent, which is not blank. *)
Theorem model_input_shape
  (parse : string -> res value) (e : env) (fs : files) (body : value)
  (q : llm_request) (k : llm_result -> response) :
  POST parse e fs (Ok body) = CallModel q k ->
  exists systemPrompt userContent,
    llm_input q = ([turn "system" systemPrompt] ++ messagesOf body
                     ++ [turn "user" userContent])%list /\
    (forall m, In m (messagesOf body) ->
       exists role content,
         m = turn role content /\ (role = "user" \/ role = "assistant")) /\
    (effectiveModeOf body = Chat ->
       userContent = userTextOf body /\ hasUserText body = true).
Proof.
  intros H.
  destruct (POST_cases parse e fs (Ok body))
    as [[st [msg [E _]]]|[apiKey [b [schema [prompts [sp [uc Hc]]]]]]].
  - rewrite E in H. discriminate.
  - destruct Hc as [_ [_ [Hb [_ [_ [_ [U E]]]]]]]. injection Hb as <-.
    rewrite E in H. injection H as <- _.
    exists sp, uc. split; [reflexivity|]. split; [apply messagesOf_turns|].
    intros M. unfold userContentFor in U. rewrite M in U.
    destruct (hasUserText body); simpl in U; [|discriminate].
    injection U as <-. auto.
Qed.

Lemma model_input_shape_witness :
  exists q k,
    POST parseNothing sampleEnv sampleFiles (Ok chatWithHistory) = CallModel q k /\
    exists systemPrompt userContent,
      llm_input q = ([turn "system" systemPrompt] ++ messagesOf chatWithHistory
                       ++ [turn "user" userContent])%list /\
      (forall m, In m (messagesOf chatWithHistory) ->
         exists role content,
           m = turn role content /\ (role = "user" \/ role = "assistant")) /\
      (effectiveModeOf chatWithHistory = Chat ->
         userContent = userTextOf chatWithHistory /\
         hasUserText chatWithHistory = true).
Proof.
  eexists. eexists. split; [reflexivity|].
  exact (model_input_shape parseNothing sampleEnv sampleFiles chatWithHistory
           _ _ eq_refl).
Defined.

(** Of the five entries of the history of [chatWithHistory], the two turns
    are sent, without their flags. *)
Example history_is_filtered :
  messagesOf chatWithHistory = [turn "assistant" "Hi!"; turn "user" "Hello"].
Proof. reflexivity. Qed.

Lemma getOutputText_direct resp raw :
  get resp "output_text" = VStr raw -> isEmpty (trim raw) = false ->
  getOutputText resp = Ok raw.
Proof.
  intros G T. unfold getOutputText.
  rewrite getStrict_container
    by (apply (get_defined_container resp "output_text"); rewrite G; discriminate).
  simpl. now rewrite G, T.
Qed.

(** X14: when the model's reply is not incomplete and its [output_text] is a
    string that is not blank, the answer is the normalized parse of that
    text with status 200, or status 500 with the parser's message when the
    text is not JSON. *)
Theorem reply_with_output_text
  (parse : string -> res value) (e : env) (fs : files) (body : value)
  (q : llm_request) (k : llm_result -> response) (resp : value) (raw : string) :
  POST parse e fs (Ok body) = CallModel q k ->
  get resp "output_text" = VStr raw -> isEmpty (trim raw) = false ->
  get resp "status" <> VStr "incomplete" ->
  k (Replied resp)
  = match parse raw with
    | Ok parsed =>
        {| status := 200;
           payload := normalizeModelOutput parsed (effectiveModeOf body) |}
    | Throw err => jsonError 500 (message_of err)
    end.
Proof.
  intros H G T S.
  destruct (POST_cases parse e fs (Ok body))
    as [[st [msg [E _]]]|[apiKey [b [schema [prompts [sp [uc Hc]]]]]]].
  - rewrite E in H. discriminate.
  - destruct Hc as [_ [_ [Hb [_ [_ [_ [U E]]]]]]]. injection Hb as <-.
    rewrite E in H. injection H as _ <-.
    unfold finish. cbn [bind].
    rewrite getStrict_container
      by (apply (get_defined_container resp "output_text"); rewrite G; discriminate).
    cbn [bind]. rewrite isStr_false by assumption.
    rewrite (getOutputText_direct resp raw G T). cbn [bind].
    destruct raw as [|c raw]; [discriminate|]. cbn [isEmpty].
    destruct (parse (String c raw)); reflexivity.
Qed.

Lemma reply_with_output_text_witness :
  exists q k,
    POST parseConflict sampleEnv sampleFiles (Ok chatModeRequest) = CallModel q k /\
    k (Replied modelReply)
    = {| status := 200; payload := normalizeModelOutput conflictOutput Chat |}.
Proof.
  eexists. eexists. split; [reflexivity|].
  exact (reply_with_output_text parseConflict sampleEnv sampleFiles
           chatModeRequest _ _ modelReply "{}" eq_refl eq_refl eq_refl
           ltac:(discriminate)).
Defined.


(** *** The fallback of [getOutputText] *)

Lemma getStrict_defined v k :
  Shape.isNullish v = false -> getStrict v k = Ok (get v k).
Proof. destruct v; simpl; auto; discriminate. Qed.

Lemma firstOutputText_skip pre rest :
  Forall (fun c => Shape.isNullish c = false /\
                   isStr "output_text" (get c "type")
                   && typeofString (get c "text") = false) pre ->
  firstOutputText (pre ++ rest) = firstOutputText rest.
Proof.
  induction 1 as [|c pre [Hn Hc] _ IH]; [reflexivity|].
  cbn [app firstOutputText]. rewrite getStrict_defined by assumption.
  cbn [bind]. now rewrite Hc.
Qed.

Lemma firstMessageText_skip before rest :
  Forall (fun item => Shape.isNullish item = false /\
                      isStr "message" (get item "type") = false) before ->
  firstMessageText (before ++ rest) = firstMessageText rest.
Proof.
  induction 1 as [|item before [Hn Hm] _ IH]; [reflexivity|].
  cbn [app firstMessageText]. rewrite getStrict_defined by assumption.
  cbn [bind]. now rewrite Hm.
Qed.

(** X15: without a usable [output_text] on the reply, the text comes from
    [output]: when the first item of type message has, among the parts of
    its content, a part of type output_text with a string [text], the text
    of the first such part is returned; items of other types before the
    message and other parts before that part are passed over. *)
Theorem output_text_falls_back
  (resp message part : value) (before after pre post : list value)
  (extra extra' : list (string * value)) (t : string) :
  isContainer resp = true ->
  match get resp "output_text" with
  | VStr s => isEmpty (trim s) = true
  | _ => True
  end ->
  get resp "output" = VArr (before ++ message :: after) extra ->
  Forall (fun item => Shape.isNullish item = false /\
                      isStr "message" (get item "type") = false) before ->
  get message "type" = VStr "message" ->
  get message "content" = VArr (pre ++ part :: post) extra' ->
  Forall (fun c => Shape.isNullish c = false /\
                   isStr "output_text" (get c "type")
                   && typeofString (get c "text") = false) pre ->
  get part "type" = VStr "output_text" -> get part "text" = VStr t ->
  getOutputText resp = Ok t.
Proof.
  intros C Hot Hout Hbefore Hty Hcontent Hpre Hpt Htext.
  assert (Dm : Shape.isNullish message = false)
    by (destruct message; try reflexivity; discriminate).
  assert (Dp : Shape.isNullish part = false)
    by (destruct part; try reflexivity; discriminate).
  assert (S : scanOutput resp = Ok t).
  { unfold scanOutput. rewrite Hout.
    rewrite (firstMessageText_skip before _ Hbefore).
    cbn [firstMessageText]. rewrite getStrict_defined by assumption.
    cbn [bind]. rewrite Hty, Hcontent.
    cbn [isStr String.eqb Ascii.eqb Bool.eqb].
    rewrite (firstOutputText_skip pre _ Hpre).
    cbn [firstOutputText]. rewrite getStrict_defined by assumption.
    cbn [bind]. rewrite Hpt, Htext. reflexivity. }
  unfold getOutputText. rewrite getStrict_container by assumption.
  cbn [bind]. destruct (get resp "output_text"); try exact S.
  now rewrite Hot.
Qed.

Lemma output_text_falls_back_witness : getOutputText messageReply = Ok "{}".
Proof.
  apply (output_text_falls_back messageReply
           (VObj [("type", VStr "message");
                  ("content",
                    VArr [VObj [("type", VStr "refusal")];
                          VObj [("type", VStr "output_text");
                                ("text", VStr "{}")]] [])])
           (VObj [("type", VStr "output_text"); ("text", VStr "{}")])
           [VObj [("type", VStr "reasoning")]] []
           [VObj [("type", VStr "refusal")]] [] [] []);
    try reflexivity; repeat constructor.
Defined.

End HandlerFacts.

(** ** More on redaction *)

Module MoreRedaction.
Import Route Samples RedactionFacts.

(** The JSON round trip gives back a JSON value as it is. *)
Lemma jsonClone_json v : isJson v = true -> jsonClone v = v.
Proof.
  induction v using value_induction; try reflexivity.
  - cbn [isJson jsonClone]. intros J.
    apply andb_true_iff in J. destruct J as [J E].
    destruct extra; [|discriminate]. f_equal.
    induction items as [|x items IH]; [reflexivity|].
    cbn [forallb] in J. apply andb_true_iff in J. destruct J as [Jx J].
    inversion H as [|? ? Hx Hr]; subst.
    cbn [map]. rewrite (IH Hr J). f_equal.
    destruct x; try discriminate; try reflexivity; now apply Hx.
  - cbn [isJson jsonClone]. intros J. f_equal.
    induction props as [|[k x] props IH]; [reflexivity|].
    cbn [forallb snd] in J. apply andb_true_iff in J. destruct J as [Jx J].
    inversion H as [|? ? Hx Hr]; subst. cbn [snd] in Hx.
    cbn [flat_map]. rewrite (IH Hr J).
    destruct x; try discriminate; cbn [app]; try reflexivity;
      now rewrite (Hx Jx).
Qed.

(** X16: redaction leaves an exercise that is neither fill-in-the-blank nor
    multiple choice as it is: for a JSON object whose [problem_type] is
    another one, the redacted copy equals the exercise. *)
Theorem redaction_keeps_other_exercises (active : value) :
  isJson active = true ->
  truthy active && typeofObject active = true ->
  get active "problem_type" <> VStr "fill_in_blank" ->
  get active "problem_type" <> VStr "multiple_choice" ->
  redactActiveForModel active = Ok active.
Proof.
  intros J T F M. unfold redactActiveForModel.
  apply andb_true_iff in T. destruct T as [-> ->]. cbn [negb orb].
  rewrite (jsonClone_json active J). cbv zeta.
  rewrite (isStr_false "fill_in_blank") by assumption.
  cbn [andb bind]. now rewrite (isStr_false "multiple_choice") by assumption.
Qed.

Lemma redaction_keeps_other_exercises_witness :
  redactActiveForModel (Page.active translationState)
  = Ok (Page.active translationState).
Proof.
  apply (redaction_keeps_other_exercises (Page.active translationState));
    [reflexivity | reflexivity | discriminate | discriminate].
Defined.

End MoreRedaction.

(** ** What the model sees of the active exercise *)

Module HelpContextFacts.
Import Route Exercise Samples RedactionFacts HandlerFacts.

(** C4, as the code has it.  Whenever the handler calls the model in help
    mode, the last turn of the input is the help template rendered with four
    values: the user text as sent, the serialized redacted copy of the
    active exercise, the serialized attempt as sent, and the serialized
    [{problem: redacted copy}]; nothing else of the exercise is in that
    turn.  The redacted copy has no key [expected_answers] on any blank
    object of [fill_in_blank.blanks] when its [problem_type] is
    fill_in_blank, and no key [correct_option_ids] on its [multiple_choice]
    payload when it is multiple_choice; either name occurs in the two
    serializations of the copy only inside the JSON text of a key or a
    string value that the copy holds.  For a fill-in-the-blank or
    multiple-choice exercise of the schema's shape, the two serializations
    are free of either name that the JSON text of its id, its prompt, and
    the ids and texts of its blanks or options are free of. *)
Theorem help_context_is_redacted
  (parse : string -> res value) (e : env) (fs : files) (body : value)
  (q : llm_request) (k : llm_result -> response) :
  POST parse e fs (Ok body) = CallModel q k ->
  effectiveModeOf body = Help ->
  exists prompts systemPrompt redacted,
    promptsJson fs = Ok prompts /\
    redactActiveForModel (activeOf body) = Ok redacted /\
    llm_input q
    = ([turn "system" systemPrompt] ++ messagesOf body
         ++ [turn "user"
               (renderTemplate
                  (toString
                     (orElse (get prompts "help_user_message_with_active")
                        (orElse (get prompts "help_user_message")
                           (VStr EmptyString))))
                  [("userText", VStr (userTextOf body));
                   ("activeContextJson", jsonVar redacted);
                   ("attemptJson", jsonVar (orElse (get body "attempt") VNull));
                   ("helpContextJson",
                     jsonVar (VObj [("problem", redacted)]))])])%list /\
    (get redacted "problem_type" = VStr "fill_in_blank" ->
     forall items extra,
       get (get redacted "fill_in_blank") "blanks" = VArr items extra ->
       forall props, In (VObj props) items ->
                     lookup "expected_answers" props = None) /\
    (get redacted "problem_type" = VStr "multiple_choice" ->
     forall props,
       get redacted "multiple_choice" = VObj props ->
       lookup "correct_option_ids" props = None) /\
    (forall name,
       In name answerKeyNames ->
       includes name (toString (jsonVar redacted)) = true \/
       includes name (toString (jsonVar (VObj [("problem", redacted)]))) = true ->
       exists t, In t (texts redacted) /\ includes name (quote t) = true) /\
    (forall name eid prompt blanks,
       In name answerKeyNames ->
       activeOf body = fillExercise (VStr eid) (VStr prompt) blanks ->
       includes name (quote eid) = false ->
       includes name (quote prompt) = false ->
       (forall b, In b blanks ->
                  includes name (quote (blank_id b)) = false /\
                  includes name (quote (text_with_placeholder b)) = false) ->
       redacted = shownFill eid prompt blanks /\
       includes name (toString (jsonVar redacted)) = false /\
       includes name (toString (jsonVar (VObj [("problem", redacted)]))) = false) /\
    (forall name eid prompt options allow correct,
       In name answerKeyNames ->
       activeOf body
       = choiceExercise (VStr eid) (VStr prompt) (choiceOptions options)
           (VBool allow) correct ->
       includes name (quote eid) = false ->
       includes name (quote prompt) = false ->
       (forall o, In o options ->
                  includes name (quote (fst o)) = false /\
                  includes name (quote (snd o)) = false) ->
       redacted = shownChoice eid prompt options allow /\
       includes name (toString (jsonVar redacted)) = false /\
       includes name (toString (jsonVar (VObj [("problem", redacted)]))) = false).
Proof.
  intros H M.
  destruct (POST_cases parse e fs (Ok body))
    as [[st [msg [E _]]]|[apiKey [b [schema [prompts [sp [uc Hc]]]]]]].
  { rewrite E in H. discriminate. }
  destruct Hc as [_ [_ [Hb [_ [Hp [_ [U E]]]]]]]. injection Hb as <-.
  rewrite E in H. injection H as <- _. cbn [llm_input].
  unfold userContentFor in U. rewrite M in U.
  destruct (activeUsable (activeOf body)); cbn [negb] in U; [|discriminate].
  destruct (hasUserText body); cbn [negb] in U; [|discriminate].
  destruct (redactActiveForModel (activeOf body)) as [redacted|] eqn:R;
    cbn [bind] in U; [|discriminate].
  injection U as <-.
  exists prompts, sp, redacted.
  destruct (redact_keys _ _ R) as [Hfill Hmc].
  split; [assumption|]. split; [reflexivity|]. split; [reflexivity|].
  split; [assumption|]. split; [assumption|]. split; [|split].
  - intros name Hname [Hocc|Hocc].
    + now apply serialized_occurrence.
    + destruct (serialized_occurrence name _ Hname Hocc) as [t [Ht Hq]].
      apply wrapped_texts in Ht. destruct Ht as [->|Ht]; [|eauto].
      exfalso. destruct Hname as [<-|[<-|[]]]; discriminate.
  - intros name eid prompt blanks Hname A Heid Hprompt Hblanks.
    rewrite A, redact_fill in R. injection R as <-.
    split; [reflexivity|].
    apply clean_serializations; [assumption|]. now apply fill_texts_clean.
  - intros name eid prompt options allow correct Hname A Heid Hprompt Hoptions.
    rewrite A, redact_choice in R. injection R as <-.
    split; [reflexivity|].
    apply clean_serializations; [assumption|]. now apply choice_texts_clean.
Qed.

Lemma help_context_is_redacted_witness :
  exists q k,
    POST parseNothing sampleEnv sampleFiles (Ok helpPlain) = CallModel q k /\
    effectiveModeOf helpPlain = Help /\
    exists prompts systemPrompt redacted,
      promptsJson sampleFiles = Ok prompts /\
      redactActiveForModel (activeOf helpPlain) = Ok redacted /\
      llm_input q
      = ([turn "system" systemPrompt] ++ messagesOf helpPlain
           ++ [turn "user"
                 (renderTemplate
                    (toString
                       (orElse (get prompts "help_user_message_with_active")
                          (orElse (get prompts "help_user_message")
                             (VStr EmptyString))))
                    [("userText", VStr (userTextOf helpPlain));
                     ("activeContextJson", jsonVar redacted);
                     ("attemptJson",
                       jsonVar (orElse (get helpPlain "attempt") VNull));
                     ("helpContextJson",
                       jsonVar (VObj [("problem", redacted)]))])])%list /\
      (get redacted "problem_type" = VStr "fill_in_blank" ->
       forall items extra,
         get (get redacted "fill_in_blank") "blanks" = VArr items extra ->
         forall props, In (VObj props) items ->
                       lookup "expected_answers" props = None) /\
      (get redacted "problem_type" = VStr "multiple_choice" ->
       forall props,
         get redacted "multiple_choice" = VObj props ->
         lookup "correct_option_ids" props = None) /\
      (forall name,
         In name answerKeyNames ->
         includes name (toString (jsonVar redacted)) = true \/
         includes name (toString (jsonVar (VObj [("problem", redacted)]))) = true ->
         exists t, In t (texts redacted) /\ includes name (quote t) = true) /\
      (forall name eid prompt blanks,
         In name answerKeyNames ->
         activeOf helpPlain = fillExercise (VStr eid) (VStr prompt) blanks ->
         includes name (quote eid) = false ->
         includes name (quote prompt) = false ->
         (forall b, In b blanks ->
                    includes name (quote (blank_id b)) = false /\
                    includes name (quote (text_with_placeholder b)) = false) ->
         redacted = shownFill eid prompt blanks /\
         includes name (toString (jsonVar redacted)) = false /\
         includes name (toString (jsonVar (VObj [("problem", redacted)])))
         = false) /\
      (forall name eid prompt options allow correct,
         In name answerKeyNames ->
         activeOf helpPlain
         = choiceExercise (VStr eid) (VStr prompt) (choiceOptions options)
             (VBool allow) correct ->
         includes name (quote eid) = false ->
         includes name (quote prompt) = false ->
         (forall o, In o options ->
                    includes name (quote (fst o)) = false /\
                    includes name (quote (snd o)) = false) ->
         redacted = shownChoice eid prompt options allow /\
         includes name (toString (jsonVar redacted)) = false /\
         includes name (toString (jsonVar (VObj [("problem", redacted)])))
         = false).
Proof.
  eexists. eexists. split; [reflexivity|]. split; [reflexivity|].
  exact (help_context_is_redacted parseNothing sampleEnv sampleFiles helpPlain
           _ _ eq_refl eq_refl).
Defined.

(** The help turn about [soyExercise]: the two serializations of the copy
    hold neither name, nor the accepted answer. *)
Example soy_help_context :
  exists redacted,
    redactActiveForModel (activeOf helpPlain) = Ok redacted /\
    redacted = shownFill "ex1" "Complete the sentence."
                 [{| blank_id := "b1";
                     text_with_placeholder := "Yo ____ estudiante.";
                     expected_answers := ["soy"] |}] /\
    includes "expected_answers" (toString (jsonVar redacted)) = false /\
    includes "correct_option_ids" (toString (jsonVar redacted)) = false /\
    includes "soy" (toString (jsonVar (VObj [("problem", redacted)]))) = false.
Proof. eexists. split; [reflexivity|]. repeat split. Qed.

End HelpContextFacts.

(** ** Attempts and grading *)

Module GradingFacts.
Import Page Exercise Samples GraderFacts LifecycleFacts.

Lemma gradeBlank_unanswerable att b ok :
  match get b "expected_answers" with
  | VArr (_ :: _) _ => False
  | _ => True
  end ->
  gradeBlank att b = Ok ok -> ok = false.
Proof.
  intros H. unfold gradeBlank.
  destruct (readTyped att b) as [typed|]; [|discriminate]. cbn [bind].
  destruct (getStrict b "expected_answers") as [answers|] eqn:A;
    [|discriminate].
  assert (E : answers = get b "expected_answers")
    by (destruct b; try discriminate; now injection A).
  subst answers. cbn [bind].
  destruct (get b "expected_answers") as [| | | | |[|x l] e|];
    try contradiction; intros [= <-]; reflexivity.
Qed.

Lemma gradeBlanks_unanswerable att bs graded b :
  gradeBlanks att bs = Ok graded -> In b bs ->
  match get b "expected_answers" with
  | VArr (_ :: _) _ => False
  | _ => True
  end ->
  snd graded = false.
Proof.
  revert graded. induction bs as [|x bs IH]; intros graded G Hin Hb;
    [contradiction|].
  cbn [gradeBlanks] in G.
  destruct (gradeBlank att x) as [ok|] eqn:Gx; [|discriminate].
  cbn [bind] in G.
  destruct (gradeBlanks att bs) as [tail|] eqn:Gt; [|discriminate].
  cbn [bind] in G. injection G as <-. cbn [snd].
  destruct Hin as [->|Hin].
  - now rewrite (gradeBlank_unanswerable att b ok Hb Gx).
  - rewrite (IH tail eq_refl Hin Hb). apply andb_false_r.
Qed.

(** X17: a fill-in-the-blank exercise with a blank whose [expected_answers]
    is missing, not an array, or empty is never graded all correct,
    whatever is typed; so Submit never clears it: no call is made and the
    exercise stays active. *)
Theorem unanswerable_blank_blocks_completion
  (st : state) (bs : list value) (extra : list (string * value)) (b : value)
  (net : nat -> fetch_result) (n : nat) :
  exerciseUsable (active st) = true ->
  get (active st) "problem_type" = VStr "fill_in_blank" ->
  get (get (active st) "fill_in_blank") "blanks" = VArr bs extra ->
  In b bs ->
  match get b "expected_answers" with
  | VArr (_ :: _) _ => False
  | _ => True
  end ->
  (forall g, gradeObjective (active st) (attempt st) = Ok g ->
             get g "allCorrect" = VBool false) /\
  fst (run (onSubmitObjective st) net n) = [] /\
  active (snd (run (onSubmitObjective st) net n)) = active st.
Proof.
  intros U T B Hin Hb.
  assert (G : forall g, gradeObjective (active st) (attempt st) = Ok g ->
                        get g "allCorrect" = VBool false /\ truthy g = true).
  { intros g. unfold gradeObjective. rewrite U, T, B. cbn [negb isStr String.eqb Ascii.eqb Bool.eqb truthy andb iterate bind].
    destruct (gradeBlanks (attempt st) bs) as [graded|] eqn:E; [|discriminate].
    cbn [bind]. intros [= <-].
    rewrite (gradeBlanks_unanswerable _ _ _ _ E Hin Hb). split; reflexivity. }
  split; [intros g Hg; apply (G g Hg)|].
  unfold onSubmitObjective.
  destruct (negb (truthy (active st)) || negb (isNum 1 (get (active st) "enabled")));
    [split; reflexivity|].
  destruct (gradeObjective (active st) (attempt st)) as [g|]; [|split; reflexivity].
  destruct (G g eq_refl) as [A Tg]. rewrite Tg, A. split; reflexivity.
Qed.

Lemma unanswerable_blank_blocks_completion_witness :
  (forall g, gradeObjective (active openState) (attempt openState) = Ok g ->
             get g "allCorrect" = VBool false) /\
  fst (run (onSubmitObjective openState) clearingNet 0) = [] /\
  active (snd (run (onSubmitObjective openState) clearingNet 0))
  = active openState.
Proof.
  apply (unanswerable_blank_blocks_completion openState [openBlank] []
           openBlank clearingNet 0);
    [reflexivity | reflexivity | reflexivity | left; reflexivity | exact I].
Defined.














(** The seeded attempt lists array indices first and in ascending order,
    as the object does, and has no entry for a blank named [__proto__]. *)
Example seeded_attempt_order :
  defaultAttemptForActive
    (fillExercise (VStr "ex5") (VStr "Complete.")
       [{| blank_id := "b"; text_with_placeholder := "____";
           expected_answers := ["x"] |};
        {| blank_id := "10"; text_with_placeholder := "____";
           expected_answers := ["x"] |};
        {| blank_id := "__proto__"; text_with_placeholder := "____";
           expected_answers := ["x"] |};
        {| blank_id := "2"; text_with_placeholder := "____";
           expected_answers := ["x"] |};
        {| blank_id := "01"; text_with_placeholder := "____";
           expected_answers := ["x"] |}])
  = Ok (VObj [("2", VStr EmptyString); ("10", VStr EmptyString);
              ("b", VStr EmptyString); ("01", VStr EmptyString)]).
Proof. reflexivity. Qed.





(** Clicking the second article completes the selection, and the grader
    accepts it. *)
Example toggle_then_grade :
  attempt (toggleMcOption articleState (VStr "b")) = selection ["a"; "b"] /\
  gradeObjective articleExercise
    (attempt (toggleMcOption articleState (VStr "b")))
  = Ok (VObj [("kind", VStr "multiple_choice"); ("allCorrect", VBool true)]).
Proof. split; reflexivity. Qed.

End GradingFacts.

(** ** The exercise panel and poll options *)

Module PanelFacts.
Import Page LevelSpec Samples TextFacts.

(** X20: the exercise panel shows exactly the usable exercises, and what the
    grader grades is shown as what it is graded as: whenever
    [renderExercise] returns, the result is null exactly for an exercise
    that is not usable, and an exercise with a grade of kind fill_in_blank
    or multiple_choice has the panel title of that kind. *)
Theorem shown_exercise_matches_grading (exercise r : value) :
  renderExercise exercise = Ok r ->
  ((r = VNull /\ exerciseUsable exercise = false) \/
   (exists title lines, r = panel title lines /\ exerciseUsable exercise = true)) /\
  (forall attempt g,
     gradeObjective exercise attempt = Ok g -> g <> VNull ->
     (get g "kind" = VStr "fill_in_blank" /\
      get r "title" = VStr "Fill in the blank") \/
     (get g "kind" = VStr "multiple_choice" /\
      get r "title" = VStr "Multiple choice")).
Proof.
  unfold renderExercise, gradeObjective, exerciseUsable.
  destruct (truthy exercise); cbn [negb orb andb];
    [|intros [= <-]; split; [auto|intros ? ? [= <-] H; congruence]].
  destruct (isNum 1 (get exercise "enabled")); cbn [negb orb andb];
    [|intros [= <-]; split; [auto|intros ? ? [= <-] H; congruence]].
  destruct (truthy (get exercise "problem_type")); cbn [negb orb andb];
    [|intros [= <-]; split; [auto|intros ? ? [= <-] H; congruence]].
  cbv zeta.
  destruct (isStr "translation" (get exercise "problem_type")) eqn:Et.
  { apply isStr_true in Et. rewrite Et.
    cbn [isStr String.eqb Ascii.eqb Bool.eqb andb].
    destruct (truthy (get exercise "translation")); intros [= <-];
      (split; [right; eauto|intros ? ? [= <-] H; congruence]). }
  cbn [andb].
  destruct (isStr "fill_in_blank" (get exercise "problem_type")) eqn:Ef.
  { apply isStr_true in Ef. rewrite Ef.
    cbn [isStr String.eqb Ascii.eqb Bool.eqb andb].
    destruct (truthy (get exercise "fill_in_blank")) eqn:Tf.
    - destruct (mapField _ _ _) as [texts|]; [|discriminate]. cbn [bind].
      intros [= <-]. split; [right; eauto|].
      intros att g.
      destruct (truthy (get (get exercise "fill_in_blank") "blanks"));
        [|intros [= <-] H; congruence].
      destruct (iterate _ _) as [bs|]; [|discriminate]. cbn [bind].
      destruct (gradeBlanks att bs); [|discriminate]. cbn [bind].
      intros [= <-] _. left. split; reflexivity.
    - intros [= <-]. split; [right; eauto|].
      intros att g.
      assert (B : get (get exercise "fill_in_blank") "blanks" = VUndef).
      { destruct (get exercise "fill_in_blank"); try reflexivity; discriminate. }
      rewrite B. cbn [truthy]. intros [= <-] H. congruence. }
  cbn [andb].
  destruct (isStr "multiple_choice" (get exercise "problem_type")) eqn:Em.
  { apply isStr_true in Em. rewrite Em.
    cbn [isStr String.eqb Ascii.eqb Bool.eqb andb].
    destruct (truthy (get exercise "multiple_choice")) eqn:Tm.
    - destruct (mapField _ _ _) as [texts|]; [|discriminate]. cbn [bind].
      intros [= <-]. split; [right; eauto|].
      intros att g [= <-] _. right. split; reflexivity.
    - intros [= <-]. split; [right; eauto|].
      intros att g [= <-] H. congruence. }
  cbn [andb].
  destruct (isStr "free_response" (get exercise "problem_type")
            && truthy (get exercise "free_response"));
    intros [= <-]; (split; [right; eauto|intros ? ? [= <-] H; congruence]).
Qed.

Lemma shown_exercise_matches_grading_witness :
  let r := panel "Fill in the blank"
             [VStr "Complete the sentence."; VStr "Yo ____ estudiante."] in
  ((r = VNull /\ exerciseUsable soyExercise = false) \/
   (exists title lines, r = panel title lines /\
                        exerciseUsable soyExercise = true)) /\
  (forall attempt g,
     gradeObjective soyExercise attempt = Ok g -> g <> VNull ->
     (get g "kind" = VStr "fill_in_blank" /\
      get r "title" = VStr "Fill in the blank") \/
     (get g "kind" = VStr "multiple_choice" /\
      get r "title" = VStr "Multiple choice")).
Proof.
  exact (shown_exercise_matches_grading soyExercise _ eq_refl).
Defined.

(** An exercise whose payload is not the one its [problem_type] names is
    shown as unrecognized. *)
Example hollow_exercise_panel :
  renderExercise
    (makeActiveFromProposal (get hollowOutput "proposal"))
  = Ok (panel "Exercise"
          [VStr "Unrecognized or missing payload for problem_type"]).
Proof. reflexivity. Qed.

Lemma sendTextFrom_same st text : sendTextFrom st st text = sendText st text.
Proof. reflexivity. Qed.




End PanelFacts.

(** ** The handlers of the controller *)

Module ControllerFacts.
Import Page Trace Exercise Samples LifecycleFacts.

Lemma run_throughout P Q p net n :
  throughout P Q p ->
  Forall (fun c => P (fst c) (snd c)) (fst (run p net n))
  /\ Q (snd (run p net n)).
Proof.
  intros H. revert n. induction H as [s Hs|c rq k Hc _ IH]; intros n.
  - split; [constructor|exact Hs].
  - cbn [run]. specialize (IH (net n) (S n)).
    destruct (run (k (net n)) net (S n)) as [calls final].
    cbn [fst snd] in *. destruct IH as [IH1 IH2].
    split; [constructor; assumption|assumption].
Qed.

Lemma throughout_triggerPostClear (P : state -> api_request -> Prop)
  (Q : state -> Prop) st cleared outcome override s k :
  P (setLoading true (setError EmptyString s))
    (requestOf st "post_clear" (VStr "post_clear") override cleared outcome) ->
  (forall fr,
     throughout P Q
       (k (setLoading false
             (match callApiResult fr with
              | Ok result =>
                  keepProposal result
                    (showReply result (setLoading true (setError EmptyString s)))
              | Throw e => reportError e (setLoading true (setError EmptyString s))
              end)))) ->
  throughout P Q (triggerPostClear st cleared outcome override s k).
Proof. intros H1 H2. unfold triggerPostClear. now constructor. Qed.

(** *** One request at a time *)

Ltac finish_idle := apply throughout_finish; reflexivity.

Lemma idle_triggerPostClear st cleared outcome override s k :
  (forall s', throughout (fun c _ => loading c = true) (fun f => loading f = false)
                (k (setLoading false s'))) ->
  throughout (fun c _ => loading c = true) (fun f => loading f = false)
    (triggerPostClear st cleared outcome override s k).
Proof.
  intros H. apply throughout_triggerPostClear; [reflexivity|].
  intros fr. apply H.
Qed.

Lemma sendText_brackets st text :
  loading st = false ->
  throughout (fun c _ => loading c = true) (fun f => loading f = false)
    (sendText st text).
Proof.
  intros L. unfold sendText. cbv zeta.
  destruct (isEmpty _ || loading st); [now constructor|].
  destruct (String.eqb (conversationMode st) "onboarding" && Z.eqb (onboardingStep st) 0);
    [constructor; exact L|].
  destruct (String.eqb (conversationMode st) "onboarding" && Z.eqb (onboardingStep st) 1).
  - constructor; [reflexivity|]. intros fr. finish_idle.
  - constructor; [reflexivity|]. intros fr.
    destruct (callApiResult fr) as [result|e]; [|finish_idle].
    destruct (isNum 1 (get result "clear_active") && truthy (active st)
              && isNum 1 (get (active st) "enabled")); [|finish_idle].
    apply idle_triggerPostClear. intros s'. finish_idle.
Qed.

Lemma onSubmitObjective_brackets st :
  loading st = false ->
  throughout (fun c _ => loading c = true) (fun f => loading f = false)
    (onSubmitObjective st).
Proof.
  intros L. unfold onSubmitObjective.
  destruct (negb (truthy (active st)) || negb (isNum 1 (get (active st) "enabled")));
    [now constructor|].
  destruct (gradeObjective (active st) (attempt st)) as [g|]; [|now constructor].
  destruct (negb (truthy g)); [now constructor|].
  destruct (truthy (get g "allCorrect")); [|constructor; exact L].
  apply idle_triggerPostClear. intros s'. finish_idle.
Qed.

Lemma onSubmitExercise_brackets st :
  loading st = false ->
  throughout (fun c _ => loading c = true) (fun f => loading f = false)
    (onSubmitExercise st).
Proof.
  intros L. unfold onSubmitExercise.
  destruct (negb (truthy (active st)) || negb (isNum 1 (get (active st) "enabled"))
            || loading st); [now constructor|].
  destruct (isStr "fill_in_blank" (get (active st) "problem_type")
            || isStr "multiple_choice" (get (active st) "problem_type"));
    [now apply onSubmitObjective_brackets|].
  constructor; [reflexivity|]. intros fr.
  destruct (callApiResult fr) as [result|e]; [|finish_idle].
  destruct (isNum 1 (get result "clear_active")); [|finish_idle].
  apply idle_triggerPostClear. intros s'. finish_idle.
Qed.

Lemma onClearActive_brackets st :
  loading st = false ->
  throughout (fun c _ => loading c = true) (fun f => loading f = false)
    (onClearActive st).
Proof.
  intros L. unfold onClearActive. rewrite L.
  destruct (negb (truthy (active st)) || negb (isNum 1 (get (active st) "enabled")));
    [now constructor|].
  apply idle_triggerPostClear. intros s'. finish_idle.
Qed.

(** X22: the handlers that call the route do nothing while a call is in
    flight; started with none in flight, they raise [loading] in the batch
    of every call they make and leave it lowered when they end, whatever
    the replies. *)
Theorem one_request_at_a_time
  (st : state) (text : value) (p : proc) (net : nat -> fetch_result) (n : nat) :
  In p (callers st text) ->
  (loading st = true -> run p net n = ([], st)) /\
  (loading st = false ->
   Forall (fun c => loading (fst c) = true) (fst (run p net n)) /\
   loading (snd (run p net n)) = false).
Proof.
  intros Hp. split.
  - intros L. destruct Hp as [<-|[<-|[<-|[]]]].
    + unfold sendText. cbv zeta. rewrite L, orb_true_r. reflexivity.
    + unfold onSubmitExercise. rewrite L, orb_true_r. reflexivity.
    + unfold onClearActive. rewrite L. reflexivity.
  - intros L.
    apply (run_throughout (fun c _ => loading c = true) (fun f => loading f = false)).
    destruct Hp as [<-|[<-|[<-|[]]]].
    + now apply sendText_brackets.
    + now apply onSubmitExercise_brackets.
    + now apply onClearActive_brackets.
Qed.

Lemma one_request_at_a_time_witness :
  Forall (fun c => loading (fst c) = true)
         (fst (run (onClearActive soyState) clearingNet 0)) /\
  loading (snd (run (onClearActive soyState) clearingNet 0)) = false.
Proof.
  destruct (one_request_at_a_time soyState VNull (onClearActive soyState)
              clearingNet 0 (or_intror (or_intror (or_introl eq_refl))))
    as [_ H].
  exact (H eq_refl).
Defined.


(** *** The history only grows *)

Lemma extends_same base s : messages s = base -> extends base s.
Proof. intros <-. exists []. now rewrite app_nil_r. Qed.

Lemma extends_append base m s :
  extends base s -> extends base (appendMessage m s).
Proof.
  intros [more H]. exists (more ++ [m])%list.
  cbn [appendMessage setMessages messages]. rewrite H. now rewrite app_assoc.
Qed.

Lemma extends_showReply base r s :
  extends base s -> extends base (showReply r s).
Proof.
  unfold showReply. destruct (typeofString _); auto using extends_append.
Qed.

Lemma extends_keepProposal base r s :
  extends base s -> extends base (keepProposal r s).
Proof. unfold keepProposal. now destruct (proposalEnabled _). Qed.

Lemma extends_reportError base e s :
  extends base s -> extends base (reportError e s).
Proof. intros H. apply extends_append. exact H. Qed.

Lemma extends_setLoading base b s :
  extends base s -> extends base (setLoading b s).
Proof. exact (fun H => H). Qed.

Lemma extends_setError base e s :
  extends base s -> extends base (setError e s).
Proof. exact (fun H => H). Qed.

Lemma extends_clearExercise base s :
  extends base s -> extends base (clearExercise s).
Proof. exact (fun H => H). Qed.

Lemma extends_setOnboardingStep base k s :
  extends base s -> extends base (setOnboardingStep k s).
Proof. exact (fun H => H). Qed.

Lemma extends_setConversationMode base m s :
  extends base s -> extends base (setConversationMode m s).
Proof. exact (fun H => H). Qed.

Lemma extends_setPlacement base f s :
  extends base s -> extends base (setPlacement f s).
Proof. exact (fun H => H). Qed.

Lemma extends_setGrade base g s :
  extends base s -> extends base (setGrade g s).
Proof. exact (fun H => H). Qed.

Lemma extends_setAttempt base g s :
  extends base s -> extends base (setAttempt g s).
Proof. exact (fun H => H). Qed.

Lemma extends_setActive base g s :
  extends base s -> extends base (setActive g s).
Proof. exact (fun H => H). Qed.

Lemma extends_user base st content :
  messages st = base ->
  extends base (setMessages (fun _ => (messages st ++ [userMessage content])%list)
                  (setError EmptyString st)).
Proof. intros <-. eexists. reflexivity. Qed.

Ltac grow :=
  repeat match goal with
  | H : extends ?b ?s |- extends ?b ?s => exact H
  | |- extends _ (setLoading _ _) => apply extends_setLoading
  | |- extends _ (setError _ _) => apply extends_setError
  | |- extends _ (clearExercise _) => apply extends_clearExercise
  | |- extends _ (setOnboardingStep _ _) => apply extends_setOnboardingStep
  | |- extends _ (setConversationMode _ _) => apply extends_setConversationMode
  | |- extends _ (setPlacement _ _) => apply extends_setPlacement
  | |- extends _ (setGrade _ _) => apply extends_setGrade
  | |- extends _ (setAttempt _ _) => apply extends_setAttempt
  | |- extends _ (setActive _ _) => apply extends_setActive
  | |- extends _ (keepProposal _ _) => apply extends_keepProposal
  | |- extends _ (showReply _ _) => apply extends_showReply
  | |- extends _ (reportError _ _) => apply extends_reportError
  | |- extends _ (appendMessage _ _) => apply extends_append
  | |- extends _ (setMessages (fun _ => (_ ++ [userMessage _])%list) _) =>
      apply extends_user; reflexivity
  | |- extends (messages ?s) ?s => apply extends_same; reflexivity
  end.

Lemma grows_triggerPostClear base st cleared outcome override s k :
  extends base s ->
  (forall s', extends base s' ->
              throughout (fun c _ => extends base c) (extends base) (k s')) ->
  throughout (fun c _ => extends base c) (extends base)
    (triggerPostClear st cleared outcome override s k).
Proof.
  intros H K. apply throughout_triggerPostClear; [grow|].
  intros fr. apply K. destruct (callApiResult fr); grow.
Qed.

Lemma sendText_grows st text :
  throughout (fun c _ => extends (messages st) c) (extends (messages st)) (sendText st text).
Proof.
  unfold sendText. cbv zeta.
  destruct (isEmpty _ || loading st); [constructor; grow|].
  destruct (String.eqb (conversationMode st) "onboarding" && Z.eqb (onboardingStep st) 0);
    [constructor; grow|].
  destruct (String.eqb (conversationMode st) "onboarding" && Z.eqb (onboardingStep st) 1).
  - constructor; [grow|]. intros fr. constructor.
    destruct (callApiResult fr) as [result|e]; [|grow].
    destruct (isNum 1 (get result "clear_active")); grow.
  - constructor; [grow|]. intros fr.
    destruct (callApiResult fr) as [result|e]; [|constructor; grow].
    destruct (isNum 1 (get result "clear_active") && truthy (active st)
              && isNum 1 (get (active st) "enabled")); [|constructor; grow].
    apply grows_triggerPostClear; [grow|].
    intros s' H. constructor. grow.
Qed.

Lemma offerHelp_grows exercise prev :
  exists more, offerHelp exercise prev = (prev ++ more)%list.
Proof.
  unfold offerHelp. destruct (_ && _).
  - exists []. now rewrite app_nil_r.
  - eexists. reflexivity.
Qed.

Lemma onSubmitObjective_grows st :
  throughout (fun c _ => extends (messages st) c) (extends (messages st))
    (onSubmitObjective st).
Proof.
  unfold onSubmitObjective.
  destruct (negb (truthy (active st)) || negb (isNum 1 (get (active st) "enabled")));
    [constructor; grow|].
  destruct (gradeObjective (active st) (attempt st)) as [g|];
    [|constructor; grow].
  destruct (negb (truthy g)); [constructor; grow|].
  destruct (truthy (get g "allCorrect")).
  - apply grows_triggerPostClear; [grow|].
    intros s' H. now constructor.
  - constructor. destruct (offerHelp_grows (active st) (messages st)) as [more E].
    exists more. exact E.
Qed.

Lemma onSubmitExercise_grows st :
  throughout (fun c _ => extends (messages st) c) (extends (messages st))
    (onSubmitExercise st).
Proof.
  unfold onSubmitExercise.
  destruct (negb (truthy (active st)) || negb (isNum 1 (get (active st) "enabled"))
            || loading st); [constructor; grow|].
  destruct (isStr "fill_in_blank" (get (active st) "problem_type")
            || isStr "multiple_choice" (get (active st) "problem_type"));
    [apply onSubmitObjective_grows|].
  constructor; [grow|]. intros fr.
  destruct (callApiResult fr) as [result|e]; [|constructor; grow].
  destruct (isNum 1 (get result "clear_active")); [|constructor; grow].
  apply grows_triggerPostClear; [grow|].
  intros s' H. constructor. grow.
Qed.

Lemma onClearActive_grows st :
  throughout (fun c _ => extends (messages st) c) (extends (messages st)) (onClearActive st).
Proof.
  unfold onClearActive.
  destruct (loading st); [constructor; grow|].
  destruct (negb (truthy (active st)) || negb (isNum 1 (get (active st) "enabled")));
    [constructor; grow|].
  apply grows_triggerPostClear; [grow|].
  intros s' H. now constructor.
Qed.

(** X23: the handlers that call the route only add to the history: the
    messages of every batch they commit and of the state they end in
    start with the messages they were started with, whatever the
    replies. *)
Theorem history_only_grows
  (st : state) (text : value) (p : proc) (net : nat -> fetch_result) (n : nat) :
  In p (callers st text) ->
  Forall (fun c => extends (messages st) (fst c)) (fst (run p net n)) /\
  extends (messages st) (snd (run p net n)).
Proof.
  intros Hp.
  apply (run_throughout (fun c _ => extends (messages st) c) (extends (messages st))).
  destruct Hp as [<-|[<-|[<-|[]]]].
  - apply sendText_grows.
  - apply onSubmitExercise_grows.
  - apply onClearActive_grows.
Qed.

Lemma history_only_grows_witness :
  Forall (fun c => extends (messages soyState) (fst c))
         (fst (run (sendText soyState (VStr "Hola")) clearingNet 0)) /\
  extends (messages soyState)
          (snd (run (sendText soyState (VStr "Hola")) clearingNet 0)).
Proof.
  apply (history_only_grows soyState (VStr "Hola")
           (sendText soyState (VStr "Hola")) clearingNet 0).
  left. reflexivity.
Defined.


(** *** Typed text *)

Lemma run_await c rq k net n :
  run (Await c rq k) net n
  = ((c, rq) :: fst (run (k (net n)) net (S n)),
     snd (run (k (net n)) net (S n))).
Proof. cbn [run]. now destruct (run (k (net n)) net (S n)). Qed.

(** X24: when the call that [sendText] makes fails, no second call is made;
    the user's message and an error message are added to the history, the
    error text is recorded and [loading] is lowered; the exercise, the
    attempt, the grade, the pending proposal and the onboarding progress
    are as they were. *)
Theorem failed_turn_keeps_exercise
  (st : state) (text : value) (net : nat -> fetch_result) (n : nat)
  (c : state) (rq : api_request) (calls : list (state * api_request))
  (final : state) (e : exn) :
  run (sendText st text) net n = ((c, rq) :: calls, final) ->
  callApiResult (net n) = Throw e ->
  calls = [] /\
  messages final
  = (messages st
       ++ [userMessage (trim (toString (orElse text (VStr EmptyString))));
           errorMessage e])%list /\
  error final = message_of e /\ loading final = false /\
  exerciseFields final = exerciseFields st /\
  pendingProposal final = pendingProposal st /\
  conversationMode final = conversationMode st /\
  onboardingStep final = onboardingStep st.
Proof.
  unfold sendText. cbv zeta.
  destruct (isEmpty _ || loading st); [discriminate|].
  destruct (String.eqb (conversationMode st) "onboarding" && Z.eqb (onboardingStep st) 0);
    [discriminate|].
  destruct (String.eqb (conversationMode st) "onboarding" && Z.eqb (onboardingStep st) 1);
    rewrite run_await; intros R T; rewrite T in R; cbn [run fst snd] in R;
    injection R as <- <- <- <-; cbn; rewrite <- app_assoc; repeat split.
Qed.

Lemma failed_turn_keeps_exercise_witness :
  let final := snd (run (sendText soyState (VStr " Hola ")) failingNet 0) in
  messages final
  = (messages soyState
       ++ [userMessage "Hola"; errorMessage (Error "offline")])%list /\
  error final = "offline" /\ loading final = false /\
  exerciseFields final = exerciseFields soyState /\
  pendingProposal final = pendingProposal soyState /\
  conversationMode final = conversationMode soyState /\
  onboardingStep final = onboardingStep soyState.
Proof.
  destruct (failed_turn_keeps_exercise soyState (VStr " Hola ") failingNet 0
              _ _ _ _ (Error "offline") eq_refl eq_refl) as [_ H].
  exact H.
Defined.

(** X25: a reply to typed text is allowed to clear only an enabled exercise:
    outside the onboarding questions, text typed while no exercise is
    enabled makes exactly one call, in chat mode, and whatever comes back
    the exercise, the attempt and the grade are as they were. *)
Theorem chat_turn_leaves_exercise
  (st : state) (text : value) (net : nat -> fetch_result) (n : nat) :
  loading st = false ->
  isEmpty (trim (toString (orElse text (VStr EmptyString)))) = false ->
  String.eqb (conversationMode st) "onboarding"
  && (Z.eqb (onboardingStep st) 0 || Z.eqb (onboardingStep st) 1) = false ->
  truthy (active st) && isNum 1 (get (active st) "enabled") = false ->
  exists c rq final,
    run (sendText st text) net n = ([(c, rq)], final) /\
    rq_mode rq = "chat" /\
    exerciseFields c = exerciseFields st /\
    exerciseFields final = exerciseFields st.
Proof.
  intros L T O A.
  destruct (onboarding_guards st O) as [G0 G1].
  assert (U : exerciseUsable (active st) = false)
    by (unfold exerciseUsable; now rewrite A).
  unfold sendText. cbv zeta. rewrite T, L, G0, G1, U. cbn [orb].
  rewrite run_await.
  destruct (callApiResult (net n)) as [result|e].
  - rewrite <- andb_assoc, A, andb_false_r. cbn [run fst snd].
    do 3 eexists. split; [reflexivity|]. repeat split.
    now rewrite setLoading_frame, keepProposal_frame, showReply_frame.
  - cbn [run fst snd]. do 3 eexists. split; [reflexivity|]. repeat split.
Qed.

(** The reply of [clearingNet] asks to clear, and there is nothing to
    clear. *)
Lemma chat_turn_leaves_exercise_witness :
  exists c rq final,
    run (sendText idleState (VStr "Hola")) clearingNet 0 = ([(c, rq)], final) /\
    rq_mode rq = "chat" /\
    exerciseFields c = exerciseFields idleState /\
    exerciseFields final = exerciseFields idleState.
Proof.
  apply (chat_turn_leaves_exercise idleState (VStr "Hola") clearingNet 0);
    reflexivity.
Defined.

(** X26: the two onboarding answers.  The first makes no call: it is stored
    as the reported level and the second question is asked.  The second
    makes exactly one call, in chat mode, whose text carries the reported
    level, the level inferred from it and the focus just typed, with the
    whole exchange as history; a reply moves the conversation to chat, a
    failure leaves it at the second question. *)
Theorem placement_after_two_answers
  (st : state) (t1 t2 : value) (net : nat -> fetch_result) (n : nat) :
  conversationMode st = "onboarding" -> onboardingStep st = 0%Z ->
  loading st = false ->
  let level := trim (toString (orElse t1 (VStr EmptyString))) in
  let focus := trim (toString (orElse t2 (VStr EmptyString))) in
  isEmpty level = false -> isEmpty focus = false ->
  let s1 := snd (run (sendText st t1) net n) in
  fst (run (sendText st t1) net n) = [] /\
  levelText (placementOf s1) = level /\
  messages s1 = (messages st ++ [userMessage level; secondQuestion])%list /\
  exists c rq final,
    run (sendText s1 t2) net n = ([(c, rq)], final) /\
    rq_mode rq = "chat" /\
    rq_userText rq
    = VStr (placementRequest level (inferApproxLevel (VStr level)) focus) /\
    rq_messages rq
    = (messages st ++ [userMessage level; secondQuestion; userMessage focus])%list /\
    focusText (placementOf c) = focus /\
    (forall result, callApiResult (net n) = Ok result ->
       conversationMode final = "chat" /\ onboardingStep final = 2%Z) /\
    (forall e, callApiResult (net n) = Throw e ->
       conversationMode final = "onboarding" /\ onboardingStep final = 1%Z).
Proof.
  intros M S L level focus T1 T2.
  assert (E1 : sendText st t1
               = Finish (setOnboardingStep 1
                   (appendMessage secondQuestion
                      (setPlacement
                         (fun prev => {| levelText := level;
                                         focusText := focusText prev |})
                         (setMessages (fun _ => (messages st ++ [userMessage level])%list)
                            (setError EmptyString st)))))).
  { unfold sendText. cbv zeta. fold level. rewrite T1, L, M, S. reflexivity. }
  rewrite E1. cbn [run fst snd]. cbv zeta.
  split; [reflexivity|]. split; [reflexivity|].
  split; [cbn; now rewrite <- app_assoc|].
  unfold sendText. cbv zeta. fold focus. rewrite T2.
  cbn [loading setOnboardingStep appendMessage setPlacement setMessages setError
       conversationMode onboardingStep orb].
  rewrite L, M. cbn [String.eqb Ascii.eqb Bool.eqb Z.eqb Pos.eqb andb].
  rewrite run_await. cbn [run fst snd].
  do 3 eexists. split; [reflexivity|].
  split; [reflexivity|]. split; [reflexivity|].
  split; [cbn; now rewrite <- !app_assoc|]. split; [reflexivity|].
  split.
  - intros result ->.
    destruct (isNum 1 (get result "clear_active")); cbn;
      unfold keepProposal, showReply;
      destruct (proposalEnabled result), (typeofString (get result "response"));
      split; reflexivity.
  - intros e ->. cbn. now rewrite M.
Qed.

Lemma placement_after_two_answers_witness :
  let level := "intermediate" in
  let focus := "travel vocabulary" in
  let s1 := snd (run (sendText onboardingState (VStr "intermediate"))
                   clearingNet 0) in
  fst (run (sendText onboardingState (VStr "intermediate")) clearingNet 0) = [] /\
  levelText (placementOf s1) = level /\
  messages s1
  = (messages onboardingState ++ [userMessage level; secondQuestion])%list /\
  exists c rq final,
    run (sendText s1 (VStr "travel vocabulary")) clearingNet 0
    = ([(c, rq)], final) /\
    rq_mode rq = "chat" /\
    rq_userText rq
    = VStr (placementRequest level (inferApproxLevel (VStr level)) focus) /\
    rq_messages rq
    = (messages onboardingState
         ++ [userMessage level; secondQuestion; userMessage focus])%list /\
    focusText (placementOf c) = focus /\
    (forall result, callApiResult (clearingNet 0%nat) = Ok result ->
       conversationMode final = "chat" /\ onboardingStep final = 2%Z) /\
    (forall e, callApiResult (clearingNet 0%nat) = Throw e ->
       conversationMode final = "onboarding" /\ onboardingStep final = 1%Z).
Proof.
  apply (placement_after_two_answers onboardingState (VStr "intermediate")
           (VStr "travel vocabulary") clearingNet 0); reflexivity.
Defined.

(** The level sent for the answer "intermediate" is B1. *)
Example placement_level :
  inferApproxLevel (VStr "intermediate") = "B1".
Proof. reflexivity. Qed.


(** *** Starting an exercise *)

Lemma made_exercise_usable proposal :
  makeActiveFromProposal proposal <> VNull ->
  exerciseUsable (makeActiveFromProposal proposal) = true /\
  truthy (makeActiveFromProposal proposal) = true /\
  get (makeActiveFromProposal proposal) "exercise_id"
  = orElse (get proposal "proposal_id") VNull.
Proof.
  unfold makeActiveFromProposal.
  destruct (negb (truthy proposal) || negb (isNum 1 (get proposal "enabled"))
            || negb (truthy (get proposal "problem_type"))) eqn:G;
    [congruence|].
  intros _. apply orb_false_iff in G. destruct G as [_ G].
  apply negb_false_iff in G.
  unfold exerciseUsable. cbn. rewrite G. repeat split.
Qed.

(** X27: starting an enabled proposal while no call is in flight makes the
    exercise built from it the active one and leaves the history alone;
    text typed next, outside the onboarding questions, goes out as a help
    request about that exercise. *)
Theorem started_exercise_gets_help
  (st : state) (proposal text : value) :
  loading st = false ->
  makeActiveFromProposal proposal <> VNull ->
  isEmpty (trim (toString (orElse text (VStr EmptyString)))) = false ->
  String.eqb (conversationMode st) "onboarding"
  && (Z.eqb (onboardingStep st) 0 || Z.eqb (onboardingStep st) 1) = false ->
  let st' := onStartProposal st proposal in
  active st' = makeActiveFromProposal proposal /\
  messages st' = messages st /\
  (forall a, defaultAttemptForActive (makeActiveFromProposal proposal) = Ok a ->
             attempt st' = a /\ grade st' = VNull) /\
  exists c rq k,
    sendText st' text = Await c rq k /\
    rq_mode rq = "help" /\
    rq_active rq = makeActiveFromProposal proposal /\
    get (rq_active rq) "exercise_id" = orElse (get proposal "proposal_id") VNull.
Proof.
  intros L N T O. cbv zeta.
  destruct (made_exercise_usable proposal N) as [U [Tr Id]].
  destruct (onboarding_guards st O) as [G0 G1].
  assert (F : active (onStartProposal st proposal) = makeActiveFromProposal proposal
              /\ messages (onStartProposal st proposal) = messages st
              /\ loading (onStartProposal st proposal) = false
              /\ conversationMode (onStartProposal st proposal) = conversationMode st
              /\ onboardingStep (onStartProposal st proposal) = onboardingStep st
              /\ (forall a,
                    defaultAttemptForActive (makeActiveFromProposal proposal) = Ok a ->
                    attempt (onStartProposal st proposal) = a /\
                    grade (onStartProposal st proposal) = VNull)).
  { unfold onStartProposal. rewrite L, Tr. cbn [negb].
    destruct (defaultAttemptForActive (makeActiveFromProposal proposal)) as [a|e].
    - destruct (truthy (get proposal "proposal_id") && _);
        (do 5 (split; [first [reflexivity|exact L]|]));
        intros a' [= <-]; split; reflexivity.
    - (do 5 (split; [first [reflexivity|exact L]|])); discriminate. }
  destruct F as [Fa [Fm [Fl [Fc [Fo Fd]]]]].
  split; [exact Fa|]. split; [exact Fm|]. split; [exact Fd|].
  unfold sendText. cbv zeta. rewrite T, Fl, Fc, Fo, G0, G1, Fa, U. cbn [orb].
  do 3 eexists. split; [reflexivity|].
  cbn [rq_mode rq_active requestOf]. rewrite Fa. repeat split. exact Id.
Qed.

Lemma started_exercise_gets_help_witness :
  let proposal := get conflictOutput "proposal" in
  let st' := onStartProposal idleState proposal in
  active st' = makeActiveFromProposal proposal /\
  messages st' = messages idleState /\
  (forall a, defaultAttemptForActive (makeActiveFromProposal proposal) = Ok a ->
             attempt st' = a /\ grade st' = VNull) /\
  exists c rq k,
    sendText st' (VStr "What does dias mean?") = Await c rq k /\
    rq_mode rq = "help" /\
    rq_active rq = makeActiveFromProposal proposal /\
    get (rq_active rq) "exercise_id" = orElse (get proposal "proposal_id") VNull.
Proof.
  apply (started_exercise_gets_help idleState (get conflictOutput "proposal")
           (VStr "What does dias mean?"));
    [reflexivity | discriminate | reflexivity | reflexivity].
Defined.

(** *** A wrong answer *)

Lemma last_snoc {A} (l : list A) x d : List.last (l ++ [x]) d = x.
Proof. apply last_last. Qed.

Lemma offerHelp_idempotent exercise prev :
  match get exercise "exercise_id" with VStr _ | VNull => True | _ => False end ->
  offerHelp exercise (offerHelp exercise prev) = offerHelp exercise prev.
Proof.
  intros Hid. unfold offerHelp at 2.
  destruct (isNum 1 (get (get (List.last prev VUndef) "help_offer") "enabled")
            && strictEq (get (get (List.last prev VUndef) "help_offer") "exercise_id")
                        (get exercise "exercise_id")) eqn:E.
  - unfold offerHelp. now rewrite E.
  - unfold offerHelp. rewrite E, last_snoc.
    change (get (get (helpOffer exercise) "help_offer") "enabled") with (VNum 1).
    change (get (get (helpOffer exercise) "help_offer") "exercise_id")
      with (orElse (get exercise "exercise_id") VNull).
    destruct (get exercise "exercise_id"); try contradiction; simpl;
      [reflexivity|now rewrite String.eqb_refl].
Qed.

Lemma resubmit st g (f : list value -> list value) :
  f (f (messages st)) = f (messages st) ->
  setMessages f (setGrade g (setMessages f (setGrade g st)))
  = setMessages f (setGrade g st).
Proof. intros E. unfold setMessages, setGrade. cbn. now rewrite E. Qed.

(** X28: an objective answer that is not fully correct makes no call: the
    grade is recorded, the exercise and the attempt stay, and the help offer
    is the last message.  Submitting the same answer again changes nothing:
    the offer is not repeated. *)
Theorem wrong_answer_offers_help_once
  (st : state) (g : value) (net : nat -> fetch_result) (n : nat) :
  truthy (active st) && isNum 1 (get (active st) "enabled") = true ->
  match get (active st) "exercise_id" with
  | VStr _ | VNull => True
  | _ => False
  end ->
  gradeObjective (active st) (attempt st) = Ok g ->
  truthy g = true -> truthy (get g "allCorrect") = false ->
  let s1 := snd (run (onSubmitObjective st) net n) in
  fst (run (onSubmitObjective st) net n) = [] /\
  grade s1 = g /\ active s1 = active st /\ attempt s1 = attempt st /\
  get (get (List.last (messages s1) VUndef) "help_offer") "enabled" = VNum 1 /\
  run (onSubmitObjective s1) net n = ([], s1).
Proof.
  intros En Hid G Tg Wrong. cbv zeta.
  pose proof (enabled_guard st En) as Guard.
  assert (E1 : onSubmitObjective st
               = Finish (setMessages (offerHelp (active st)) (setGrade g st))).
  { unfold onSubmitObjective. now rewrite Guard, G, Tg, Wrong. }
  rewrite E1. cbn [run fst snd].
  split; [reflexivity|]. split; [reflexivity|]. split; [reflexivity|].
  split; [reflexivity|]. split.
  - cbn [messages setMessages setGrade]. unfold offerHelp.
    destruct (isNum 1 (get (get (List.last (messages st) VUndef) "help_offer") "enabled")
              && _) eqn:E.
    + apply andb_true_iff in E. destruct E as [E _]. now apply isNum_true in E.
    + now rewrite last_snoc.
  - set (s1 := setMessages (offerHelp (active st)) (setGrade g st)).
    assert (A1 : active s1 = active st) by reflexivity.
    assert (T1 : attempt s1 = attempt st) by reflexivity.
    unfold onSubmitObjective. rewrite A1, T1, Guard, G, Tg, Wrong.
    cbn [negb run]. f_equal. subst s1.
    apply resubmit, offerHelp_idempotent, Hid.
Qed.

Lemma wrong_answer_offers_help_once_witness :
  let g := VObj [("kind", VStr "fill_in_blank");
                 ("allCorrect", VBool false);
                 ("results",
                   VArr [VObj [("id", VStr "b1"); ("correct", VBool false)]] [])] in
  let s1 := snd (run (onSubmitObjective wrongState) clearingNet 0) in
  fst (run (onSubmitObjective wrongState) clearingNet 0) = [] /\
  grade s1 = g /\ active s1 = active wrongState /\
  attempt s1 = attempt wrongState /\
  get (get (List.last (messages s1) VUndef) "help_offer") "enabled" = VNum 1 /\
  run (onSubmitObjective s1) clearingNet 0 = ([], s1).
Proof.
  apply (wrong_answer_offers_help_once wrongState
           (VObj [("kind", VStr "fill_in_blank");
                  ("allCorrect", VBool false);
                  ("results",
                    VArr [VObj [("id", VStr "b1"); ("correct", VBool false)]] [])])
           clearingNet 0);
    [reflexivity | exact I | reflexivity | reflexivity | reflexivity].
Defined.

End ControllerFacts.

(** ** Controller and route together *)

Module TransportFacts.
Import Route Page Trace Samples RouteFacts LifecycleFacts ControllerFacts
  HandlerFacts NormalizerLaws TextFacts.

(** A property that is defined survives the JSON round trip, copied. *)
Lemma lookup_clone k props x :
  lookup k props = Some x -> x <> VUndef ->
  lookup k (flat_map (fun kx : string * value =>
                        match kx with
                        | (k, x) => match x with
                                    | VUndef => []
                                    | _ => [(k, jsonClone x)]
                                    end
                        end) props)
  = Some (jsonClone x).
Proof.
  intros L D. induction props as [|[k' v'] rest IH]; [discriminate|].
  cbn [lookup] in L. cbn [flat_map].
  destruct (String.eqb k k') eqn:E.
  - injection L as ->.
    destruct x; try congruence; cbn [app lookup]; now rewrite E.
  - specialize (IH L).
    destruct v'; cbn [app lookup]; try rewrite E; exact IH.
Qed.

Lemma get_clone_defined props k :
  get (VObj props) k <> VUndef ->
  get (jsonClone (VObj props)) k = jsonClone (get (VObj props) k).
Proof.
  cbn [get jsonClone]. destruct (lookup k props) as [x|] eqn:L; [|congruence].
  intros D. now rewrite (lookup_clone k props x L D).
Qed.


Lemma truthy_clone v : truthy (jsonClone v) = truthy v.
Proof. now destruct v. Qed.

Lemma made_exercise_object proposal :
  makeActiveFromProposal proposal <> VNull ->
  exists props, makeActiveFromProposal proposal = VObj props.
Proof.
  unfold makeActiveFromProposal. destruct (_ || _); [congruence|]. eauto.
Qed.

(** The exercise the client holds is usable for the route as well, once
    serialized and parsed. *)
Lemma clone_made_usable proposal :
  makeActiveFromProposal proposal <> VNull ->
  activeUsable (jsonClone (makeActiveFromProposal proposal)) = true.
Proof.
  intros N.
  destruct (made_exercise_usable proposal N) as [U _].
  destruct (made_exercise_object proposal N) as [props E].
  rewrite E in *. unfold exerciseUsable in U. unfold activeUsable.
  apply andb_true_iff in U. destruct U as [U Tp].
  apply andb_true_iff in U. destruct U as [_ En].
  apply isNum_true in En.
  rewrite !get_clone_defined.
  - rewrite En, !truthy_clone, Tp. reflexivity.
  - intros H. rewrite H in Tp. discriminate.
  - rewrite En. discriminate.
Qed.

Lemma no_400 parse e fs body :
  effectiveModeOf body = PostClear \/
  (hasUserText body = true /\
   (effectiveModeOf body = Help -> activeUsable (activeOf body) = true)) ->
  forall msg, POST parse e fs (Ok body) <> Respond (jsonError 400 msg).
Proof.
  intros H msg. unfold POST, prepare. cbn [bind].
  destruct (OPENAI_API_KEY e) as [apiKey|]; [|discriminate].
  destruct (isEmpty apiKey); [discriminate|].
  destruct (schemaJson fs); cbn [bind]; [|discriminate].
  destruct (promptsJson fs) as [prompts|]; cbn [bind]; [|discriminate].
  destruct (buildSystemPrompt (configOf body) prompts); cbn [bind]; [|discriminate].
  unfold userContentFor.
  destruct (effectiveModeOf body) eqn:M.
  - destruct H as [H|[T _]]; [discriminate|]. rewrite T. discriminate.
  - destruct H as [H|[T U]]; [discriminate|]. rewrite T, (U eq_refl).
    cbn [negb]. destruct (redactActiveForModel (activeOf body)); discriminate.
  - destruct (isEmpty _); discriminate.
Qed.

Lemma body_mode rq : get (bodyOf rq) "mode" = VStr (rq_mode rq).
Proof. unfold bodyOf. now rewrite get_clone_defined by discriminate. Qed.

Lemma body_userText rq t :
  rq_userText rq = VStr t -> userTextOf (bodyOf rq) = t.
Proof.
  intros H. unfold userTextOf, bodyOf.
  rewrite get_clone_defined; cbn [get lookup String.eqb Ascii.eqb Bool.eqb];
    now rewrite H.
Qed.

Lemma body_active rq :
  rq_active rq <> VUndef -> get (bodyOf rq) "active" = jsonClone (rq_active rq).
Proof.
  intros H. unfold bodyOf.
  now rewrite get_clone_defined.
Qed.

Lemma activeOf_body rq proposal :
  rq_active rq = makeActiveFromProposal proposal ->
  makeActiveFromProposal proposal <> VNull ->
  activeOf (bodyOf rq) = jsonClone (makeActiveFromProposal proposal).
Proof.
  intros A N. destruct (made_exercise_object proposal N) as [props E].
  unfold activeOf. rewrite body_active by (rewrite A, E; discriminate).
  rewrite A, E. reflexivity.
Qed.

Lemma wellFormed_passes parse e fs rq proposal :
  wellFormedRequest rq -> rq_active rq = makeActiveFromProposal proposal ->
  forall msg, POST parse e fs (Ok (bodyOf rq)) <> Respond (jsonError 400 msg).
Proof.
  intros W A. apply no_400.
  destruct W as [W|[[t [Ht Tt]] W]].
  - left. unfold effectiveModeOf. now rewrite body_mode, W.
  - right. split.
    + unfold hasUserText. now rewrite (body_userText rq t Ht), Tt.
    + unfold effectiveModeOf, modeOf. rewrite body_mode.
      destruct (activeUsable (activeOf (bodyOf rq))) eqn:U; [reflexivity|].
      destruct W as [-> | [-> Us]]; [discriminate|]. intros _.
      assert (N : makeActiveFromProposal proposal <> VNull).
      { intros E. rewrite A, E in Us. discriminate. }
      rewrite (activeOf_body rq proposal A N), clone_made_usable in U
        by assumption.
      discriminate.
Qed.

(** *** The requests of the handlers *)

Lemma trim_keeps_head c r :
  isSpace c = false -> isEmpty (trim (String c r)) = false.
Proof.
  intros S. unfold trim. cbn [trimStart]. rewrite S.
  rewrite trimEnd_cons. destruct (trimEnd r); [now rewrite S|reflexivity].
Qed.

Lemma trimmed_not_blank s :
  isEmpty (trim s) = false -> isEmpty (trim (trim s)) = false.
Proof. now rewrite trim_idempotent. Qed.


Lemma sound_triggerPostClear st cleared outcome override s k :
  (forall s', throughout (sound st) (fun _ => True) (k s')) ->
  throughout (sound st) (fun _ => True)
    (triggerPostClear st cleared outcome override s k).
Proof.
  intros H. apply throughout_triggerPostClear.
  - split; [left|]; reflexivity.
  - intros fr. apply H.
Qed.

Lemma sendText_sound st text :
  throughout (sound st) (fun _ => True) (sendText st text).
Proof.
  unfold sendText. cbv zeta.
  destruct (isEmpty (trim (toString (orElse text (VStr EmptyString))))) eqn:T;
    [now constructor|].
  destruct (loading st); [now constructor|]. cbn [orb].
  destruct (String.eqb (conversationMode st) "onboarding" && Z.eqb (onboardingStep st) 0);
    [now constructor|].
  destruct (String.eqb (conversationMode st) "onboarding" && Z.eqb (onboardingStep st) 1).
  - constructor; [|intros fr; now constructor].
    split; [|reflexivity]. right. split; [|left; reflexivity].
    eexists. split; [reflexivity|]. now apply trim_keeps_head.
  - constructor.
    + split; [|reflexivity]. right. split.
      * eexists. split; [reflexivity|]. now apply trimmed_not_blank.
      * cbn [rq_mode rq_active requestOf].
        destruct (exerciseUsable (active st)) eqn:U; auto.
    + intros fr. destruct (callApiResult fr) as [result|err]; [|now constructor].
      destruct (isNum 1 (get result "clear_active") && truthy (active st)
                && isNum 1 (get (active st) "enabled")); [|now constructor].
      apply sound_triggerPostClear. intros s'. now constructor.
Qed.

Lemma onSubmitObjective_sound st :
  throughout (sound st) (fun _ => True) (onSubmitObjective st).
Proof.
  unfold onSubmitObjective.
  destruct (negb (truthy (active st)) || negb (isNum 1 (get (active st) "enabled")));
    [now constructor|].
  destruct (gradeObjective (active st) (attempt st)) as [g|]; [|now constructor].
  destruct (negb (truthy g)); [now constructor|].
  destruct (truthy (get g "allCorrect")); [|now constructor].
  apply sound_triggerPostClear. intros s'. now constructor.
Qed.

Lemma onSubmitExercise_sound st proposal :
  active st = makeActiveFromProposal proposal ->
  throughout (sound st) (fun _ => True) (onSubmitExercise st).
Proof.
  intros A. unfold onSubmitExercise.
  destruct (negb (truthy (active st)) || negb (isNum 1 (get (active st) "enabled"))
            || loading st) eqn:G; [now constructor|].
  destruct (isStr "fill_in_blank" (get (active st) "problem_type")
            || isStr "multiple_choice" (get (active st) "problem_type"));
    [apply onSubmitObjective_sound|].
  constructor.
  - split; [|reflexivity]. right. split.
    + eexists. split; [reflexivity|reflexivity].
    + right. split; [reflexivity|]. cbn [rq_active requestOf]. rewrite A.
      apply made_exercise_usable. intros E. rewrite A, E in G. discriminate.
  - intros fr. destruct (callApiResult fr) as [result|err]; [|now constructor].
    destruct (isNum 1 (get result "clear_active")); [|now constructor].
    apply sound_triggerPostClear. intros s'. now constructor.
Qed.

Lemma onClearActive_sound st :
  throughout (sound st) (fun _ => True) (onClearActive st).
Proof.
  unfold onClearActive. destruct (loading st); [now constructor|].
  destruct (negb (truthy (active st)) || negb (isNum 1 (get (active st) "enabled")));
    [now constructor|].
  apply sound_triggerPostClear. intros s'. now constructor.
Qed.

(** X29: client and route agree on what a valid request is.  With the
    active exercise null or built from a proposal, no request that the
    handlers make is answered with status 400: each is a post_clear
    request, or carries text that is not blank and asks for help only
    about an exercise the route finds usable too, after serialization. *)
Theorem requests_pass_validation
  (st : state) (proposal text : value) (p : proc)
  (net : nat -> fetch_result) (n : nat)
  (parse : string -> res value) (e : env) (fs : files) :
  active st = makeActiveFromProposal proposal ->
  In p (callers st text) ->
  Forall (fun c =>
            wellFormedRequest (snd c) /\
            forall msg,
              POST parse e fs (Ok (bodyOf (snd c))) <> Respond (jsonError 400 msg))
         (fst (run p net n)).
Proof.
  intros A Hp.
  assert (T : throughout (sound st) (fun _ => True) p).
  { destruct Hp as [<-|[<-|[<-|[]]]].
    - apply sendText_sound.
    - now apply (onSubmitExercise_sound st proposal).
    - apply onClearActive_sound. }
  destruct (run_throughout _ _ p net n T) as [F _].
  eapply Forall_impl; [|exact F].
  intros [c rq] [W Ra]. cbn [fst snd] in *. split; [exact W|].
  apply (wellFormed_passes parse e fs rq proposal W). now rewrite Ra.
Qed.

Lemma requests_pass_validation_witness :
  Forall (fun c =>
            wellFormedRequest (snd c) /\
            forall msg,
              POST parseNothing sampleEnv sampleFiles (Ok (bodyOf (snd c)))
              <> Respond (jsonError 400 msg))
         (fst (run (sendText soyState (VStr "Hola")) clearingNet 0)).
Proof.
  apply (requests_pass_validation soyState soyProposal (VStr "Hola")
           (sendText soyState (VStr "Hola")) clearingNet 0
           parseNothing sampleEnv sampleFiles);
    [reflexivity | left; reflexivity].
Defined.

(** The two requests of that run as the route reads them: a help request
    about the exercise, then the post_clear request. *)
Example requests_on_the_wire :
  map (fun c => (effectiveModeOf (bodyOf (snd c)),
                 userTextOf (bodyOf (snd c))))
      (fst (run (sendText soyState (VStr "Hola")) clearingNet 0))
  = [(Help, "Hola"); (PostClear, "post_clear")].
Proof. reflexivity. Qed.


(** *** The answer on its way back *)

Lemma clone_field o k x :
  isContainer o = true -> get o k = x -> x <> VUndef -> jsonClone x = x ->
  get (jsonClone o) k = x \/ get (jsonClone o) k = VUndef.
Proof.
  intros C G D J. destruct o; try discriminate.
  - right. reflexivity.
  - left. rewrite get_clone_defined by (rewrite G; exact D). now rewrite G.
Qed.

(** X30: what the client reads from a 200 answer never has both an enabled
    poll and an enabled proposal, nor an enabled poll with [clear_active]
    1: the message it appends carries a poll or a proposal, not both, and a
    reply with a poll leaves the pending proposal alone. *)
Theorem reply_has_poll_or_proposal (parsed : value) (m : mode) :
  exists result,
    callApiResult
      (replyOf {| status := 200; payload := normalizeModelOutput parsed m |})
    = Ok result /\
    (pollEnabled result = false \/
     (proposalEnabled result = false /\
      isNum 1 (get result "clear_active") = false)) /\
    (get (assistantMessage result) "poll" = VUndef \/
     get (assistantMessage result) "proposal" = VUndef) /\
    (pollEnabled result = false \/ forall s, keepProposal result s = s).
Proof.
  exists (jsonClone (normalizeModelOutput parsed m)).
  split; [reflexivity|].
  pose proof (normalize_container parsed m) as C.
  pose proof (normalize_poll_alone parsed m) as A. cbv zeta in A.
  set (out := normalizeModelOutput parsed m) in *.
  assert (X : pollEnabled (jsonClone out) = false \/
              (proposalEnabled (jsonClone out) = false /\
               isNum 1 (get (jsonClone out) "clear_active") = false)).
  { destruct A as [A|[A1 A2]].
    - left. unfold pollEnabled.
      destruct (clone_field out "poll" disabledPoll C A) as [-> | ->];
        try reflexivity; discriminate.
    - right. unfold proposalEnabled. split.
      + destruct (clone_field out "proposal" disabledProposal C A1) as [-> | ->];
          try reflexivity; discriminate.
      + destruct (clone_field out "clear_active" (VNum 0) C A2) as [-> | ->];
          try reflexivity; discriminate. }
  split; [exact X|].
  assert (Y : pollEnabled (jsonClone out) = false \/
              proposalEnabled (jsonClone out) = false) by tauto.
  split.
  - unfold assistantMessage. destruct Y as [-> | ->].
    + left. now destruct (proposalEnabled (jsonClone out)).
    + right. now destruct (pollEnabled (jsonClone out)).
  - destruct Y as [Y|Y]; [now left|]. right. intros s.
    unfold keepProposal. now rewrite Y.
Qed.

End TransportFacts.
